(** * CleanSlide: the mask / crop editing core

    A shallow embedding of the editing engine of the repository
    (types.ts, the application root that renders the preview and the
    controls, components/CropControls.tsx, components/PdfPreview.tsx,
    services/pdfService.ts and services/geminiService.ts), followed by
    the properties of it that the specification states.

    Conventions of the embedding.
    - A JavaScript [number] that carries a percentage or a pixel offset
      is a rational ([Q]); the arithmetic is exact, so [NaN] and the
      infinities have no counterpart.  A number that
      carries a page number or a colour channel is an integer ([Z]).
    - An optional field ([imageSnapshot?], [pageIndex?]) is an [option];
      both "key absent" and "key set to undefined" are [None].
    - React state is passed explicitly: a handler takes the values its
      closure captured and returns the new state together with the
      calls it made to the callbacks it was given. *)

From Stdlib Require Import ZArith QArith Qround String Ascii List Bool Lia Lqa.
From Stdlib Require DecimalString HexadecimalString HexadecimalPos DecimalPos DecimalZ.
From stdpp Require Import base list.
Import ListNotations.

Local Open Scope string_scope.
Local Open Scope list_scope.
Local Open Scope Z_scope.

(* ------------------------------------------------------------------ *)
(** ** types.ts *)

Record CropMargins := mkCropMargins {
  top : Q;
  bottom : Q;
  left : Q;
  right : Q
}.

Inductive MaskFillType :=
  | solid
  | clone_top
  | clone_bottom
  | clone_left
  | clone_right.

Definition MaskFillType_eqb (a b : MaskFillType) : bool :=
  match a, b with
  | solid, solid
  | clone_top, clone_top
  | clone_bottom, clone_bottom
  | clone_left, clone_left
  | clone_right, clone_right => true
  | _, _ => false
  end.

Record Mask := mkMask {
  id : string;
  x : Q;
  y : Q;
  width : Q;
  height : Q;
  color : string;
  fillType : MaskFillType;
  imageSnapshot : option string;
  pageIndex : option Z
}.

Inductive EditMode := CROP | MASK.

(** Object spread with one overridden key, [{ ...m, key: v }]. *)
Definition with_x (m : Mask) (v : Q) : Mask :=
  mkMask (id m) v (y m) (width m) (height m) (color m) (fillType m)
         (imageSnapshot m) (pageIndex m).
Definition with_y (m : Mask) (v : Q) : Mask :=
  mkMask (id m) (x m) v (width m) (height m) (color m) (fillType m)
         (imageSnapshot m) (pageIndex m).
Definition with_width (m : Mask) (v : Q) : Mask :=
  mkMask (id m) (x m) (y m) v (height m) (color m) (fillType m)
         (imageSnapshot m) (pageIndex m).
Definition with_height (m : Mask) (v : Q) : Mask :=
  mkMask (id m) (x m) (y m) (width m) v (color m) (fillType m)
         (imageSnapshot m) (pageIndex m).
Definition with_id (m : Mask) (v : string) : Mask :=
  mkMask v (x m) (y m) (width m) (height m) (color m) (fillType m)
         (imageSnapshot m) (pageIndex m).
Definition with_color (m : Mask) (v : string) : Mask :=
  mkMask (id m) (x m) (y m) (width m) (height m) v (fillType m)
         (imageSnapshot m) (pageIndex m).
Definition with_fillType (m : Mask) (v : MaskFillType) : Mask :=
  mkMask (id m) (x m) (y m) (width m) (height m) (color m) v
         (imageSnapshot m) (pageIndex m).
Definition with_imageSnapshot (m : Mask) (v : option string) : Mask :=
  mkMask (id m) (x m) (y m) (width m) (height m) (color m) (fillType m)
         v (pageIndex m).
Definition with_pageIndex (m : Mask) (v : option Z) : Mask :=
  mkMask (id m) (x m) (y m) (width m) (height m) (color m) (fillType m)
         (imageSnapshot m) v.

(** JavaScript truthiness of an optional string: [undefined] and the
    empty string are falsy. *)
Definition truthy (s : option string) : bool :=
  match s with
  | None => false
  | Some EmptyString => false
  | Some (String _ _) => true
  end.

(* ------------------------------------------------------------------ *)
(** ** The Mask Store (the application root: the [masks] state and its
    CRUD handlers) *)

Module Store.

(** [handleAddMask]: the new array and the new [selectedMaskId]. *)
Definition handleAddMask (masks : list Mask) (currentPage : Z)
    (newMask : Mask) : list Mask * option string :=
  let maskWithPage := with_pageIndex newMask (Some (currentPage - 1)) in
  (masks ++ [maskWithPage], Some (id newMask)).

(** [handleUpdateMask]: [masks.map(m => m.id === updatedMask.id ? updatedMask : m)]. *)
Definition handleUpdateMask (masks : list Mask) (updatedMask : Mask) : list Mask :=
  List.map (fun m => if String.eqb (id m) (id updatedMask) then updatedMask else m)
           masks.

(** [handleDeleteMask]. *)
Definition handleDeleteMask (masks : list Mask) (selectedMaskId : option string)
    (i : string) : list Mask * option string :=
  (List.filter (fun m => negb (String.eqb (id m) i)) masks,
   match selectedMaskId with
   | Some s => if String.eqb s i then None else selectedMaskId
   | None => None
   end).

(** The page-scope test that both the preview and the exporter give to
    [Array.prototype.filter]:
    [m.pageIndex === undefined || m.pageIndex === target]. *)
Definition onPage (target : Z) (m : Mask) : bool :=
  match pageIndex m with
  | None => true
  | Some i => Z.eqb i target
  end.

(** PdfPreview.tsx, [visibleMasks] (the same expression occurs in the
    snapshot effect and in the render body). *)
Definition visibleMasks (masks : list Mask) (currentPage : Z) : list Mask :=
  List.filter (onPage (currentPage - 1)) masks.

(** pdfService.ts, [pageMasks] inside the page loop of
    [modifyPdfWithMasks]. *)
Definition pageMasks (masks : list Mask) (i : Z) : list Mask :=
  List.filter (onPage i) masks.

End Store.

(* ------------------------------------------------------------------ *)
(** ** Comparisons of numbers as the source writes them *)

Definition Qgtb (a b : Q) : bool := negb (Qle_bool a b).
Definition Qltb (a b : Q) : bool := negb (Qle_bool b a).

(** [Math.max] and [Math.min] on two numbers. *)
Definition Math_max (a b : Q) : Q := if Qle_bool a b then b else a.
Definition Math_min (a b : Q) : Q := if Qle_bool a b then a else b.
Definition Math_abs (a : Q) : Q := if Qle_bool 0 a then a else Qopp a.

(* ------------------------------------------------------------------ *)
(** ** components/CropControls.tsx *)

Module CropControls.

Inductive MarginKey := key_top | key_bottom | key_left | key_right.

Definition is_key (a b : MarginKey) : bool :=
  match a, b with
  | key_top, key_top | key_bottom, key_bottom
  | key_left, key_left | key_right, key_right => true
  | _, _ => false
  end.

(** [{ ...margins, [key]: v }] *)
Definition set_margin (margins : CropMargins) (key : MarginKey) (v : Q) : CropMargins :=
  match key with
  | key_top => mkCropMargins v (bottom margins) (left margins) (right margins)
  | key_bottom => mkCropMargins (top margins) v (left margins) (right margins)
  | key_left => mkCropMargins (top margins) (bottom margins) v (right margins)
  | key_right => mkCropMargins (top margins) (bottom margins) (left margins) v
  end.

Definition get_margin (margins : CropMargins) (key : MarginKey) : Q :=
  match key with
  | key_top => top margins
  | key_bottom => bottom margins
  | key_left => left margins
  | key_right => right margins
  end.

(** The side that shares an axis with [key]. *)
Definition opposing (key : MarginKey) : MarginKey :=
  match key with
  | key_top => key_bottom
  | key_bottom => key_top
  | key_left => key_right
  | key_right => key_left
  end.

(** [handleChange]: the value handed to [onChangeMargins]. *)
Definition handleChange (margins : CropMargins) (key : MarginKey) (value : Q)
    : CropMargins :=
  let safeValue := value in
  let safeValue :=
    if is_key key key_top && Qgtb (value + bottom margins)%Q 90%Q
    then (90 - bottom margins)%Q else safeValue in
  let safeValue :=
    if is_key key key_bottom && Qgtb (value + top margins)%Q 90%Q
    then (90 - top margins)%Q else safeValue in
  let safeValue :=
    if is_key key key_left && Qgtb (value + right margins)%Q 90%Q
    then (90 - right margins)%Q else safeValue in
  let safeValue :=
    if is_key key key_right && Qgtb (value + left margins)%Q 90%Q
    then (90 - left margins)%Q else safeValue in
  set_margin margins key safeValue.

(** [masks.find(m => m.id === selectedMaskId)] *)
Definition selectedMask (masks : list Mask) (selectedMaskId : option string)
    : option Mask :=
  match selectedMaskId with
  | None => None
  | Some s => List.find (fun m => String.eqb (id m) s) masks
  end.

(** A key of [Mask] together with the value assigned to it: the two
    arguments of [handleMaskChange], and the one-entry object
    [{ [key]: value }] built from them. *)
Inductive MaskEntry :=
  | set_id (v : string)
  | set_x (v : Q)
  | set_y (v : Q)
  | set_width (v : Q)
  | set_height (v : Q)
  | set_color (v : string)
  | set_fillType (v : MaskFillType)
  | set_imageSnapshot (v : option string)
  | set_pageIndex (v : option Z).

Definition is_fillType (e : MaskEntry) : bool :=
  match e with set_fillType _ => true | _ => false end.

(** [{ ...m, ...{ [key]: value } }] *)
Definition assign (m : Mask) (e : MaskEntry) : Mask :=
  match e with
  | set_id v => with_id m v
  | set_x v => with_x m v
  | set_y v => with_y m v
  | set_width v => with_width m v
  | set_height v => with_height m v
  | set_color v => with_color m v
  | set_fillType v => with_fillType m v
  | set_imageSnapshot v => with_imageSnapshot m v
  | set_pageIndex v => with_pageIndex m v
  end.

(** [handleMaskChange]: the argument of the [onUpdateMask] call, if one
    is made.  [updates] gets the extra key [imageSnapshot: undefined]
    exactly when [key === 'fillType']. *)
Definition handleMaskChange (masks : list Mask) (selectedMaskId : option string)
    (e : MaskEntry) : option Mask :=
  match selectedMask masks selectedMaskId with
  | None => None
  | Some sel =>
      let updated := assign sel e in
      Some (if is_fillType e then with_imageSnapshot updated None else updated)
  end.

(** [toggleMaskScope] *)
Definition toggleMaskScope (masks : list Mask) (selectedMaskId : option string)
    (currentPage : Z) : option Mask :=
  match selectedMask masks selectedMaskId with
  | None => None
  | Some sel =>
      let newPageIndex :=
        match pageIndex sel with
        | Some _ => None
        | None => Some (currentPage - 1)
        end in
      Some (with_pageIndex sel newPageIndex)
  end.

End CropControls.

(* ------------------------------------------------------------------ *)
(** ** Strings and integers as JavaScript prints them *)

Module JS.

(** [s.includes(sub)] *)
Fixpoint includes (s sub : string) : bool :=
  String.prefix sub s ||
  match s with
  | EmptyString => false
  | String _ rest => includes rest sub
  end.

(** [s.startsWith(p)] *)
Definition startsWith (s p : string) : bool := String.prefix p s.

(** [s.slice(a, b)] for 0 <= a <= b *)
Definition slice (s : string) (a b : nat) : string :=
  String.substring a (b - a) s.

(** [s.slice(1)] *)
Definition slice1 (s : string) : string :=
  match s with
  | EmptyString => EmptyString
  | String _ rest => rest
  end.

Definition upper (c : ascii) : ascii :=
  let k := nat_of_ascii c in
  if (Nat.leb 97 k && Nat.leb k 122)%bool then ascii_of_nat (k - 32) else c.

(** [s.toUpperCase()], on the ASCII range *)
Fixpoint toUpperCase (s : string) : string :=
  match s with
  | EmptyString => EmptyString
  | String c rest => String (upper c) (toUpperCase rest)
  end.

(** [n.toString(16)] and the default [String(n)], for an integer *)
Definition toString16 (n : Z) : string :=
  HexadecimalString.NilZero.string_of_int (Z.to_hex_int n).
Definition toString10 (n : Z) : string :=
  DecimalString.NilZero.string_of_int (Z.to_int n).

(** ToInt32: reduction modulo 2^32 into [-2^31, 2^31). *)
Definition toInt32 (n : Z) : Z :=
  let r := n mod 4294967296 in
  if r <? 2147483648 then r else r - 4294967296.

(** [a << k] *)
Definition shl (a k : Z) : Z :=
  toInt32 (Z.shiftl (toInt32 a) (k mod 32)).

End JS.

(* ------------------------------------------------------------------ *)
(** ** components/PdfPreview.tsx *)

Module PdfPreview.

Inductive InteractionState := IDLE | DRAWING | DRAGGING | RESIZING.

Inductive ResizeHandle :=
  | h_nw | h_n | h_ne | h_e | h_se | h_s | h_sw | h_w.

(** The string each handle is in the source; the resize code tests it
    with [includes]. *)
Definition handle_name (h : ResizeHandle) : string :=
  match h with
  | h_nw => "nw" | h_n => "n" | h_ne => "ne" | h_e => "e"
  | h_se => "se" | h_s => "s" | h_sw => "sw" | h_w => "w"
  end.

Definition handle_includes (h : ResizeHandle) (letter : string) : bool :=
  JS.includes (handle_name h) letter.

Record Point := mkPoint { pt_x : Q; pt_y : Q }.

Record MouseEvent := mkMouseEvent { clientX : Q; clientY : Q }.

Record DOMRect := mkDOMRect {
  rect_left : Q; rect_top : Q; rect_width : Q; rect_height : Q
}.

(** What the code reads from the container element. *)
Record Container := mkContainer {
  getBoundingClientRect : DOMRect;
  clientWidth : Q;
  clientHeight : Q
}.

(** What the code reads from a 2D context.  [pixel px py] is
    [getImageData(px, py, 1, 1).data] cut to its red, green and blue
    entries, [None] when the read throws.  [strip sx sy sw sh] is the
    data URL of a temporary [sw] x [sh] canvas filled with
    [getImageData(sx, sy, sw, sh)], [None] when a step of that throws
    or the temporary canvas gives no context. *)
Record Context2D := mkContext2D {
  pixel : Z -> Z -> option (Z * Z * Z);
  strip : Q -> Q -> Q -> Q -> option string
}.

Record Canvas := mkCanvas {
  canvas_width : Q;
  canvas_height : Q;
  getContext : option Context2D
}.

Record Refs := mkRefs {
  canvasRef : option Canvas;
  containerRef : option Container
}.

(** The props the handlers read.  The application root passes all the optional
    callbacks at both places where it renders the preview, so the
    tests [onAddMask &&], [onUpdateMask &&] and [onSelectMask?.] in the
    source always succeed; a handler returns the calls it makes. *)
Record Props := mkProps {
  masks : list Mask;
  mode : EditMode;
  currentPage : Z
}.

Inductive Call :=
  | onAddMask (m : Mask)
  | onUpdateMask (m : Mask)
  | onSelectMask (i : option string).

(** The component state that the interaction uses. *)
Record State := mkState {
  interactionState : InteractionState;
  activeHandle : option ResizeHandle;
  startPos : option Point;
  currentPos : option Point;
  initialMaskState : option Mask
}.

Definition initial : State := mkState IDLE None None None None.

Record Coords := mkCoords { c_x : Q; c_y : Q; c_width : Q; c_height : Q }.

Definition getRelativeCoords (refs : Refs) (ev : MouseEvent) : Coords :=
  match containerRef refs with
  | None => mkCoords 0 0 0 0
  | Some c =>
      let rect := getBoundingClientRect c in
      mkCoords (clientX ev - rect_left rect) (clientY ev - rect_top rect)
               (rect_width rect) (rect_height rect)
  end.

(** [rgbToHex] *)
Definition rgbToHex (r g b : Z) : string :=
  String "#"
    (JS.toUpperCase
       (JS.slice1
          (JS.toString16 (JS.shl 1 24 + JS.shl r 16 + JS.shl g 8 + b)))).

Record PixelRect := mkPixelRect { r_x : Q; r_y : Q; r_w : Q; r_h : Q }.

Definition white : string := "#FFFFFF".

(** [getDominantColor] *)
Definition getDominantColor (refs : Refs) (rect : PixelRect) : string :=
  match canvasRef refs, containerRef refs with
  | Some cv, Some ct =>
      match getContext cv with
      | None => white
      | Some ctx =>
          let displayW := clientWidth ct in
          let displayH := clientHeight ct in
          let scaleX := (canvas_width cv / displayW)%Q in
          let scaleY := (canvas_height cv / displayH)%Q in
          let px := Qfloor (Math_max 0 (r_x rect * scaleX)) in
          let py := Qfloor (Math_max 0 (r_y rect * scaleY)) in
          match pixel ctx px py with
          | Some (r, g, b) => rgbToHex r g b
          | None => white
          end
      end
  | _, _ => white
  end.

(** [captureMaskSnapshot] *)
Definition captureMaskSnapshot (refs : Refs) (mask : Mask) : option string :=
  match canvasRef refs with
  | None => None
  | Some cv =>
      if MaskFillType_eqb (fillType mask) solid then None else
      match getContext cv with
      | None => None
      | Some ctx =>
          let canvasW := canvas_width cv in
          let canvasH := canvas_height cv in
          let mx := (x mask / 100 * canvasW)%Q in
          let my := (y mask / 100 * canvasH)%Q in
          let mw := (width mask / 100 * canvasW)%Q in
          let mh := (height mask / 100 * canvasH)%Q in
          match fillType mask with
          | clone_top =>
              strip ctx mx (Math_max 0 (my - 1)) (Math_max 1 mw) 1
          | clone_bottom =>
              strip ctx mx (Math_min (canvasH - 1) (my + mh)) (Math_max 1 mw) 1
          | clone_left =>
              strip ctx (Math_max 0 (mx - 1)) my 1 (Math_max 1 mh)
          | clone_right =>
              strip ctx (Math_min (canvasW - 1) (mx + mw)) my 1 (Math_max 1 mh)
          | solid => None
          end
      end
  end.

(** The effect that backfills missing snapshots after a render: the
    [onUpdateMask] calls it makes, in order. *)
Definition needsSnapshot (mask : Mask) : bool :=
  negb (MaskFillType_eqb (fillType mask) solid) && negb (truthy (imageSnapshot mask)).

Definition backfillOne (refs : Refs) (mask : Mask) : list Call :=
  if needsSnapshot mask then
    let snapshot := captureMaskSnapshot refs mask in
    if truthy snapshot then [onUpdateMask (with_imageSnapshot mask snapshot)] else []
  else [].

Definition snapshotEffect (refs : Refs) (props : Props) (loading : bool) : list Call :=
  if loading then [] else
  let visibleMasks := Store.visibleMasks (masks props) (currentPage props) in
  List.flat_map (backfillOne refs) visibleMasks.

(** *** Pointer handlers.  Each returns the next component state and
    the callback calls it made. *)

Definition handleContainerMouseDown (refs : Refs) (props : Props) (st : State)
    (ev : MouseEvent) : State * list Call :=
  match mode props, containerRef refs, interactionState st with
  | MASK, Some _, IDLE =>
      let coords := getRelativeCoords refs ev in
      (mkState DRAWING (activeHandle st)
               (Some (mkPoint (c_x coords) (c_y coords)))
               (Some (mkPoint (c_x coords) (c_y coords)))
               (initialMaskState st),
       [onSelectMask None])
  | _, _, _ => (st, [])
  end.

Definition handleMaskMouseDown (refs : Refs) (st : State) (ev : MouseEvent)
    (mask : Mask) : State * list Call :=
  let coords := getRelativeCoords refs ev in
  (mkState DRAGGING (activeHandle st)
           (Some (mkPoint (c_x coords) (c_y coords)))
           (currentPos st)
           (Some mask),
   [onSelectMask (Some (id mask))]).

Definition handleResizeMouseDown (refs : Refs) (st : State) (ev : MouseEvent)
    (handle : ResizeHandle) (mask : Mask) : State * list Call :=
  let coords := getRelativeCoords refs ev in
  (mkState RESIZING (Some handle)
           (Some (mkPoint (c_x coords) (c_y coords)))
           (currentPos st)
           (Some mask),
   []).

(** [(d / extent) * 100] *)
Definition toPercent (d extent : Q) : Q := (d / extent * 100)%Q.

(** The DRAGGING branch of [handleGlobalMouseMove]. *)
Definition dragged (initialMaskState : Mask) (dxPct dyPct : Q) : Mask :=
  mkMask (id initialMaskState)
         (x initialMaskState + dxPct)
         (y initialMaskState + dyPct)
         (width initialMaskState) (height initialMaskState)
         (color initialMaskState) (fillType initialMaskState)
         None
         (pageIndex initialMaskState).

(** The RESIZING branch of [handleGlobalMouseMove]: the four [let]s,
    the four [if]s on the handle's letters, and the object handed to
    [onUpdateMask]. *)
Definition resizedBox (initialMaskState : Mask) (activeHandle : ResizeHandle)
    (dxPct dyPct : Q) : Q * Q * Q * Q :=
  let newX := x initialMaskState in
  let newY := y initialMaskState in
  let newW := width initialMaskState in
  let newH := height initialMaskState in
  let newW :=
    if handle_includes activeHandle "e"
    then Math_max (1 # 2) (width initialMaskState + dxPct) else newW in
  let newH :=
    if handle_includes activeHandle "s"
    then Math_max (1 # 2) (height initialMaskState + dyPct) else newH in
  let '(newX, newW) :=
    if handle_includes activeHandle "w" then
      let proposedW := (width initialMaskState - dxPct)%Q in
      if Qgtb proposedW (1 # 2)
      then ((x initialMaskState + dxPct)%Q, proposedW)
      else (newX, newW)
    else (newX, newW) in
  let '(newY, newH) :=
    if handle_includes activeHandle "n" then
      let proposedH := (height initialMaskState - dyPct)%Q in
      if Qgtb proposedH (1 # 2)
      then ((y initialMaskState + dyPct)%Q, proposedH)
      else (newY, newH)
    else (newY, newH) in
  (newX, newY, newW, newH).

Definition resized (initialMaskState : Mask) (activeHandle : ResizeHandle)
    (dxPct dyPct : Q) : Mask :=
  let '(newX, newY, newW, newH) :=
    resizedBox initialMaskState activeHandle dxPct dyPct in
  mkMask (id initialMaskState) newX newY newW newH
         (color initialMaskState) (fillType initialMaskState)
         None
         (pageIndex initialMaskState).

Definition handleGlobalMouseMove (refs : Refs) (st : State) (ev : MouseEvent)
    : State * list Call :=
  match interactionState st, containerRef refs with
  | IDLE, _ | _, None => (st, [])
  | _, Some _ =>
      let coords := getRelativeCoords refs ev in
      let st' := mkState (interactionState st) (activeHandle st) (startPos st)
                         (Some (mkPoint (c_x coords) (c_y coords)))
                         (initialMaskState st) in
      match interactionState st, initialMaskState st, startPos st with
      | DRAGGING, Some init, Some start =>
          let dxPct := toPercent (c_x coords - pt_x start) (c_width coords) in
          let dyPct := toPercent (c_y coords - pt_y start) (c_height coords) in
          (st', [onUpdateMask (dragged init dxPct dyPct)])
      | RESIZING, Some init, Some start =>
          match activeHandle st with
          | Some handle =>
              let dxPct := toPercent (c_x coords - pt_x start) (c_width coords) in
              let dyPct := toPercent (c_y coords - pt_y start) (c_height coords) in
              (st', [onUpdateMask (resized init handle dxPct dyPct)])
          | None => (st', [])
          end
      | _, _, _ => (st', [])
      end
  end.

(** The mask that [handleGlobalMouseUp] hands to [onAddMask] for a
    drawn rectangle; [now] is the reading of [Date.now()]. *)
Definition drawnMask (refs : Refs) (props : Props) (now : Z) (rect : DOMRect)
    (rawX rawY rawW rawH : Q) : Mask :=
  let xPct := toPercent rawX (rect_width rect) in
  let yPct := toPercent rawY (rect_height rect) in
  let wPct := toPercent rawW (rect_width rect) in
  let hPct := toPercent rawH (rect_height rect) in
  let color := getDominantColor refs (mkPixelRect rawX rawY rawW rawH) in
  mkMask (String.append "mask-" (JS.toString10 now))
         xPct yPct wPct hPct color solid None
         (Some (currentPage props - 1)).

Definition handleGlobalMouseUp (refs : Refs) (props : Props) (now : Z) (st : State)
    : State * list Call :=
  let calls :=
    match interactionState st, startPos st, currentPos st, containerRef refs with
    | DRAWING, Some start, Some cur, Some container =>
        let rect := getBoundingClientRect container in
        let rawX := Math_min (pt_x start) (pt_x cur) in
        let rawY := Math_min (pt_y start) (pt_y cur) in
        let rawW := Math_abs (pt_x cur - pt_x start) in
        let rawH := Math_abs (pt_y cur - pt_y start) in
        if Qgtb rawW 5 && Qgtb rawH 5
        then [onAddMask (drawnMask refs props now rect rawX rawY rawW rawH)]
        else []
    | _, _, _, _ => []
    end in
  (mkState IDLE None None None None, calls).

End PdfPreview.

(* ------------------------------------------------------------------ *)
(** ** The application root: how the callbacks reach the store *)

Module App.

Import PdfPreview.

Record Session := mkSession {
  s_masks : list Mask;
  s_selectedMaskId : option string;
  s_currentPage : Z
}.

(** One callback call.  The handlers [handleAddMask] and
    [handleUpdateMask] compute the new array from the [masks] of the
    render that created them ([closure]) and set it; [setSelectedMaskId]
    sets the other state variable. *)
Definition dispatch (closure acc : Session) (c : Call) : Session :=
  match c with
  | onAddMask m =>
      let '(ms, sel) :=
        Store.handleAddMask (s_masks closure) (s_currentPage closure) m in
      mkSession ms sel (s_currentPage acc)
  | onUpdateMask m =>
      mkSession (Store.handleUpdateMask (s_masks closure) m)
                (s_selectedMaskId acc) (s_currentPage acc)
  | onSelectMask i =>
      mkSession (s_masks acc) i (s_currentPage acc)
  end.

(** All the calls one handler or effect makes before the next render. *)
Definition run (app : Session) (calls : list Call) : Session :=
  List.fold_left (dispatch app) calls app.

Definition props_of (app : Session) (m : EditMode) : Props :=
  mkProps (s_masks app) m (s_currentPage app).

End App.

(* ------------------------------------------------------------------ *)
(** ** Exceptions: [throw], sequencing and [try { } catch { }] *)

Inductive Exn :=
  | Error (message : string)
  | TypeError
  | SyntaxError
  | Rejected (message : string).

Module Exc.

Definition exc (A : Type) : Type := (Exn + A)%type.

Definition ret {A} (a : A) : exc A := inr a.
Definition throw {A} (e : Exn) : exc A := inl e.

Definition bind {A B} (c : exc A) (k : A -> exc B) : exc B :=
  match c with
  | inl e => inl e
  | inr a => k a
  end.

Definition try_catch {A} (body : exc A) (handler : Exn -> exc A) : exc A :=
  match body with
  | inl e => handler e
  | inr a => inr a
  end.

End Exc.

Notation "'let!' x ':=' c 'in' k" :=
  (Exc.bind c (fun x => k))
  (at level 10, x name, c at level 100, k at level 200, only parsing).

(* ------------------------------------------------------------------ *)
(** ** services/pdfService.ts *)

Module PdfService.

Import Exc.

(** *** [hexToRgb], the helper of [modifyPdfWithMasks] *)

Definition is_space (c : ascii) : bool :=
  let k := nat_of_ascii c in
  ((Nat.leb 9 k && Nat.leb k 13) || Nat.eqb k 32 || Nat.eqb k 160)%bool.

Definition hex_digit (c : ascii) : option Z :=
  let k := Z.of_nat (nat_of_ascii c) in
  if (48 <=? k) && (k <=? 57) then Some (k - 48)
  else if (97 <=? k) && (k <=? 102) then Some (k - 87)
  else if (65 <=? k) && (k <=? 70) then Some (k - 55)
  else None.

Fixpoint skip_spaces (s : string) : string :=
  match s with
  | String c rest => if is_space c then skip_spaces rest else s
  | EmptyString => s
  end.

(** The longest run of hexadecimal digits at the front of [s], read as
    a number after the digits in [acc]; [None] when there is none yet. *)
Fixpoint hex_run (s : string) (acc : option Z) : option Z :=
  match s with
  | EmptyString => acc
  | String c rest =>
      match hex_digit c with
      | None => acc
      | Some d =>
          hex_run rest (Some (match acc with None => d | Some a => 16 * a + d end))
      end
  end.

(** [parseInt(s, 16)]; [None] is [NaN]. *)
Definition parseInt16 (s : string) : option Z :=
  let s := skip_spaces s in
  let '(sign, s) :=
    match s with
    | String "-" rest => (-1, rest)
    | String "+" rest => (1, rest)
    | _ => (1, s)
    end in
  let s :=
    match s with
    | String "0" (String "x" rest) => rest
    | String "0" (String "X" rest) => rest
    | _ => s
    end in
  match hex_run s None with
  | None => None
  | Some v => Some (sign * v)
  end.

(** [s[i]] inside a concatenation: the one-character string, or the
    text of [undefined] past the end. *)
Definition at_index (s : string) (i : nat) : string :=
  match String.get i s with
  | Some c => String c EmptyString
  | None => "undefined"%string
  end.

Record RGB := mkRGB { r : Q; g : Q; b : Q }.

(** [isNaN(v) ? 1 : v] for [v = parseInt(..) / 255] *)
Definition channel (p : option Z) : Q :=
  match p with
  | None => 1
  | Some v => (inject_Z v / 255)%Q
  end.

Definition hexToRgb (hex : option string) : RGB :=
  let safeHex :=
    match hex with
    | Some h => if JS.startsWith h "#" then h else "#FFFFFF"%string
    | None => "#FFFFFF"%string
    end in
  let safeHex :=
    if Nat.eqb (String.length safeHex) 4 then
      String.append "#"
        (String.append (at_index safeHex 1)
        (String.append (at_index safeHex 1)
        (String.append (at_index safeHex 2)
        (String.append (at_index safeHex 2)
        (String.append (at_index safeHex 3) (at_index safeHex 3))))))
    else safeHex in
  let safeHex :=
    if negb (Nat.eqb (String.length safeHex) 7) then "#FFFFFF"%string else safeHex in
  let r := parseInt16 (JS.slice safeHex 1 3) in
  let g := parseInt16 (JS.slice safeHex 3 5) in
  let b := parseInt16 (JS.slice safeHex 5 7) in
  mkRGB (channel r) (channel g) (channel b).

(** *** [getPageAsImage] *)

(** A page as pdf.js gives it: its size at scale 1.0 and, for a scale,
    the base64 JPEG that rendering it into a fresh canvas yields
    ([inl] when the canvas has no 2D context or rendering rejects). *)
Record PdfPage := mkPdfPage {
  page_width : Q;
  page_height : Q;
  renderJpeg : Q -> exc string
}.

(** A loaded document: [numPages] and the page renderer [getPage]. *)
Record PdfDocument := mkPdfDocument {
  numPages : Z;
  getPage : Z -> exc PdfPage
}.

(** A computation that may call the page renderer: the page numbers it
    has asked [getPage] for, in order, and what it gives.  [askPage] is
    the only way to [getPage], so every call is recorded with the page
    number that was passed. *)
Definition Asked (A : Type) : Type := (list Z * exc A)%type.

Definition noAsk {A} (c : exc A) : Asked A := ([], c).

Definition askPage (pdf : PdfDocument) (pageNumber : Z) : Asked PdfPage :=
  ([pageNumber], getPage pdf pageNumber).

Definition andThen {A B} (c : Asked A) (k : A -> Asked B) : Asked B :=
  match c with
  | (asked, inl e) => (asked, inl e)
  | (asked, inr a) => let '(more, result) := k a in (asked ++ more, result)
  end.

(** [getPageAsImage]; [loaded] is the outcome of
    [pdfjsLib.getDocument(..).promise]. *)
Definition getPageAsImage (loaded : exc PdfDocument) (pageNumber : Z)
    : Asked string :=
  match loaded with
  | inl e => noAsk (inl e)
  | inr pdf =>
      let safePageNumber := Z.max 1 (Z.min pageNumber (numPages pdf)) in
      andThen (askPage pdf safePageNumber) (fun page =>
        let maxDimension := 1280%Q in
        let scale :=
          Math_min 1 (maxDimension / Math_max (page_width page) (page_height page)) in
        let finalScale :=
          if Qltb (page_width page) 600 then (600 / page_width page)%Q else scale in
        noAsk (renderJpeg page finalScale))
  end.

End PdfService.

(* ------------------------------------------------------------------ *)
(** ** services/geminiService.ts *)

Module GeminiService.

Import Exc.

(** Values that [JSON.parse] and a property read can produce. *)
#[local] Set Warnings "-register-all".
Inductive jsval :=
  | JUndefined
  | JNull
  | JBool (b : bool)
  | JNum (q : Q)
  | JStr (s : string)
  | JArr (items : list jsval)
  | JObj (entries : list (string * jsval)).

Definition falsy (v : jsval) : bool :=
  match v with
  | JUndefined | JNull => true
  | JBool b => negb b
  | JNum q => Qeq_bool q 0
  | JStr s => match s with EmptyString => true | _ => false end
  | JArr _ | JObj _ => false
  end.

(** [v || d] *)
Definition or_else (v d : jsval) : jsval := if falsy v then d else v.

Fixpoint lookup_key (entries : list (string * jsval)) (key : string) : jsval :=
  match entries with
  | [] => JUndefined
  | (k, v) :: rest => if String.eqb k key then v else lookup_key rest key
  end.

(** [v.key] for one of the keys the code reads (none of them is a
    property of a primitive or of an array). *)
Definition get_prop (v : jsval) (key : string) : exc jsval :=
  match v with
  | JUndefined | JNull => throw TypeError
  | JObj entries => ret (lookup_key entries key)
  | _ => ret JUndefined
  end.

(** The object [detectWatermarkMargins] returns.  Its declared type is
    [CropMargins]; the cast is erased at run time, so a field holds
    whatever value the response carried. *)
Record Margins := mkMargins {
  m_top : jsval;
  m_bottom : jsval;
  m_left : jsval;
  m_right : jsval
}.

Definition zeroMargins : Margins :=
  mkMargins (JNum 0) (JNum 0) (JNum 0) (JNum 0).

(** The collaborators: the configured key, the vision request (its
    result is [response.text], [None] for [undefined]) and
    [JSON.parse]. *)
Record Gemini := mkGemini {
  GEMINI_API_KEY : string;
  generateContent : string -> exc (option string);
  JSON_parse : string -> exc jsval
}.

Definition detectWatermarkMargins (ai : Gemini) (imageBase64 : string)
    : exc Margins :=
  match GEMINI_API_KEY ai with
  | EmptyString => throw (Error "API Key is missing")
  | _ =>
      try_catch
        (let! resultText := generateContent ai imageBase64 in
         if truthy resultText then
           let! margins :=
             JSON_parse ai (match resultText with Some t => t | None => EmptyString end) in
           let! t := get_prop margins "top" in
           let! b := get_prop margins "bottom" in
           let! l := get_prop margins "left" in
           let! r := get_prop margins "right" in
           ret (mkMargins (or_else t (JNum 0)) (or_else b (JNum 0))
                          (or_else l (JNum 0)) (or_else r (JNum 0)))
         else throw (Error "No response from Gemini Vision"))
        (fun _ => ret zeroMargins)
  end.

End GeminiService.

(* ------------------------------------------------------------------ *)
(** ** components/PdfPreview.tsx: the pagination buttons *)

Module Pagination.

(** [disabled={currentPage <= 1 || loading}] and
    [disabled={currentPage >= numPages || loading}] *)
Definition prevDisabled (currentPage : Z) (loading : bool) : bool :=
  (currentPage <=? 1) || loading.
Definition nextDisabled (currentPage numPages : Z) (loading : bool) : bool :=
  (currentPage >=? numPages) || loading.

(** A click: the argument of [onPageChange], which the application root
    binds to [setCurrentPage]; a disabled button fires nothing. *)
Definition clickPrev (currentPage : Z) (loading : bool) : option Z :=
  if prevDisabled currentPage loading then None
  else Some (Z.max 1 (currentPage - 1)).
Definition clickNext (currentPage numPages : Z) (loading : bool) : option Z :=
  if nextDisabled currentPage numPages loading then None
  else Some (Z.min numPages (currentPage + 1)).

End Pagination.

(* ------------------------------------------------------------------ *)
(** ** services/pdfService.ts: text extraction and the two exports *)

Module PdfExport.

Import Exc.

(** *** [getPdfPageText] *)

(** A loaded document as the text extraction sees it: [numPages], and
    for a page number the [str] of each item of its text content
    ([inl] when [getPage] or [getTextContent] rejects). *)
Record TextDocument := mkTextDocument {
  text_numPages : Z;
  pageItems : Z -> exc (list string)
}.

Definition newline : string := String (ascii_of_nat 10) EmptyString.

(** [items.join(' ')] *)
Fixpoint join (sep : string) (items : list string) : string :=
  match items with
  | [] => EmptyString
  | [a] => a
  | a :: rest => String.append a (String.append sep (join sep rest))
  end.

(** The [for] loop from page [i], with [n] iterations left: the page
    numbers asked for, and the text or the rejection that ends it. *)
Fixpoint textLoop (pdf : TextDocument) (i : Z) (n : nat) (fullText : string)
    : list Z * exc string :=
  match n with
  | O => ([], ret fullText)
  | S n' =>
      match pageItems pdf i with
      | inl e => ([i], inl e)
      | inr items =>
          let pageText := join " " items in
          let fullText :=
            String.append fullText
              (String.append "Page "
              (String.append (JS.toString10 i)
              (String.append ": "
              (String.append pageText (String.append newline newline))))) in
          let '(asked, result) := textLoop pdf (i + 1) n' fullText in
          (i :: asked, result)
      end
  end.

(** [getPdfPageText]: the pages asked for and the returned text; the
    [catch] turns every failure into the empty string. *)
Definition getPdfPageText (loaded : exc TextDocument) : list Z * string :=
  match loaded with
  | inl _ => ([], EmptyString)
  | inr pdf =>
      let maxPages := Z.min (text_numPages pdf) 5 in
      let '(asked, result) := textLoop pdf 1 (Z.to_nat maxPages) EmptyString in
      (asked, match result with inl _ => EmptyString | inr text => text end)
  end.

(** *** [cropAndDownloadPdf] *)

Record PageSize := mkPageSize { pg_width : Q; pg_height : Q }.

(** The four arguments of [page.setCropBox]. *)
Record CropBox := mkCropBox {
  crop_x : Q; crop_y : Q; crop_width : Q; crop_height : Q
}.

Definition cropBoxOf (margins : CropMargins) (page : PageSize) : CropBox :=
  let width := pg_width page in
  let height := pg_height page in
  let cropLeft := (left margins / 100 * width)%Q in
  let cropRight := (width - right margins / 100 * width)%Q in
  let cropBottom := (bottom margins / 100 * height)%Q in
  let cropTop := (height - top margins / 100 * height)%Q in
  mkCropBox cropLeft cropBottom (cropRight - cropLeft) (cropTop - cropBottom).

(** [cropAndDownloadPdf] on the pages of the loaded document: the crop
    box set on each page and the name of the download. *)
Definition cropAndDownloadPdf (pages : list PageSize) (margins : CropMargins)
    (fileName : string) : list CropBox * string :=
  (List.map (cropBoxOf margins) pages, String.append "cleaned-" fileName).

(** *** [modifyPdfWithMasks] *)

(** What is drawn on a page: an embedded image or a filled rectangle,
    at [x], [y] with [width] and [height] in PDF units (origin at the
    bottom left). *)
Inductive DrawOp :=
  | drawImage (image : string) (x y w h : Q)
  | drawRectangle (x y w h : Q) (c : PdfService.RGB).

(** Percentages to PDF coordinates: the [x], [y], [w] and [h] computed
    for a mask on a page of the given size. *)
Definition maskRect (mask : Mask) (page : PageSize) : Q * Q * Q * Q :=
  let pageWidth := pg_width page in
  let pageHeight := pg_height page in
  let rx := (x mask / 100 * pageWidth)%Q in
  let rw := (width mask / 100 * pageWidth)%Q in
  let rh := (height mask / 100 * pageHeight)%Q in
  let ry := (pageHeight - (y mask / 100 * pageHeight) - rh)%Q in
  (rx, ry, rw, rh).

(** pdf-lib's [rgb(red, green, blue)]: the colour with these
    components, and an [Error] unless each of them lies between 0 and 1
    (the library asserts the range of each argument). *)
Definition inUnit (q : Q) : bool := Qle_bool 0 q && Qle_bool q 1.

Definition rgb (red green blue : Q) : exc PdfService.RGB :=
  if inUnit red && inUnit green && inUnit blue
  then ret (PdfService.mkRGB red green blue)
  else throw (Error "component must be at least 0 and at most 1").

(** [hexToRgb(mask.color)] and [page.drawRectangle] with
    [rgb(color.r, color.g, color.b)]. *)
Definition solidFill (mask : Mask) (page : PageSize) : exc DrawOp :=
  let '(rx, ry, rw, rh) := maskRect mask page in
  let parsed := PdfService.hexToRgb (Some (color mask)) in
  let! c := rgb (PdfService.r parsed) (PdfService.g parsed) (PdfService.b parsed) in
  ret (drawRectangle rx ry rw rh c).

(** The body of the loop over [pageMasks].  [embedPng snapshot] is the
    outcome of the [try] block, embedding the snapshot and drawing it:
    the embedded image, or [inl] when a step of it throws, which the
    [catch] answers with the rectangle.  A throw of [rgb], in the
    [catch] block or in the [else] branch, is caught by nothing. *)
Definition drawMask (embedPng : string -> exc string) (page : PageSize)
    (mask : Mask) : exc DrawOp :=
  if negb (MaskFillType_eqb (fillType mask) solid) && truthy (imageSnapshot mask)
  then
    match embedPng (match imageSnapshot mask with Some s => s | None => EmptyString end) with
    | inr pngImage =>
        let '(rx, ry, rw, rh) := maskRect mask page in
        ret (drawImage pngImage rx ry rw rh)
    | inl _ => solidFill mask page
    end
  else solidFill mask page.

(** The loop over the masks of one page; a throw ends it. *)
Fixpoint drawMasks (embedPng : string -> exc string) (page : PageSize)
    (pageMasks : list Mask) : exc (list DrawOp) :=
  match pageMasks with
  | [] => ret []
  | mask :: rest =>
      let! op := drawMask embedPng page mask in
      let! ops := drawMasks embedPng page rest in
      ret (op :: ops)
  end.

(** The loop over the pages from index [i] on; a throw ends it. *)
Fixpoint drawPages (embedPng : string -> exc string) (masks : list Mask)
    (i : Z) (pages : list PageSize) : exc (list (list DrawOp)) :=
  match pages with
  | [] => ret []
  | page :: rest =>
      let pageMasks := Store.pageMasks masks i in
      let! ops := drawMasks embedPng page pageMasks in
      let! more := drawPages embedPng masks (i + 1) rest in
      ret (ops :: more)
  end.

(** [modifyPdfWithMasks] on the pages of the loaded document: what has
    been drawn on each page, in order, when the document is saved, and
    the name of the download; [inl] when a step throws, and then nothing
    is saved or downloaded. *)
Definition modifyPdfWithMasks (embedPng : string -> exc string)
    (pages : list PageSize) (masks : list Mask) (fileName : string)
    : exc (list (list DrawOp) * string) :=
  let! drawn := drawPages embedPng masks 0 pages in
  ret (drawn, String.append "patched-" fileName).

End PdfExport.

(* ------------------------------------------------------------------ *)
(** ** services/geminiService.ts: mask detection and text analysis *)

Module GeminiDetect.

Import Exc.
Import GeminiService.

(** The collaborators of one request: the configured key, the request
    itself (its argument is the image or the prompt, its result is
    [response.text], [None] for [undefined]) and [JSON.parse]. *)
Record Service := mkService {
  API_KEY : string;
  generate : string -> exc (option string);
  parse : string -> exc jsval
}.

(** *** [detectWatermarkMasks] *)

(** One object of the returned array.  Its declared type is [Mask]; it
    has the seven keys below and no others, and the geometry and colour
    hold whatever values the response carried. *)
Record DetectedMask := mkDetectedMask {
  d_id : string;
  d_x : jsval;
  d_y : jsval;
  d_width : jsval;
  d_height : jsval;
  d_color : jsval;
  d_fillType : MaskFillType
}.

(** [`mask-${Date.now()}-${idx}`] *)
Definition detectedId (now idx : Z) : string :=
  String.append "mask-"
    (String.append (JS.toString10 now)
    (String.append "-" (JS.toString10 idx))).

(** [rawMasks.map((m, idx) => ...)] from index [idx] on; [now k] is the
    reading of [Date.now()] inside the callback for index [k]. *)
Fixpoint mapMasks (now : Z -> Z) (idx : Z) (rawMasks : list jsval)
    : exc (list DetectedMask) :=
  match rawMasks with
  | [] => ret []
  | m :: rest =>
      let! mx := get_prop m "x" in
      let! my := get_prop m "y" in
      let! mw := get_prop m "width" in
      let! mh := get_prop m "height" in
      let! mc := get_prop m "color" in
      let! others := mapMasks now (idx + 1) rest in
      ret (mkDetectedMask (detectedId (now idx) idx) mx my mw mh
                          (or_else mc (JStr "#FFFFFF")) solid
           :: others)
  end.

Definition detectWatermarkMasks (ai : Service) (now : Z -> Z)
    (imageBase64 : string) : exc (list DetectedMask) :=
  match API_KEY ai with
  | EmptyString => throw (Error "API Key is missing")
  | _ =>
      try_catch
        (let! resultText := generate ai imageBase64 in
         if truthy resultText then
           let! result :=
             parse ai (match resultText with Some t => t | None => EmptyString end) in
           let! found := get_prop result "masks" in
           let rawMasks := or_else found (JArr []) in
           match rawMasks with
           | JArr items => mapMasks now 0 items
           | _ => throw TypeError
           end
         else throw (Error "No response from Gemini Vision"))
        (fun _ => ret [])
  end.

(** *** [analyzePdfContent] *)



(** The template literal, with [text.substring(0, 30000)] in it. *)
#[local] Set Warnings "-abstract-large-number".



End GeminiDetect.

(* ------------------------------------------------------------------ *)
(** ** The application root: detected masks enter the store *)

Module AppDetect.



End AppDetect.

(* ------------------------------------------------------------------ *)
(** ** Vocabulary of the statements *)

(** A mask applies to page index [p]: it is global or scoped to [p]. *)
Definition inScope (p : Z) (m : Mask) : Prop :=
  pageIndex m = None \/ pageIndex m = Some p.

(** White, as the exporter's colour components. *)
Definition is_white (c : PdfService.RGB) : Prop :=
  (PdfService.r c == 1 /\ PdfService.g c == 1 /\ PdfService.b c == 1)%Q.

(** The pointer's travel since the start of the gesture, in percent of
    the container, as [handleGlobalMouseMove] computes [dxPct] and
    [dyPct]. *)
Definition dxPct_of (refs : PdfPreview.Refs) (start : PdfPreview.Point)
    (ev : PdfPreview.MouseEvent) : Q :=
  let coords := PdfPreview.getRelativeCoords refs ev in
  PdfPreview.toPercent (PdfPreview.c_x coords - PdfPreview.pt_x start)
                       (PdfPreview.c_width coords).

Definition dyPct_of (refs : PdfPreview.Refs) (start : PdfPreview.Point)
    (ev : PdfPreview.MouseEvent) : Q :=
  let coords := PdfPreview.getRelativeCoords refs ev in
  PdfPreview.toPercent (PdfPreview.c_y coords - PdfPreview.pt_y start)
                       (PdfPreview.c_height coords).

(** The ways the guarded part of [detectWatermarkMargins] fails: the
    vision request rejects; the response carries no text; the text is
    not JSON; the text parses to [null], whose fields cannot be read. *)
Inductive DetectorFailure (ai : GeminiService.Gemini) (image : string) : Prop :=
  | request_rejected (e : Exn) :
      GeminiService.generateContent ai image = inl e ->
      DetectorFailure ai image
  | response_without_text (t : option string) :
      GeminiService.generateContent ai image = inr t ->
      truthy t = false ->
      DetectorFailure ai image
  | text_not_json (t : string) (e : Exn) :
      GeminiService.generateContent ai image = inr (Some t) ->
      GeminiService.JSON_parse ai t = inl e ->
      DetectorFailure ai image
  | text_is_null (t : string) :
      GeminiService.generateContent ai image = inr (Some t) ->
      GeminiService.JSON_parse ai t = inr GeminiService.JNull ->
      DetectorFailure ai image.

(** In the DRAWING state both ends of the drawn rectangle are known. *)
Definition drawing_ready (st : PdfPreview.State) : Prop :=
  PdfPreview.interactionState st = PdfPreview.DRAWING ->
  exists start cur,
    PdfPreview.startPos st = Some start /\ PdfPreview.currentPos st = Some cur.

(** All four sides of the margins lie in the range of the sliders
    ([min="0" max="45"]). *)
Definition slider_range (v : Q) : Prop := (0 <= v /\ v <= 45)%Q.

Definition in_slider_range (m : CropMargins) : Prop :=
  slider_range (top m) /\ slider_range (bottom m)
  /\ slider_range (left m) /\ slider_range (right m).

(** The placement of a draw operation: [x], [y], [width], [height]. *)
Definition opRect (op : PdfExport.DrawOp) : Q * Q * Q * Q :=
  match op with
  | PdfExport.drawImage _ rx ry rw rh => (rx, ry, rw, rh)
  | PdfExport.drawRectangle rx ry rw rh _ => (rx, ry, rw, rh)
  end.

(** A colour text that the export can paint: the components
    [hexToRgb] reads from it all lie between 0 and 1. *)
Definition paintable (hex : string) : Prop :=
  let parsed := PdfService.hexToRgb (Some hex) in
  (0 <= PdfService.r parsed <= 1
   /\ 0 <= PdfService.g parsed <= 1
   /\ 0 <= PdfService.b parsed <= 1)%Q.

(** The masks that the export paints as a rectangle in their colour:
    the solid ones, those without a snapshot, and those whose snapshot
    fails to embed. *)
Definition paintedInColour (embedPng : string -> Exc.exc string) (mask : Mask) : Prop :=
  fillType mask = solid
  \/ imageSnapshot mask = None
  \/ imageSnapshot mask = Some EmptyString
  \/ exists snap e, imageSnapshot mask = Some snap /\ embedPng snap = inl e.

(** A draw operation renders a mask on a page: it is placed at the
    mask's rectangle; and it is either the mask's snapshot, embedded, for
    a mask that is not solid, or a rectangle in the mask's colour, which
    is then paintable, the latter for a mask that is not solid only if
    it has no snapshot or embedding its snapshot failed. *)
Definition renders (embedPng : string -> Exc.exc string) (page : PdfExport.PageSize)
    (mask : Mask) (op : PdfExport.DrawOp) : Prop :=
  opRect op = PdfExport.maskRect mask page
  /\ match op with
     | PdfExport.drawImage image _ _ _ _ =>
         fillType mask <> solid
         /\ exists snap, imageSnapshot mask = Some snap /\ embedPng snap = inr image
     | PdfExport.drawRectangle _ _ _ _ c =>
         c = PdfService.hexToRgb (Some (color mask))
         /\ paintable (color mask)
         /\ (fillType mask <> solid ->
             forall snap image, imageSnapshot mask = Some snap ->
             snap <> EmptyString -> embedPng snap <> inr image)
     end.

(** The hexadecimal digit of value [d] (0..15): as a constructor of the
    standard library's hexadecimal numbers, and as the upper-case
    character [toString(16).toUpperCase()] prints. *)
Definition nibble (d : Z) (u : Hexadecimal.uint) : Hexadecimal.uint :=
  match d with
  | 0 => Hexadecimal.D0 u | 1 => Hexadecimal.D1 u | 2 => Hexadecimal.D2 u
  | 3 => Hexadecimal.D3 u | 4 => Hexadecimal.D4 u | 5 => Hexadecimal.D5 u
  | 6 => Hexadecimal.D6 u | 7 => Hexadecimal.D7 u | 8 => Hexadecimal.D8 u
  | 9 => Hexadecimal.D9 u | 10 => Hexadecimal.Da u | 11 => Hexadecimal.Db u
  | 12 => Hexadecimal.Dc u | 13 => Hexadecimal.Dd u | 14 => Hexadecimal.De u
  | _ => Hexadecimal.Df u
  end.

Definition hexUpper (d : Z) : ascii :=
  match d with
  | 0 => "0" | 1 => "1" | 2 => "2" | 3 => "3" | 4 => "4" | 5 => "5"
  | 6 => "6" | 7 => "7" | 8 => "8" | 9 => "9" | 10 => "A" | 11 => "B"
  | 12 => "C" | 13 => "D" | 14 => "E" | _ => "F"
  end%char.

(** The two upper-case hexadecimal digits of a colour channel. *)
Definition hex2 (c : Z) : string :=
  String (hexUpper (c / 16)) (String (hexUpper (c mod 16)) EmptyString).

(** A colour channel as [Uint8ClampedArray] holds it. *)
Definition channel8 (c : Z) : Prop := 0 <= c <= 255.

(** The colour components the exporter uses for 8-bit channels. *)
Definition rgb_of (r g b : Z) : PdfService.RGB :=
  PdfService.mkRGB (inject_Z r / 255) (inject_Z g / 255) (inject_Z b / 255).

(** The number of stored masks that still wait for a snapshot. *)
Definition waiting (masks : list Mask) : nat :=
  length (List.filter PdfPreview.needsSnapshot masks).

(** The part of a string after its last ['-'] (the string itself when
    it has none), used to read the index back from a detected id. *)
Fixpoint hasDash (s : string) : bool :=
  match s with
  | EmptyString => false
  | String c rest => Ascii.eqb c "-" || hasDash rest
  end.

Fixpoint lastSegment (s : string) : string :=
  match s with
  | EmptyString => EmptyString
  | String c rest =>
      if hasDash rest then lastSegment rest
      else if Ascii.eqb c "-" then rest else String c rest
  end.

(** A detected mask carries the geometry of the descriptor it was made
    from. *)
Definition made_from (item : GeminiService.jsval) (d : GeminiDetect.DetectedMask)
    : Prop :=
  GeminiService.get_prop item "x" = inr (GeminiDetect.d_x d)
  /\ GeminiService.get_prop item "y" = inr (GeminiDetect.d_y d)
  /\ GeminiService.get_prop item "width" = inr (GeminiDetect.d_width d)
  /\ GeminiService.get_prop item "height" = inr (GeminiDetect.d_height d).

(** The lower-case hexadecimal digit, as a colour picker writes it, and
    a digit in either case. *)
Definition hexLower (d : Z) : ascii :=
  match d with
  | 0 => "0" | 1 => "1" | 2 => "2" | 3 => "3" | 4 => "4" | 5 => "5"
  | 6 => "6" | 7 => "7" | 8 => "8" | 9 => "9" | 10 => "a" | 11 => "b"
  | 12 => "c" | 13 => "d" | 14 => "e" | _ => "f"
  end%char.

Definition hexDigit (upper : bool) (d : Z) : ascii :=
  if upper then hexUpper d else hexLower d.

(** The two digits of a channel, each in the case given. *)
Definition hexPair (u1 u0 : bool) (c : Z) : string :=
  String (hexDigit u1 (c / 16)) (String (hexDigit u0 (c mod 16)) EmptyString).

(** Two masks have the same rectangle. *)
Definition same_box (a b : Mask) : Prop :=
  (x a == x b /\ y a == y b /\ width a == width b /\ height a == height b)%Q.

(* ================================================================== *)
(** * Properties *)

(** ** Numbers *)

Lemma Qgtb_true (a b : Q) : Qgtb a b = true <-> (b < a)%Q.
Proof.
  unfold Qgtb. rewrite negb_true_iff, <- not_true_iff_false, Qle_bool_iff.
  split; [apply Qnot_le_lt | apply Qlt_not_le].
Qed.

Lemma Qgtb_false (a b : Q) : Qgtb a b = false <-> (a <= b)%Q.
Proof.
  unfold Qgtb. rewrite negb_false_iff. apply Qle_bool_iff.
Qed.

Lemma Math_max_lower (a b : Q) : (a <= Math_max a b)%Q.
Proof.
  unfold Math_max. destruct (Qle_bool a b) eqn:E.
  - now apply Qle_bool_iff.
  - apply Qle_refl.
Qed.

(** ** The Mask Store *)

Section StoreUpdate.

Variable updatedMask : Mask.

Lemma handleUpdateMask_lookup (masks : list Mask) (i : nat) :
  Store.handleUpdateMask masks updatedMask !! i
  = (fun m => if String.eqb (id m) (id updatedMask) then updatedMask else m)
      <$> (masks !! i).
Proof. unfold Store.handleUpdateMask. apply list_lookup_fmap. Qed.

Lemma handleUpdateMask_length (masks : list Mask) :
  length (Store.handleUpdateMask masks updatedMask) = length masks.
Proof. unfold Store.handleUpdateMask. apply length_map. Qed.

Lemma handleUpdateMask_absent (masks : list Mask) :
  Forall (fun old => id old <> id updatedMask) masks ->
  Store.handleUpdateMask masks updatedMask = masks.
Proof.
  unfold Store.handleUpdateMask.
  induction 1 as [|old rest Hid _ IH]; simpl; [reflexivity|].
  rewrite IH. apply String.eqb_neq in Hid. now rewrite Hid.
Qed.

(** Every stored mask that carries the id of the argument is the
    argument afterwards. *)
Lemma handleUpdateMask_stored (masks : list Mask) (stored : Mask) :
  In stored (Store.handleUpdateMask masks updatedMask) ->
  id stored = id updatedMask ->
  stored = updatedMask.
Proof.
  unfold Store.handleUpdateMask. rewrite in_map_iff.
  intros (old & Hrepl & _) Hid.
  destruct (String.eqb (id old) (id updatedMask)) eqn:E; [congruence|].
  apply String.eqb_neq in E. congruence.
Qed.

End StoreUpdate.

(** C9.  [handleUpdateMask] keeps the number of masks; position by
    position the stored mask is the argument where the ids agree and the
    old mask elsewhere; and when no stored mask has the argument's id the
    array is returned as it was. *)
Theorem handleUpdateMask_frame (masks : list Mask) (m : Mask) :
  length (Store.handleUpdateMask masks m) = length masks
  /\ (forall (i : nat) (old : Mask), masks !! i = Some old ->
        Store.handleUpdateMask masks m !! i
        = Some (if String.eqb (id old) (id m) then m else old))
  /\ (forall (i : nat) (old : Mask), masks !! i = Some old -> id old <> id m ->
        Store.handleUpdateMask masks m !! i = Some old)
  /\ (forall i : nat, masks !! i = None -> Store.handleUpdateMask masks m !! i = None)
  /\ ((forall old, In old masks -> id old <> id m) ->
        Store.handleUpdateMask masks m = masks).
Proof.
  split; [apply handleUpdateMask_length|].
  split; [|split; [|split]].
  - intros i old Hi. now rewrite handleUpdateMask_lookup, Hi.
  - intros i old Hi Hne. rewrite handleUpdateMask_lookup, Hi. simpl.
    apply String.eqb_neq in Hne. now rewrite Hne.
  - intros i Hi. now rewrite handleUpdateMask_lookup, Hi.
  - intros Hall. apply handleUpdateMask_absent, List.Forall_forall, Hall.
Qed.

(** ** Page scope *)

Lemma onPage_inScope (p : Z) (m : Mask) : Store.onPage p m = true <-> inScope p m.
Proof.
  unfold Store.onPage, inScope. destruct (pageIndex m) as [i|].
  - rewrite Z.eqb_eq. split; [intros ->; now right | intros [H|H]; congruence].
  - split; [now left | reflexivity].
Qed.

Lemma filter_sublist_of {A} (f : A -> bool) (l : list A) :
  List.filter f l `sublist_of` l.
Proof.
  induction l as [|a l IH]; simpl; [constructor|].
  destruct (f a); now constructor.
Qed.

Lemma filter_largest {A} (f : A -> bool) (l k : list A) :
  k `sublist_of` l -> Forall (fun a => f a = true) k -> k `sublist_of` List.filter f l.
Proof.
  intros Hsub. induction Hsub as [|a k l _ IH|a k l _ IH]; intros Hall; simpl.
  - constructor.
  - inversion Hall as [|? ? Ha Hk]; subst. rewrite Ha. constructor. now apply IH.
  - destruct (f a); [constructor|]; now apply IH.
Qed.

(** C3.  The per-page selection of the exporter ([pageMasks], page index
    [p]) and of the preview ([visibleMasks], shown page [p + 1]) is the
    same list.  It is a subsequence of the store, so insertion order is
    kept; a mask is in it exactly when it is stored and its [pageIndex]
    is undefined or [p]; and every subsequence of the store made of such
    masks is a subsequence of it, so none of them is dropped. *)
Theorem listForPage_exact (masks : list Mask) (p : Z) :
  Store.visibleMasks masks (p + 1) = Store.pageMasks masks p
  /\ Store.pageMasks masks p `sublist_of` masks
  /\ (forall m, In m (Store.pageMasks masks p) <-> In m masks /\ inScope p m)
  /\ (forall k, k `sublist_of` masks -> Forall (inScope p) k ->
        k `sublist_of` Store.pageMasks masks p).
Proof.
  unfold Store.visibleMasks, Store.pageMasks.
  split; [now replace (p + 1 - 1) with p by lia|].
  split; [apply filter_sublist_of|]. split.
  - intros m. rewrite filter_In, onPage_inScope. reflexivity.
  - intros k Hsub Hall. apply filter_largest; [assumption|].
    eapply Forall_impl; [exact Hall|]. intros m. apply onPage_inScope.
Qed.

(** ** Crop margins *)

Section MarginMutation.

Import CropControls.

Variables (margins : CropMargins) (key : MarginKey) (value : Q).

Lemma handleChange_unfold :
  handleChange margins key value
  = set_margin margins key
      (if Qgtb (value + get_margin margins (opposing key)) 90
       then (90 - get_margin margins (opposing key))%Q else value).
Proof.
  unfold handleChange. destruct key; simpl;
    destruct (Qgtb _ 90); reflexivity.
Qed.

Lemma get_set_same (v : Q) : get_margin (set_margin margins key v) key = v.
Proof. destruct key; reflexivity. Qed.

Lemma get_set_other (k : MarginKey) (v : Q) :
  k <> key -> get_margin (set_margin margins key v) k = get_margin margins k.
Proof. destruct key, k; simpl; congruence. Qed.

Lemma opposing_differs : opposing key <> key.
Proof. destruct key; discriminate. Qed.

End MarginMutation.

(** C6.  [handleChange margins key v] stores [90 - opposite] on the
    edited side when [v + opposite > 90] and [v] otherwise, where
    [opposite] is the current value of the opposing side; the edited
    pair then sums to at most 90; every other side keeps its value; and
    setting top to 60 while bottom is 40 stores top 50. *)
Theorem handleChange_clamps (margins : CropMargins)
    (key : CropControls.MarginKey) (v : Q) :
  let opposite := CropControls.get_margin margins (CropControls.opposing key) in
  let stored := CropControls.handleChange margins key v in
  ((90 < v + opposite)%Q ->
     CropControls.get_margin stored key = (90 - opposite)%Q)
  /\ ((v + opposite <= 90)%Q -> CropControls.get_margin stored key = v)
  /\ (CropControls.get_margin stored key
      + CropControls.get_margin stored (CropControls.opposing key) <= 90)%Q
  /\ (forall k, k <> key ->
        CropControls.get_margin stored k = CropControls.get_margin margins k)
  /\ (forall l r : Q,
        CropControls.handleChange (mkCropMargins 0 40 l r) CropControls.key_top 60
        = mkCropMargins 50 40 l r).
Proof.
  intros opposite stored. subst stored.
  rewrite handleChange_unfold. fold opposite.
  rewrite get_set_same.
  rewrite (get_set_other _ _ (CropControls.opposing key))
    by apply opposing_differs.
  fold opposite.
  destruct (Qgtb (v + opposite) 90) eqn:E.
  - apply Qgtb_true in E. repeat split.
    + intros H. exfalso. lra.
    + lra.
    + intros k Hk. now apply get_set_other.
  - apply Qgtb_false in E. repeat split.
    + intros H. exfalso. lra.
    + assumption.
    + intros k Hk. now apply get_set_other.
Qed.

(** ** Page extraction for the detector *)

(** C10.  For a loaded document with at least one page and any
    requested page number [n], [getPageAsImage] calls the page renderer
    exactly once, with the page [max 1 (min n numPages)], which lies in
    [1, numPages]; what that call answers decides the result (its
    rejection is the rejection of [getPageAsImage]), and what the
    renderer would answer for any page outside [1, numPages] has no
    influence on either the calls made or the result. *)
Theorem getPageAsImage_page_in_range (pdf : PdfService.PdfDocument) (n : Z) :
  1 <= PdfService.numPages pdf ->
  fst (PdfService.getPageAsImage (inr pdf) n)
  = [Z.max 1 (Z.min n (PdfService.numPages pdf))]
  /\ Forall (fun p => 1 <= p <= PdfService.numPages pdf)
            (fst (PdfService.getPageAsImage (inr pdf) n))
  /\ (forall e,
        PdfService.getPage pdf (Z.max 1 (Z.min n (PdfService.numPages pdf))) = inl e ->
        snd (PdfService.getPageAsImage (inr pdf) n) = inl e)
  /\ (forall other : PdfService.PdfDocument,
        PdfService.numPages other = PdfService.numPages pdf ->
        (forall p, 1 <= p <= PdfService.numPages pdf ->
                   PdfService.getPage other p = PdfService.getPage pdf p) ->
        PdfService.getPageAsImage (inr other) n
        = PdfService.getPageAsImage (inr pdf) n).
Proof.
  intros Hpages.
  assert (Hsafe : 1 <= Z.max 1 (Z.min n (PdfService.numPages pdf))
                  <= PdfService.numPages pdf) by lia.
  assert (Hfst : fst (PdfService.getPageAsImage (inr pdf) n)
                 = [Z.max 1 (Z.min n (PdfService.numPages pdf))]).
  { unfold PdfService.getPageAsImage, PdfService.andThen, PdfService.askPage,
      PdfService.noAsk.
    destruct (PdfService.getPage pdf _); reflexivity. }
  repeat match goal with |- _ /\ _ => split end.
  - exact Hfst.
  - rewrite Hfst. constructor; [exact Hsafe | constructor].
  - intros e He.
    unfold PdfService.getPageAsImage, PdfService.andThen, PdfService.askPage.
    rewrite He. reflexivity.
  - intros other Hn Hsame.
    unfold PdfService.getPageAsImage, PdfService.askPage.
    rewrite Hn, (Hsame _ Hsafe). reflexivity.
Qed.

Lemma getPageAsImage_page_in_range_witness :
  let page := PdfService.mkPdfPage 1920 1080 (fun _ => inr "base64") in
  let pdf := PdfService.mkPdfDocument 3
               (fun p => if (1 <=? p) && (p <=? 3) then inr page
                         else inl (Rejected "Invalid page request")) in
  fst (PdfService.getPageAsImage (inr pdf) 7) = [3]
  /\ fst (PdfService.getPageAsImage (inr pdf) (-2)) = [1]
  /\ snd (PdfService.getPageAsImage (inr pdf) 7) = inr "base64"
  /\ PdfService.getPageAsImage (inr (PdfService.mkPdfDocument 3 (fun _ => inr page))) 7
     = PdfService.getPageAsImage (inr pdf) 7.
Proof.
  intros page pdf.
  destruct (getPageAsImage_page_in_range pdf 7 ltac:(simpl; lia))
    as (H7 & _ & _ & Hother).
  destruct (getPageAsImage_page_in_range pdf (-2) ltac:(simpl; lia))
    as (H2 & _).
  repeat match goal with |- _ /\ _ => split end.
  - exact H7.
  - exact H2.
  - reflexivity.
  - apply Hother; [reflexivity|].
    intros p Hp. simpl in Hp. simpl.
    destruct (Z.leb_spec 1 p), (Z.leb_spec p 3); try lia. reflexivity.
Defined.

(** ** Resizing *)

Section Resize.

Import PdfPreview.

Variables (init : Mask) (h : ResizeHandle) (dxPct dyPct : Q).

(** What the handle's letters do to the horizontal axis. *)
Lemma resized_horizontal :
  (x (resized init h dxPct dyPct), width (resized init h dxPct dyPct))
  = if handle_includes h "w" then
      if Qgtb (width init - dxPct) (1 # 2)
      then ((x init + dxPct)%Q, (width init - dxPct)%Q)
      else (x init, width init)
    else if handle_includes h "e" then
      (x init, Math_max (1 # 2) (width init + dxPct))
    else (x init, width init).
Proof.
  unfold resized, resizedBox. destruct h; simpl;
    repeat match goal with |- context [Qgtb ?a ?b] => destruct (Qgtb a b) end;
    reflexivity.
Qed.

(** What the handle's letters do to the vertical axis. *)
Lemma resized_vertical :
  (y (resized init h dxPct dyPct), height (resized init h dxPct dyPct))
  = if handle_includes h "n" then
      if Qgtb (height init - dyPct) (1 # 2)
      then ((y init + dyPct)%Q, (height init - dyPct)%Q)
      else (y init, height init)
    else if handle_includes h "s" then
      (y init, Math_max (1 # 2) (height init + dyPct))
    else (y init, height init).
Proof.
  unfold resized, resizedBox. destruct h; simpl;
    repeat match goal with |- context [Qgtb ?a ?b] => destruct (Qgtb a b) end;
    reflexivity.
Qed.

Lemma resized_rest :
  id (resized init h dxPct dyPct) = id init
  /\ color (resized init h dxPct dyPct) = color init
  /\ fillType (resized init h dxPct dyPct) = fillType init
  /\ imageSnapshot (resized init h dxPct dyPct) = None
  /\ pageIndex (resized init h dxPct dyPct) = pageIndex init.
Proof.
  unfold resized. destruct (resizedBox init h dxPct dyPct) as [[[? ?] ?] ?].
  repeat split.
Qed.

End Resize.

Section PointerMove.

Import PdfPreview.

Variables (refs : Refs) (st : State) (ev : MouseEvent).

Lemma mouse_move_resizing (init : Mask) (h : ResizeHandle) (start : Point)
    (c : Container) :
  interactionState st = RESIZING ->
  initialMaskState st = Some init ->
  activeHandle st = Some h ->
  startPos st = Some start ->
  containerRef refs = Some c ->
  snd (handleGlobalMouseMove refs st ev)
  = [onUpdateMask (resized init h (dxPct_of refs start ev) (dyPct_of refs start ev))].
Proof.
  intros Hs Hi Hh Hp Hc. unfold handleGlobalMouseMove.
  rewrite Hs, Hi, Hh, Hp, Hc. reflexivity.
Qed.

Lemma mouse_move_dragging (init : Mask) (start : Point) (c : Container) :
  interactionState st = DRAGGING ->
  initialMaskState st = Some init ->
  startPos st = Some start ->
  containerRef refs = Some c ->
  snd (handleGlobalMouseMove refs st ev)
  = [onUpdateMask (dragged init (dxPct_of refs start ev) (dyPct_of refs start ev))].
Proof.
  intros Hs Hi Hp Hc. unfold handleGlobalMouseMove.
  rewrite Hs, Hi, Hp, Hc. reflexivity.
Qed.

(** Whatever the state, a pointer move makes no call, or one update
    built by [dragged], or one update built by [resized]. *)
Lemma mouse_move_calls :
  snd (handleGlobalMouseMove refs st ev) = []
  \/ (exists init dx dy,
        snd (handleGlobalMouseMove refs st ev) = [onUpdateMask (dragged init dx dy)])
  \/ (exists init h dx dy,
        snd (handleGlobalMouseMove refs st ev) = [onUpdateMask (resized init h dx dy)]).
Proof.
  unfold handleGlobalMouseMove.
  destruct (interactionState st), (containerRef refs),
           (initialMaskState st), (startPos st), (activeHandle st);
    simpl; eauto 8.
Qed.

End PointerMove.

(** C2 (as the code has it).  A pointer move while RESIZING makes one
    update.  With a handle that has the letter [w], either the proposed
    width [width - dxPct] is above 0.5 and the update carries it together
    with the origin [x + dxPct], or the update carries the snapshot's
    origin and width; so the origin moves only to a width above 0.5, and
    the width is at least 0.5 whenever the snapshot's is.  The letter [n]
    does the same to [y] and [height].  With [e] (resp. [s]) the origin
    stays and the width (resp. height) is [max 0.5 (size + delta)]: at
    least 0.5, and the sum itself when that is at least 0.5. *)
Theorem resize_minimum_size (refs : PdfPreview.Refs) (st : PdfPreview.State)
    (ev : PdfPreview.MouseEvent) (init : Mask) (h : PdfPreview.ResizeHandle)
    (start : PdfPreview.Point) (c : PdfPreview.Container) :
  PdfPreview.interactionState st = PdfPreview.RESIZING ->
  PdfPreview.initialMaskState st = Some init ->
  PdfPreview.activeHandle st = Some h ->
  PdfPreview.startPos st = Some start ->
  PdfPreview.containerRef refs = Some c ->
  let dx := dxPct_of refs start ev in
  let dy := dyPct_of refs start ev in
  exists m,
    snd (PdfPreview.handleGlobalMouseMove refs st ev) = [PdfPreview.onUpdateMask m]
    /\ (PdfPreview.handle_includes h "w" = true ->
          ((1 # 2 < width init - dx)%Q
           /\ x m = (x init + dx)%Q /\ width m = (width init - dx)%Q
           /\ (1 # 2 < width m)%Q)
          \/ ((width init - dx <= 1 # 2)%Q
              /\ x m = x init /\ width m = width init))
    /\ (PdfPreview.handle_includes h "w" = true ->
          (1 # 2 <= width init)%Q -> (1 # 2 <= width m)%Q)
    /\ (PdfPreview.handle_includes h "n" = true ->
          ((1 # 2 < height init - dy)%Q
           /\ y m = (y init + dy)%Q /\ height m = (height init - dy)%Q
           /\ (1 # 2 < height m)%Q)
          \/ ((height init - dy <= 1 # 2)%Q
              /\ y m = y init /\ height m = height init))
    /\ (PdfPreview.handle_includes h "n" = true ->
          (1 # 2 <= height init)%Q -> (1 # 2 <= height m)%Q)
    /\ (PdfPreview.handle_includes h "e" = true ->
          x m = x init /\ (1 # 2 <= width m)%Q
          /\ ((1 # 2 <= width init + dx)%Q -> width m = (width init + dx)%Q))
    /\ (PdfPreview.handle_includes h "s" = true ->
          y m = y init /\ (1 # 2 <= height m)%Q
          /\ ((1 # 2 <= height init + dy)%Q -> height m = (height init + dy)%Q)).
Proof.
  intros Hs Hi Hh Hp Hc dx dy.
  exists (PdfPreview.resized init h dx dy).
  split; [now apply (mouse_move_resizing refs st ev init h start c)|].
  pose proof (resized_horizontal init h dx dy) as HX.
  pose proof (resized_vertical init h dx dy) as HY.
  remember (PdfPreview.resized init h dx dy) as m eqn:Hm. clear Hm.
  assert (Hmax : forall a : Q, (1 # 2 <= a)%Q -> Math_max (1 # 2) a = a).
  { intros a Ha. unfold Math_max. apply Qle_bool_iff in Ha. now rewrite Ha. }
  repeat match goal with |- _ /\ _ => split end.
  - intros Hw. rewrite Hw in HX.
    destruct (Qgtb (width init - dx) (1 # 2)) eqn:E; injection HX as Hx Hwd.
    + apply Qgtb_true in E. left. rewrite Hx, Hwd. repeat split; assumption.
    + apply Qgtb_false in E. right. repeat split; assumption.
  - intros Hw Hinit. rewrite Hw in HX.
    destruct (Qgtb (width init - dx) (1 # 2)) eqn:E; injection HX as Hx Hwd;
      rewrite Hwd; [|assumption].
    apply Qgtb_true in E. now apply Qlt_le_weak.
  - intros Hn. rewrite Hn in HY.
    destruct (Qgtb (height init - dy) (1 # 2)) eqn:E; injection HY as Hy Hht.
    + apply Qgtb_true in E. left. rewrite Hy, Hht. repeat split; assumption.
    + apply Qgtb_false in E. right. repeat split; assumption.
  - intros Hn Hinit. rewrite Hn in HY.
    destruct (Qgtb (height init - dy) (1 # 2)) eqn:E; injection HY as Hy Hht;
      rewrite Hht; [|assumption].
    apply Qgtb_true in E. now apply Qlt_le_weak.
  - intros He. destruct h; simpl in He; try discriminate He; simpl in HX;
      injection HX as Hx Hwd; rewrite Hx, Hwd;
      (repeat split; [apply Math_max_lower | apply Hmax]).
  - intros Hso. destruct h; simpl in Hso; try discriminate Hso; simpl in HY;
      injection HY as Hy Hht; rewrite Hy, Hht;
      (repeat split; [apply Math_max_lower | apply Hmax]).
Qed.

Lemma resize_minimum_size_witness :
  let init := mkMask "mask-1" 10 10 30 20 "#FFFFFF" solid None (Some 0) in
  let refs :=
    PdfPreview.mkRefs None
      (Some (PdfPreview.mkContainer (PdfPreview.mkDOMRect 0 0 1000 500) 1000 500)) in
  let st :=
    PdfPreview.mkState PdfPreview.RESIZING (Some PdfPreview.h_w)
      (Some (PdfPreview.mkPoint 100 50)) None (Some init) in
  exists m,
    snd (PdfPreview.handleGlobalMouseMove refs st (PdfPreview.mkMouseEvent 150 50))
    = [PdfPreview.onUpdateMask m]
    /\ (1 # 2 <= width m)%Q.
Proof.
  intros init refs st.
  destruct (resize_minimum_size refs st (PdfPreview.mkMouseEvent 150 50)
              init PdfPreview.h_w (PdfPreview.mkPoint 100 50) _
              eq_refl eq_refl eq_refl eq_refl eq_refl)
    as (m & Hm & _ & Hfloor & _).
  exists m. split; [exact Hm|].
  apply Hfloor; [reflexivity|]. unfold Qle. simpl. lia.
Defined.

(** C2 as the specification words it fails.  On a container 2000 pixels
    wide a drawn rectangle of 6 by 6 pixels is committed with width 0.3
    percent; grabbing its west handle and moving one pixel to the right
    proposes 0.25, which is refused, and the update carries the
    snapshot's width 0.3, below 0.5. *)
Lemma resize_w_keeps_narrow_mask :
  let refs :=
    PdfPreview.mkRefs None
      (Some (PdfPreview.mkContainer (PdfPreview.mkDOMRect 0 0 2000 1000) 2000 1000)) in
  let app0 := App.mkSession [] None 1 in
  let props := App.props_of app0 MASK in
  let down :=
    PdfPreview.handleContainerMouseDown refs props PdfPreview.initial
      (PdfPreview.mkMouseEvent 100 100) in
  let move :=
    PdfPreview.handleGlobalMouseMove refs (fst down) (PdfPreview.mkMouseEvent 106 106) in
  let up := PdfPreview.handleGlobalMouseUp refs props 1700000000000 (fst move) in
  let app1 := App.run app0 (snd up) in
  exists drawn,
    App.s_masks app1 = [drawn]
    /\ let grab :=
         PdfPreview.handleResizeMouseDown refs (fst up)
           (PdfPreview.mkMouseEvent 100 103) PdfPreview.h_w drawn in
       exists m,
         snd (PdfPreview.handleGlobalMouseMove refs (fst grab)
                (PdfPreview.mkMouseEvent 101 103))
         = [PdfPreview.onUpdateMask m]
         /\ (width m < 1 # 2)%Q.
Proof.
  intros. eexists. split; [reflexivity|].
  eexists. split; [reflexivity|]. vm_compute. reflexivity.
Qed.

(** ** Snapshot invalidation *)

Lemma dragged_snapshot (init : Mask) (dx dy : Q) :
  imageSnapshot (PdfPreview.dragged init dx dy) = None.
Proof. reflexivity. Qed.

Lemma resized_snapshot (init : Mask) (h : PdfPreview.ResizeHandle) (dx dy : Q) :
  imageSnapshot (PdfPreview.resized init h dx dy) = None.
Proof. apply resized_rest. Qed.

Lemma mouse_move_update_snapshot (refs : PdfPreview.Refs) (st : PdfPreview.State)
    (ev : PdfPreview.MouseEvent) (m : Mask) :
  In (PdfPreview.onUpdateMask m) (snd (PdfPreview.handleGlobalMouseMove refs st ev)) ->
  snd (PdfPreview.handleGlobalMouseMove refs st ev) = [PdfPreview.onUpdateMask m]
  /\ imageSnapshot m = None.
Proof.
  destruct (mouse_move_calls refs st ev)
    as [E | [(init & dx & dy & E) | (init & h & dx & dy & E)]];
    rewrite E; simpl.
  - intros [].
  - intros [H|[]]. injection H as <-.
    split; [reflexivity | apply dragged_snapshot].
  - intros [H|[]]. injection H as <-.
    split; [reflexivity | apply resized_snapshot].
Qed.

Lemma run_single_update (app : App.Session) (m : Mask) :
  App.s_masks (App.run app [PdfPreview.onUpdateMask m])
  = Store.handleUpdateMask (App.s_masks app) m.
Proof. reflexivity. Qed.

(** C1 (as the code has it).  Every update that a pointer move makes
    while dragging or resizing, and every update that the fill-style
    selector makes, carries no snapshot, so every stored mask with the
    updated id has [imageSnapshot] undefined afterwards.  Toggling the
    scope changes [pageIndex] and nothing else: the snapshot of the
    selected mask is kept. *)
Theorem snapshot_invalidation (app : App.Session) :
  (forall refs st ev m stored,
      In (PdfPreview.onUpdateMask m)
         (snd (PdfPreview.handleGlobalMouseMove refs st ev)) ->
      imageSnapshot m = None
      /\ (In stored
             (App.s_masks
                (App.run app (snd (PdfPreview.handleGlobalMouseMove refs st ev)))) ->
          id stored = id m -> imageSnapshot stored = None))
  /\ (forall ft m stored,
        CropControls.handleMaskChange (App.s_masks app) (App.s_selectedMaskId app)
          (CropControls.set_fillType ft) = Some m ->
        fillType m = ft /\ imageSnapshot m = None
        /\ (In stored (Store.handleUpdateMask (App.s_masks app) m) ->
            id stored = id m -> imageSnapshot stored = None))
  /\ (forall old m,
        CropControls.selectedMask (App.s_masks app) (App.s_selectedMaskId app)
        = Some old ->
        CropControls.toggleMaskScope (App.s_masks app) (App.s_selectedMaskId app)
          (App.s_currentPage app) = Some m ->
        pageIndex m <> pageIndex old
        /\ m = with_pageIndex old (pageIndex m)
        /\ imageSnapshot m = imageSnapshot old).
Proof.
  repeat match goal with |- _ /\ _ => split end.
  - intros refs st ev m stored Hin.
    destruct (mouse_move_update_snapshot refs st ev m Hin) as [E Hnone].
    split; [exact Hnone|]. rewrite E, run_single_update.
    intros Hst Hid. now rewrite (handleUpdateMask_stored m _ stored Hst Hid).
  - intros ft m stored. unfold CropControls.handleMaskChange.
    destruct (CropControls.selectedMask _ _) as [sel|]; [|discriminate].
    simpl. injection 1 as <-. repeat split.
    intros Hst Hid. now rewrite (handleUpdateMask_stored _ _ stored Hst Hid).
  - intros old m Hsel. unfold CropControls.toggleMaskScope. rewrite Hsel.
    injection 1 as <-. destruct old as [i a b c d col ft snap [pg|]]; simpl;
      repeat split; discriminate.
Qed.

(** C1 as the specification words it fails: a page-scoped [clone-top]
    mask that has a snapshot is switched to global scope; the stored
    mask's [pageIndex] has changed and its snapshot is still there. *)
Lemma scope_toggle_keeps_snapshot :
  let m0 :=
    mkMask "mask-1" 10 80 30 5 "#FFFFFF" clone_top
           (Some "data:image/png;base64,iVBORw0KGgo="%string) (Some 0) in
  let app := App.mkSession [m0] (Some "mask-1") 1 in
  exists m,
    CropControls.toggleMaskScope (App.s_masks app) (App.s_selectedMaskId app)
      (App.s_currentPage app) = Some m
    /\ pageIndex m <> pageIndex m0
    /\ exists stored,
         In stored (Store.handleUpdateMask (App.s_masks app) m)
         /\ id stored = id m0
         /\ imageSnapshot stored = Some "data:image/png;base64,iVBORw0KGgo="%string.
Proof.
  intros. eexists. split; [reflexivity|]. split; [discriminate|].
  eexists. split; [left; reflexivity|]. split; reflexivity.
Qed.

(** The numeric fields of the control panel go through the same
    [handleMaskChange] with another key: the geometry changes and the
    snapshot taken at the old place stays. *)
Example numeric_field_keeps_snapshot :
  let m0 :=
    mkMask "mask-1" 10 80 30 5 "#FFFFFF" clone_top
           (Some "data:image/png;base64,iVBORw0KGgo="%string) (Some 0) in
  CropControls.handleMaskChange [m0] (Some "mask-1") (CropControls.set_x 55)
  = Some (mkMask "mask-1" 55 80 30 5 "#FFFFFF" clone_top
                 (Some "data:image/png;base64,iVBORw0KGgo="%string) (Some 0)).
Proof. reflexivity. Qed.

(** ** Drawing *)

(** The DRAWING state is entered only by [handleContainerMouseDown],
    which records both points; every handler keeps that. *)
Section DrawingReady.

Import PdfPreview.

Variables (refs : Refs) (props : Props) (st : State) (ev : MouseEvent).
Hypothesis Hready : drawing_ready st.

Lemma drawing_ready_initial : drawing_ready initial.
Proof. intros H. discriminate H. Qed.

Lemma drawing_ready_container_down :
  drawing_ready (fst (handleContainerMouseDown refs props st ev)).
Proof.
  unfold handleContainerMouseDown.
  destruct (mode props), (containerRef refs), (interactionState st) eqn:E;
    simpl; try exact Hready; intros _; eauto.
Qed.

Lemma drawing_ready_mask_down (mask : Mask) :
  drawing_ready (fst (handleMaskMouseDown refs st ev mask)).
Proof. intros H. discriminate H. Qed.

Lemma drawing_ready_resize_down (handle : ResizeHandle) (mask : Mask) :
  drawing_ready (fst (handleResizeMouseDown refs st ev handle mask)).
Proof. intros H. discriminate H. Qed.

Lemma drawing_ready_move :
  drawing_ready (fst (handleGlobalMouseMove refs st ev)).
Proof.
  unfold handleGlobalMouseMove.
  destruct (interactionState st) eqn:E, (containerRef refs);
    try exact Hready;
    try (destruct (initialMaskState st), (startPos st), (activeHandle st);
         intros H; discriminate H).
  destruct (Hready E) as (start & cur & Hs & _).
  intros _. simpl. rewrite Hs. eauto.
Qed.

Lemma drawing_ready_up (now : Z) :
  drawing_ready (fst (handleGlobalMouseUp refs props now st)).
Proof. intros H. discriminate H. Qed.

End DrawingReady.





(** A drawn rectangle over a canvas: the display is 1000 by 500, the
    raster 1500 by 750, and the pixel under the rectangle's corner is
    (255, 0, 171). *)
Example drawn_mask_takes_sampled_colour :
  let ctx :=
    PdfPreview.mkContext2D
      (fun px py => if (px =? 150) && (py =? 150) then Some (255, 0, 171) else None)
      (fun _ _ _ _ => None) in
  let refs :=
    PdfPreview.mkRefs
      (Some (PdfPreview.mkCanvas 1500 750 (Some ctx)))
      (Some (PdfPreview.mkContainer (PdfPreview.mkDOMRect 20 30 1000 500) 1000 500)) in
  let st :=
    PdfPreview.mkState PdfPreview.DRAWING None
      (Some (PdfPreview.mkPoint 110 100)) (Some (PdfPreview.mkPoint 100 110)) None in
  exists m,
    snd (PdfPreview.handleGlobalMouseUp refs (PdfPreview.mkProps [] MASK 3)
           1700000000000 st)
    = [PdfPreview.onAddMask m]
    /\ id m = "mask-1700000000000" /\ color m = "#FF00AB"
    /\ (x m == 10)%Q /\ (y m == 20)%Q /\ (width m == 1)%Q /\ (height m == 2)%Q
    /\ pageIndex m = Some 2.
Proof.
  intros. eexists. split; [reflexivity|]. vm_compute. repeat split.
Qed.

(** ** Snapshot backfill *)

Lemma MaskFillType_eqb_eq (a b : MaskFillType) :
  MaskFillType_eqb a b = true <-> a = b.
Proof. destruct a, b; simpl; split; congruence. Qed.

Lemma needsSnapshot_true (m : Mask) :
  PdfPreview.needsSnapshot m = true
  <-> fillType m <> solid /\ truthy (imageSnapshot m) = false.
Proof.
  unfold PdfPreview.needsSnapshot.
  rewrite andb_true_iff, !negb_true_iff, <- not_true_iff_false, MaskFillType_eqb_eq.
  reflexivity.
Qed.

Lemma backfillOne_call (refs : PdfPreview.Refs) (m : Mask) (c : PdfPreview.Call) :
  In c (PdfPreview.backfillOne refs m) ->
  exists snap,
    c = PdfPreview.onUpdateMask (with_imageSnapshot m (Some snap))
    /\ PdfPreview.captureMaskSnapshot refs m = Some snap
    /\ fillType m <> solid /\ truthy (imageSnapshot m) = false.
Proof.
  unfold PdfPreview.backfillOne.
  destruct (PdfPreview.needsSnapshot m) eqn:N; [|intros []].
  apply needsSnapshot_true in N.
  destruct (PdfPreview.captureMaskSnapshot refs m) as [snap|] eqn:C; [|intros []].
  destruct (truthy (Some snap)); [|intros []].
  intros [<-|[]]. exists snap. now repeat split.
Qed.

Lemma backfill_nothing (refs : PdfPreview.Refs) (visible : list Mask) :
  (forall m, In m visible -> fillType m <> solid -> truthy (imageSnapshot m) = true) ->
  List.flat_map (PdfPreview.backfillOne refs) visible = [].
Proof.
  induction visible as [|m rest IH]; intros Hall; simpl; [reflexivity|].
  rewrite IH by (intros m' Hin; apply Hall; now right).
  unfold PdfPreview.backfillOne.
  destruct (PdfPreview.needsSnapshot m) eqn:N; [|reflexivity].
  apply needsSnapshot_true in N. destruct N as [Hfill Hsnap].
  rewrite Hall in Hsnap by (try left; auto). discriminate.
Qed.

(** C7.  Each write of the snapshot effect is [{ ...mask, imageSnapshot }]
    for a mask that is visible on the current page, is not solid, has no
    snapshot, and for which the capture gave one.  So when every visible
    non-solid mask has a snapshot the effect makes no call and the
    session is what it was; and it makes no call while a render is in
    flight. *)
Theorem snapshot_backfill_idempotent (refs : PdfPreview.Refs) (app : App.Session)
    (mode : EditMode) (loading : bool) :
  let visible := Store.visibleMasks (App.s_masks app) (App.s_currentPage app) in
  let calls := PdfPreview.snapshotEffect refs (App.props_of app mode) loading in
  (forall c, In c calls ->
     exists m snap,
       c = PdfPreview.onUpdateMask (with_imageSnapshot m (Some snap))
       /\ In m visible /\ fillType m <> solid
       /\ truthy (imageSnapshot m) = false
       /\ PdfPreview.captureMaskSnapshot refs m = Some snap)
  /\ ((forall m, In m visible -> fillType m <> solid ->
         truthy (imageSnapshot m) = true) ->
      calls = [] /\ App.run app calls = app)
  /\ (loading = true -> calls = []).
Proof.
  intros visible calls. subst calls. unfold PdfPreview.snapshotEffect.
  simpl PdfPreview.masks. simpl PdfPreview.currentPage. fold visible.
  repeat match goal with |- _ /\ _ => split end.
  - destruct loading; [intros c []|]. intros c Hin.
    apply in_flat_map in Hin. destruct Hin as (m & Hvis & Hc).
    destruct (backfillOne_call refs m c Hc) as (snap & -> & Hcap & Hfill & Hsnap).
    exists m, snap. now repeat split.
  - intros Hall. destruct loading; [split; reflexivity|].
    rewrite (backfill_nothing refs visible Hall). split; reflexivity.
  - intros ->. reflexivity.
Qed.

(** ** Margin detection *)

Section Detector.

Import GeminiService.

Variables (ai : Gemini) (image : string).

Lemma detect_without_key :
  GEMINI_API_KEY ai = "" ->
  detectWatermarkMargins ai image = inl (Error "API Key is missing").
Proof. unfold detectWatermarkMargins. now intros ->. Qed.

Lemma detect_with_key :
  GEMINI_API_KEY ai <> "" ->
  detectWatermarkMargins ai image
  = Exc.try_catch
      (let! resultText := generateContent ai image in
       if truthy resultText then
         let! margins :=
           JSON_parse ai (match resultText with Some t => t | None => "" end) in
         let! t := get_prop margins "top" in
         let! b := get_prop margins "bottom" in
         let! l := get_prop margins "left" in
         let! r := get_prop margins "right" in
         Exc.ret (mkMargins (or_else t (JNum 0)) (or_else b (JNum 0))
                            (or_else l (JNum 0)) (or_else r (JNum 0)))
       else Exc.throw (Error "No response from Gemini Vision"))
      (fun _ => Exc.ret zeroMargins).
Proof.
  unfold detectWatermarkMargins. destruct (GEMINI_API_KEY ai); [congruence|reflexivity].
Qed.

Lemma try_catch_returns {A} (body : Exc.exc A) (fallback : A) :
  exists a, Exc.try_catch body (fun _ => Exc.ret fallback) = inr a.
Proof. destruct body; simpl; eauto. Qed.

End Detector.

(** C5 (as the code has it).  With a configured key,
    [detectWatermarkMargins] never throws, and each failure of the
    guarded part (request rejected, no text, text not JSON, text [null])
    yields the all-zero margins.  With no key it throws
    "API Key is missing" before the guarded part. *)
Theorem detect_margins_fallback (ai : GeminiService.Gemini) (image : string) :
  (GeminiService.GEMINI_API_KEY ai <> "" ->
     (exists m, GeminiService.detectWatermarkMargins ai image = inr m)
     /\ (DetectorFailure ai image ->
         GeminiService.detectWatermarkMargins ai image
         = inr GeminiService.zeroMargins))
  /\ (GeminiService.GEMINI_API_KEY ai = "" ->
      GeminiService.detectWatermarkMargins ai image
      = inl (Error "API Key is missing")).
Proof.
  split; [|apply detect_without_key].
  intros Hkey. rewrite (detect_with_key ai image Hkey). split.
  - apply try_catch_returns.
  - intros [e He | t Ht Hfalsy | t e Ht He | t Ht Hnull]; rewrite ?Ht, ?He; simpl.
    + reflexivity.
    + now rewrite Hfalsy.
    + destruct t; simpl; [reflexivity|]. now rewrite He.
    + destruct t; simpl; [reflexivity|]. now rewrite Hnull.
Qed.

(** C5 as the specification words it fails: with no API key the call
    fails, and the failure reaches the caller as a thrown error, not as
    zero margins, whatever the detector would have answered. *)
Lemma missing_key_propagates :
  let ai :=
    GeminiService.mkGemini ""
      (fun _ => inr (Some "{}")) (fun _ => inr (GeminiService.JObj [])) in
  GeminiService.detectWatermarkMargins ai "aGVsbG8="
  = inl (Error "API Key is missing")
  /\ GeminiService.detectWatermarkMargins ai "aGVsbG8="
     <> inr GeminiService.zeroMargins.
Proof. split; [reflexivity | discriminate]. Qed.

(** ** Export colours *)

Section HexColours.

Import PdfService.

Lemma hexToRgb_fallback_white : is_white (hexToRgb None).
Proof. unfold is_white. simpl. repeat split; reflexivity. Qed.

Lemma hexToRgb_no_hash (h : string) :
  JS.startsWith h "#" = false -> hexToRgb (Some h) = hexToRgb None.
Proof. unfold hexToRgb. now intros ->. Qed.

Lemma hexToRgb_wrong_length (h : string) :
  String.length h <> 4%nat -> String.length h <> 7%nat ->
  hexToRgb (Some h) = hexToRgb None.
Proof.
  intros H4 H7. unfold hexToRgb.
  destruct (JS.startsWith h "#"); [|reflexivity].
  apply Nat.eqb_neq in H4. apply Nat.eqb_neq in H7.
  cbv zeta. rewrite H4, H7. reflexivity.
Qed.

Lemma hexToRgb_short_form (c1 c2 c3 : ascii) :
  hexToRgb (Some (String "#" (String c1 (String c2 (String c3 "")))))
  = hexToRgb
      (Some (String "#" (String c1 (String c1 (String c2 (String c2
               (String c3 (String c3 "")))))))).
Proof. reflexivity. Qed.

End HexColours.

(** C8 (as the code has it).  [hexToRgb] is total.  For [undefined], for
    a string that does not start with [#], and for a string whose length
    is neither 4 nor 7 it gives white.  A 4-character [#abc] is not
    defaulted: it is read as [#aabbcc]; so [#FFF] is white because it
    names white. *)
Theorem hexToRgb_tolerant :
  (forall hex,
      match hex with
      | None => True
      | Some h => JS.startsWith h "#" = false
                  \/ (String.length h <> 4%nat /\ String.length h <> 7%nat)
      end ->
      is_white (PdfService.hexToRgb hex))
  /\ (forall c1 c2 c3 : ascii,
        PdfService.hexToRgb (Some (String "#" (String c1 (String c2 (String c3 "")))))
        = PdfService.hexToRgb
            (Some (String "#" (String c1 (String c1 (String c2 (String c2
                     (String c3 (String c3 "")))))))))
  /\ is_white (PdfService.hexToRgb (Some "#FFF")).
Proof.
  repeat match goal with |- _ /\ _ => split end.
  - intros [h|] Hbad; [|apply hexToRgb_fallback_white].
    destruct Hbad as [Hhash | [H4 H7]].
    + rewrite hexToRgb_no_hash by assumption. apply hexToRgb_fallback_white.
    + rewrite hexToRgb_wrong_length by assumption. apply hexToRgb_fallback_white.
  - apply hexToRgb_short_form.
  - unfold is_white. simpl. repeat split; reflexivity.
Qed.

(** C8 as the specification words it fails: the short form [#000] is
    malformed in the specification's sense and comes out black. *)
Lemma short_form_black_not_white :
  String.length "#000" = 4%nat
  /\ (PdfService.r (PdfService.hexToRgb (Some "#000")) == 0)%Q
  /\ ~ is_white (PdfService.hexToRgb (Some "#000")).
Proof.
  split; [reflexivity|]. split; [reflexivity|].
  intros [Hr _]. vm_compute in Hr. discriminate Hr.
Qed.

(* ================================================================== *)
(** * Further properties of the code *)

(** ** Deleting and adding masks *)

(** [handleDeleteMask] keeps exactly the masks with another id, in
    their order, and drops the selection exactly when it was the
    deleted id. *)
Theorem handleDeleteMask_removes (masks : list Mask) (selected : option string)
    (i : string) :
  let masks' := fst (Store.handleDeleteMask masks selected i) in
  let selected' := snd (Store.handleDeleteMask masks selected i) in
  masks' `sublist_of` masks
  /\ (forall m, In m masks' <-> In m masks /\ id m <> i)
  /\ (forall k, k `sublist_of` masks -> Forall (fun m => id m <> i) k ->
        k `sublist_of` masks')
  /\ (selected = Some i -> selected' = None)
  /\ (selected <> Some i -> selected' = selected).
Proof.
  simpl. repeat match goal with |- _ /\ _ => split end.
  - apply filter_sublist_of.
  - intros m. rewrite filter_In, negb_true_iff. split.
    + intros [Hin Hne]. split; [exact Hin|]. now apply String.eqb_neq.
    + intros [Hin Hne]. split; [exact Hin|]. now apply String.eqb_neq.
  - intros k Hsub Hall. apply filter_largest; [exact Hsub|].
    eapply Forall_impl; [exact Hall|]. intros m Hne. simpl in Hne.
    apply negb_true_iff. now apply String.eqb_neq.
  - intros ->. now rewrite String.eqb_refl.
  - intros Hne. destruct selected as [sel|]; [|reflexivity].
    destruct (String.eqb sel i) eqn:E; [|reflexivity].
    apply String.eqb_eq in E. congruence.
Qed.

Lemma filter_all {A} (f : A -> bool) (l : list A) :
  Forall (fun a => f a = true) l -> List.filter f l = l.
Proof.
  induction 1 as [|a l Ha _ IH]; simpl; [reflexivity|]. now rewrite Ha, IH.
Qed.

(** Adding a mask whose id is not in the store and deleting it again
    gives back the store, with nothing selected. *)
Theorem add_then_delete (masks : list Mask) (currentPage : Z) (newMask : Mask) :
  (forall m, In m masks -> id m <> id newMask) ->
  let added := Store.handleAddMask masks currentPage newMask in
  Store.handleDeleteMask (fst added) (snd added) (id newMask) = (masks, None).
Proof.
  intros Hfresh added. subst added.
  unfold Store.handleAddMask, Store.handleDeleteMask. cbn [fst snd].
  rewrite List.filter_app. cbn [List.filter id with_pageIndex].
  rewrite !String.eqb_refl. cbn [negb]. rewrite app_nil_r.
  rewrite filter_all; [reflexivity|].
  apply List.Forall_forall. intros m Hin. apply negb_true_iff.
  apply String.eqb_neq. now apply Hfresh.
Qed.

Lemma add_then_delete_witness :
  let m1 := mkMask "mask-1" 10 10 30 20 "#FFFFFF" solid None (Some 0) in
  let m2 := mkMask "mask-2" 50 60 5 5 "#000000" clone_left None None in
  Store.handleDeleteMask (fst (Store.handleAddMask [m1] 3 m2))
                         (snd (Store.handleAddMask [m1] 3 m2)) "mask-2"
  = ([m1], None).
Proof.
  intros m1 m2. apply (add_then_delete [m1] 3 m2).
  intros m [<-|[]]. discriminate.
Defined.

(** A mask added by [handleAddMask] is stored last, scoped to the shown
    page whatever scope it came with; the masks shown on that page gain
    it at the end and the masks of every other page are the same. *)
Theorem handleAddMask_scope (masks : list Mask) (currentPage : Z) (newMask : Mask) :
  let added := with_pageIndex newMask (Some (currentPage - 1)) in
  let masks' := fst (Store.handleAddMask masks currentPage newMask) in
  masks' = masks ++ [added]
  /\ snd (Store.handleAddMask masks currentPage newMask) = Some (id newMask)
  /\ Store.visibleMasks masks' currentPage
     = Store.visibleMasks masks currentPage ++ [added]
  /\ (forall page, page <> currentPage ->
        Store.visibleMasks masks' page = Store.visibleMasks masks page).
Proof.
  unfold Store.handleAddMask. cbn [fst snd]. cbv zeta.
  repeat match goal with |- _ /\ _ => split end; try reflexivity.
  - unfold Store.visibleMasks. rewrite List.filter_app. f_equal.
    cbn [List.filter]. unfold Store.onPage. cbn [pageIndex with_pageIndex].
    now rewrite Z.eqb_refl.
  - intros page Hne. unfold Store.visibleMasks. rewrite List.filter_app.
    cbn [List.filter]. unfold Store.onPage at 2. cbn [pageIndex with_pageIndex].
    destruct (Z.eqb_spec (currentPage - 1) (page - 1)); [lia|].
    now rewrite app_nil_r.
Qed.


(** ** Scope of the selected mask *)

Lemma selectedMask_found (masks : list Mask) (sid : option string) (sel : Mask) :
  CropControls.selectedMask masks sid = Some sel ->
  In sel masks /\ sid = Some (id sel).
Proof.
  unfold CropControls.selectedMask. destruct sid as [s|]; [|discriminate].
  intros Hfind. apply find_some in Hfind. destruct Hfind as [Hin Heq].
  apply String.eqb_eq in Heq. split; [exact Hin | now rewrite Heq].
Qed.

(** After an update the selection is the updated mask. *)
Lemma selectedMask_updated (masks : list Mask) (sid : option string)
    (sel updated : Mask) :
  CropControls.selectedMask masks sid = Some sel ->
  id updated = id sel ->
  CropControls.selectedMask (Store.handleUpdateMask masks updated) sid
  = Some updated.
Proof.
  intros Hsel Hid. destruct (selectedMask_found _ _ _ Hsel) as [_ ->].
  unfold CropControls.selectedMask in *. unfold Store.handleUpdateMask.
  rewrite Hid.
  induction masks as [|m rest IH]; [discriminate|]. simpl in *.
  destruct (String.eqb (id m) (id sel)) eqn:E.
  - now rewrite Hid, String.eqb_refl.
  - rewrite E. now apply IH.
Qed.

Lemma updated_is_stored (masks : list Mask) (sel updated : Mask) :
  In sel masks -> id updated = id sel ->
  In updated (Store.handleUpdateMask masks updated).
Proof.
  intros Hin Hid. unfold Store.handleUpdateMask. apply in_map_iff.
  exists sel. split; [|exact Hin]. now rewrite Hid, String.eqb_refl.
Qed.

(** Toggling the scope of a page-scoped selection makes the stored mask
    visible on every page; toggling a global one makes it visible on the
    shown page and on no other. *)
Theorem toggleMaskScope_visibility (masks : list Mask) (sid : option string)
    (currentPage : Z) (old m : Mask) :
  CropControls.selectedMask masks sid = Some old ->
  CropControls.toggleMaskScope masks sid currentPage = Some m ->
  let masks' := Store.handleUpdateMask masks m in
  In m masks'
  /\ (pageIndex old <> None ->
        forall page, In m (Store.visibleMasks masks' page))
  /\ (pageIndex old = None ->
        forall page, In m (Store.visibleMasks masks' page) <-> page = currentPage).
Proof.
  intros Hsel Htog masks'. subst masks'.
  unfold CropControls.toggleMaskScope in Htog. rewrite Hsel in Htog.
  injection Htog as <-.
  destruct (selectedMask_found _ _ _ Hsel) as [Hin _].
  set (m := with_pageIndex old _).
  assert (Hstored : In m (Store.handleUpdateMask masks m))
    by (apply (updated_is_stored masks old m Hin); reflexivity).
  repeat match goal with |- _ /\ _ => split end.
  - exact Hstored.
  - intros Hscoped page. unfold Store.visibleMasks. apply filter_In.
    split; [exact Hstored|]. subst m. unfold Store.onPage. simpl.
    destruct (pageIndex old); [reflexivity | congruence].
  - intros Hglobal page. unfold Store.visibleMasks. rewrite filter_In.
    subst m. unfold Store.onPage. simpl. rewrite Hglobal. rewrite Z.eqb_eq.
    split; [intros [_ H]; lia | intros ->; split; [|reflexivity]].
    rewrite Hglobal in Hstored. exact Hstored.
Qed.

Lemma toggleMaskScope_visibility_witness :
  let a := mkMask "mask-1" 10 10 30 20 "#FFFFFF" solid None (Some 0) in
  let toggled := mkMask "mask-1" 10 10 30 20 "#FFFFFF" solid None None in
  In toggled (Store.visibleMasks (Store.handleUpdateMask [a] toggled) 2).
Proof.
  intros a toggled.
  destruct (toggleMaskScope_visibility [a] (Some "mask-1") 1 a toggled
              eq_refl eq_refl) as (_ & Hall & _).
  apply Hall. discriminate.
Defined.

(** Two scope toggles in a row, on the same shown page: a global mask
    is global again, and a page-scoped mask ends up scoped to the shown
    page, which is its old scope only if it was scoped to that page. *)
Theorem toggleMaskScope_twice (masks : list Mask) (sid : option string)
    (currentPage : Z) (old once : Mask) :
  CropControls.selectedMask masks sid = Some old ->
  CropControls.toggleMaskScope masks sid currentPage = Some once ->
  CropControls.toggleMaskScope (Store.handleUpdateMask masks once) sid currentPage
  = Some (with_pageIndex old
            (match pageIndex old with
             | None => None
             | Some _ => Some (currentPage - 1)
             end)).
Proof.
  intros Hsel Htog. unfold CropControls.toggleMaskScope in Htog.
  rewrite Hsel in Htog. injection Htog as <-.
  unfold CropControls.toggleMaskScope.
  rewrite (selectedMask_updated masks sid old _ Hsel) by reflexivity.
  destruct old as [i a b c d col ft snap [pg|]]; reflexivity.
Qed.

Lemma toggleMaskScope_twice_witness :
  let a := mkMask "mask-1" 10 10 30 20 "#FFFFFF" solid None (Some 4) in
  let once := mkMask "mask-1" 10 10 30 20 "#FFFFFF" solid None None in
  CropControls.toggleMaskScope (Store.handleUpdateMask [a] once) (Some "mask-1") 2
  = Some (mkMask "mask-1" 10 10 30 20 "#FFFFFF" solid None (Some 1)).
Proof.
  intros a once.
  exact (toggleMaskScope_twice [a] (Some "mask-1") 2 a once eq_refl eq_refl).
Defined.

(** ** Pagination *)

(** With the shown page inside [1, numPages], a click on an enabled
    button moves by exactly one page and stays inside the range, the
    opposite button is then enabled and leads back; while a page is
    rendering neither button fires. *)
Theorem pagination_stays_in_range (currentPage numPages : Z) (loading : bool) :
  1 <= currentPage <= numPages ->
  (forall page, Pagination.clickNext currentPage numPages loading = Some page ->
     page = currentPage + 1 /\ 1 <= page <= numPages
     /\ Pagination.clickPrev page loading = Some currentPage)
  /\ (forall page, Pagination.clickPrev currentPage loading = Some page ->
        page = currentPage - 1 /\ 1 <= page <= numPages
        /\ Pagination.clickNext page numPages loading = Some currentPage)
  /\ (loading = true ->
        Pagination.clickNext currentPage numPages loading = None
        /\ Pagination.clickPrev currentPage loading = None)
  /\ (Pagination.clickNext numPages numPages loading = None)
  /\ (Pagination.clickPrev 1 loading = None).
Proof.
  intros Hrange.
  unfold Pagination.clickNext, Pagination.clickPrev,
         Pagination.nextDisabled, Pagination.prevDisabled.
  repeat match goal with |- _ /\ _ => split end.
  - intros page. destruct loading; rewrite ?orb_true_r, ?orb_false_r;
      [discriminate|].
    destruct (Z.geb_spec currentPage numPages); [discriminate|].
    injection 1 as <-.
    destruct (Z.leb_spec (numPages `min` (currentPage + 1)) 1); [lia|].
    repeat split; try lia. f_equal. lia.
  - intros page. destruct loading; rewrite ?orb_true_r, ?orb_false_r;
      [discriminate|].
    destruct (Z.leb_spec currentPage 1); [discriminate|].
    injection 1 as <-.
    destruct (Z.geb_spec (1 `max` (currentPage - 1)) numPages); [lia|].
    repeat split; try lia. f_equal. lia.
  - intros ->. now rewrite !orb_true_r.
  - destruct (Z.geb_spec numPages numPages); [reflexivity | lia].
  - reflexivity.
Qed.

Lemma pagination_stays_in_range_witness :
  Pagination.clickNext 2 3 false = Some 3
  /\ Pagination.clickPrev 3 false = Some 2.
Proof.
  destruct (pagination_stays_in_range 2 3 false ltac:(lia)) as (Hnext & _).
  destruct (Hnext 3 eq_refl) as (_ & _ & Hback).
  split; [reflexivity | exact Hback].
Defined.

(** ** Margins from the sliders, and the crop box *)

(** With every side and the new value in the sliders' range 0..45 no
    clamping happens: the value is stored as given and the margins stay
    in the range. *)
Theorem handleChange_slider (margins : CropMargins)
    (key : CropControls.MarginKey) (v : Q) :
  in_slider_range margins -> slider_range v ->
  CropControls.handleChange margins key v = CropControls.set_margin margins key v
  /\ in_slider_range (CropControls.handleChange margins key v).
Proof.
  intros (Ht & Hb & Hl & Hr) Hv. rewrite handleChange_unfold.
  assert (E : Qgtb (v + CropControls.get_margin margins (CropControls.opposing key)) 90
              = false).
  { apply Qgtb_false. unfold slider_range in *.
    destruct key; simpl; lra. }
  rewrite E. split; [reflexivity|].
  unfold in_slider_range. destruct key; simpl; repeat split;
    first [apply Ht | apply Hb | apply Hl | apply Hr | apply Hv].
Qed.

Lemma handleChange_slider_witness :
  CropControls.handleChange (mkCropMargins 45 10 0 (5 # 2)) CropControls.key_bottom 45
  = mkCropMargins 45 45 0 (5 # 2).
Proof.
  apply (handleChange_slider (mkCropMargins 45 10 0 (5 # 2))
           CropControls.key_bottom 45).
  - unfold in_slider_range, slider_range. simpl. lra.
  - unfold slider_range. lra.
Defined.

Section CropBox.

Import PdfExport.

Variables (margins : CropMargins) (page : PageSize).

Lemma crop_width_eq :
  (crop_width (cropBoxOf margins page)
   == pg_width page * (100 - left margins - right margins) / 100)%Q.
Proof. unfold cropBoxOf. simpl. field. Qed.

Lemma crop_height_eq :
  (crop_height (cropBoxOf margins page)
   == pg_height page * (100 - top margins - bottom margins) / 100)%Q.
Proof. unfold cropBoxOf. simpl. field. Qed.

Lemma crop_x_eq :
  (crop_x (cropBoxOf margins page) == pg_width page * left margins / 100)%Q.
Proof. unfold cropBoxOf. simpl. field. Qed.

Lemma crop_y_eq :
  (crop_y (cropBoxOf margins page) == pg_height page * bottom margins / 100)%Q.
Proof. unfold cropBoxOf. simpl. field. Qed.

End CropBox.

Lemma Qscaled_le (a k : Q) : (0 <= a -> 10 <= k -> a <= 10 * (a * k / 100))%Q.
Proof.
  intros Ha Hk.
  assert (E : (10 * (a * k / 100) == a + a * (k - 10) / 10)%Q) by field.
  rewrite E.
  assert (0 <= a * (k - 10))%Q by (apply Qmult_le_0_compat; lra).
  assert (0 <= a * (k - 10) / 10)%Q by (apply Qle_shift_div_l; lra).
  lra.
Qed.

Lemma Qscaled_nonneg (a k : Q) : (0 <= a -> 0 <= k -> 0 <= a * k / 100)%Q.
Proof.
  intros Ha Hk.
  assert (0 <= a * k)%Q by now apply Qmult_le_0_compat.
  apply Qle_shift_div_l; lra.
Qed.

(** With nonnegative margins whose opposing pairs sum to at most 90, the
    crop box of a page lies inside the page and keeps at least a tenth
    of its width and of its height. *)
Theorem cropBox_inside_page (margins : CropMargins) (page : PdfExport.PageSize) :
  (0 <= top margins /\ 0 <= bottom margins /\ 0 <= left margins /\ 0 <= right margins)%Q ->
  (top margins + bottom margins <= 90 /\ left margins + right margins <= 90)%Q ->
  (0 <= PdfExport.pg_width page /\ 0 <= PdfExport.pg_height page)%Q ->
  let box := PdfExport.cropBoxOf margins page in
  (0 <= PdfExport.crop_x box
   /\ PdfExport.crop_x box + PdfExport.crop_width box <= PdfExport.pg_width page
   /\ PdfExport.pg_width page <= 10 * PdfExport.crop_width box
   /\ 0 <= PdfExport.crop_y box
   /\ PdfExport.crop_y box + PdfExport.crop_height box <= PdfExport.pg_height page
   /\ PdfExport.pg_height page <= 10 * PdfExport.crop_height box)%Q.
Proof.
  intros (Ht & Hb & Hl & Hr) (Hv & Hh) (Hw & Hht) box. subst box.
  rewrite crop_x_eq, crop_y_eq, crop_width_eq, crop_height_eq.
  pose proof (Qscaled_nonneg _ _ Hw Hl) as X1.
  pose proof (Qscaled_nonneg _ _ Hw Hr) as X2.
  pose proof (Qscaled_nonneg _ _ Hht Hb) as Y1.
  pose proof (Qscaled_nonneg _ _ Hht Ht) as Y2.
  repeat match goal with |- _ /\ _ => split end.
  - exact X1.
  - assert (E : (PdfExport.pg_width page * left margins / 100
                 + PdfExport.pg_width page * (100 - left margins - right margins) / 100
                 == PdfExport.pg_width page
                    - PdfExport.pg_width page * right margins / 100)%Q) by field.
    rewrite E. lra.
  - apply Qscaled_le; lra.
  - exact Y1.
  - assert (E : (PdfExport.pg_height page * bottom margins / 100
                 + PdfExport.pg_height page * (100 - top margins - bottom margins) / 100
                 == PdfExport.pg_height page
                    - PdfExport.pg_height page * top margins / 100)%Q) by field.
    rewrite E. lra.
  - apply Qscaled_le; lra.
Qed.

Lemma cropBox_inside_page_witness :
  let box :=
    PdfExport.cropBoxOf (mkCropMargins 10 (25 # 2) 0 5) (PdfExport.mkPageSize 960 540) in
  (PdfExport.pg_width (PdfExport.mkPageSize 960 540) <= 10 * PdfExport.crop_width box)%Q.
Proof.
  intros box.
  apply (cropBox_inside_page (mkCropMargins 10 (25 # 2) 0 5)
           (PdfExport.mkPageSize 960 540));
    simpl; lra.
Defined.

Lemma handleChange_pair_sum (margins : CropMargins)
    (key : CropControls.MarginKey) (v : Q) :
  match key with
  | CropControls.key_top | CropControls.key_bottom =>
      (top (CropControls.handleChange margins key v)
       + bottom (CropControls.handleChange margins key v) <= 90)%Q
  | CropControls.key_left | CropControls.key_right =>
      (left (CropControls.handleChange margins key v)
       + right (CropControls.handleChange margins key v) <= 90)%Q
  end.
Proof.
  rewrite handleChange_unfold.
  destruct key; simpl;
    match goal with |- context [Qgtb ?a ?b] => destruct (Qgtb a b) eqn:E end;
    simpl; first [apply Qgtb_true in E | apply Qgtb_false in E]; lra.
Qed.

Lemma handleChange_pair_nonneg (margins : CropMargins)
    (key : CropControls.MarginKey) (v : Q) :
  (0 <= v)%Q ->
  (0 <= CropControls.get_margin margins (CropControls.opposing key) <= 90)%Q ->
  match key with
  | CropControls.key_top | CropControls.key_bottom =>
      (0 <= top (CropControls.handleChange margins key v)
       /\ 0 <= bottom (CropControls.handleChange margins key v))%Q
  | CropControls.key_left | CropControls.key_right =>
      (0 <= left (CropControls.handleChange margins key v)
       /\ 0 <= right (CropControls.handleChange margins key v))%Q
  end.
Proof.
  intros Hv Hopp. rewrite handleChange_unfold.
  destruct key; simpl in *;
    match goal with |- context [Qgtb ?a ?b] => destruct (Qgtb a b) eqn:E end;
    simpl; lra.
Qed.

(** After any mutation of one side through [handleChange], whatever the
    margins and the value were, the extent of a page's crop box along
    the edited axis is at least a tenth of the page's extent.  When in
    addition the value is not negative and the opposing side lies
    between 0 and 90, both sides of the edited pair are stored as
    nonnegative numbers and the crop box lies inside the page along the
    edited axis, so that at least a tenth of the page is kept.  (With
    an opposing side beyond 90 the stored side is negative and the box
    leaves the page, as [crop_box_leaves_page] shows.) *)
Theorem crop_after_mutation (margins : CropMargins)
    (key : CropControls.MarginKey) (v : Q) (page : PdfExport.PageSize) :
  (0 <= PdfExport.pg_width page /\ 0 <= PdfExport.pg_height page)%Q ->
  let stored := CropControls.handleChange margins key v in
  let box := PdfExport.cropBoxOf stored page in
  let opposite := CropControls.get_margin margins (CropControls.opposing key) in
  match key with
  | CropControls.key_top | CropControls.key_bottom =>
      (PdfExport.pg_height page <= 10 * PdfExport.crop_height box)%Q
      /\ ((0 <= v)%Q -> (0 <= opposite <= 90)%Q ->
          (0 <= top stored /\ 0 <= bottom stored
           /\ 0 <= PdfExport.crop_y box
           /\ PdfExport.crop_y box + PdfExport.crop_height box
              <= PdfExport.pg_height page)%Q)
  | CropControls.key_left | CropControls.key_right =>
      (PdfExport.pg_width page <= 10 * PdfExport.crop_width box)%Q
      /\ ((0 <= v)%Q -> (0 <= opposite <= 90)%Q ->
          (0 <= left stored /\ 0 <= right stored
           /\ 0 <= PdfExport.crop_x box
           /\ PdfExport.crop_x box + PdfExport.crop_width box
              <= PdfExport.pg_width page)%Q)
  end.
Proof.
  intros (Hw & Hh) stored box opposite. subst box opposite.
  pose proof (handleChange_pair_sum margins key v) as Hsum.
  pose proof (handleChange_pair_nonneg margins key v) as Hpos.
  fold stored in Hsum, Hpos. clearbody stored.
  assert (Ey : (PdfExport.pg_height page * bottom stored / 100
                + PdfExport.pg_height page * (100 - top stored - bottom stored) / 100
                == PdfExport.pg_height page
                   - PdfExport.pg_height page * top stored / 100)%Q) by field.
  assert (Ex : (PdfExport.pg_width page * left stored / 100
                + PdfExport.pg_width page * (100 - left stored - right stored) / 100
                == PdfExport.pg_width page
                   - PdfExport.pg_width page * right stored / 100)%Q) by field.
  destruct key; rewrite ?crop_height_eq, ?crop_width_eq, ?crop_x_eq, ?crop_y_eq;
    (split; [apply Qscaled_le; lra|]);
    intros Hv Hopp; destruct (Hpos Hv Hopp) as (H1 & H2);
    (split; [exact H1|]); (split; [exact H2|]).
  - pose proof (Qscaled_nonneg _ _ Hh H1). pose proof (Qscaled_nonneg _ _ Hh H2).
    rewrite Ey. split; lra.
  - pose proof (Qscaled_nonneg _ _ Hh H1). pose proof (Qscaled_nonneg _ _ Hh H2).
    rewrite Ey. split; lra.
  - pose proof (Qscaled_nonneg _ _ Hw H1). pose proof (Qscaled_nonneg _ _ Hw H2).
    rewrite Ex. split; lra.
  - pose proof (Qscaled_nonneg _ _ Hw H1). pose proof (Qscaled_nonneg _ _ Hw H2).
    rewrite Ex. split; lra.
Qed.

Lemma crop_after_mutation_witness :
  let stored := CropControls.handleChange (mkCropMargins 0 40 0 0) CropControls.key_top 60 in
  let box := PdfExport.cropBoxOf stored (PdfExport.mkPageSize 960 540) in
  (540 <= 10 * PdfExport.crop_height box
   /\ 0 <= PdfExport.crop_y box
   /\ PdfExport.crop_y box + PdfExport.crop_height box <= 540)%Q.
Proof.
  intros stored box.
  destruct (crop_after_mutation (mkCropMargins 0 40 0 0) CropControls.key_top 60
              (PdfExport.mkPageSize 960 540)) as (Hsize & Hin).
  - simpl. lra.
  - destruct Hin as (_ & _ & Hy & Hfit).
    + lra.
    + simpl. lra.
    + repeat split; [exact Hsize | exact Hy | exact Hfit].
Defined.

(** Nothing brings a side back into range: with [bottom] at 150, setting
    [top] to 0 stores -60, and on a page 540 high the crop box then
    starts at 810 and ends at 864, above the page. *)
Example crop_box_leaves_page :
  let stored := CropControls.handleChange (mkCropMargins 0 150 0 0) CropControls.key_top 0 in
  let box := PdfExport.cropBoxOf stored (PdfExport.mkPageSize 960 540) in
  (top stored == -60 /\ PdfExport.crop_y box == 810
   /\ PdfExport.crop_y box + PdfExport.crop_height box == 864)%Q.
Proof. vm_compute. repeat split. Qed.

(** ** Export with masks *)

Section ExportMasks.

Import PdfExport.

Variable embedPng : string -> Exc.exc string.

Lemma inUnit_true (q : Q) : inUnit q = true <-> (0 <= q <= 1)%Q.
Proof.
  unfold inUnit. rewrite andb_true_iff, !Qle_bool_iff. reflexivity.
Qed.

Lemma rgb_inr (hex : string) (c : PdfService.RGB) :
  let parsed := PdfService.hexToRgb (Some hex) in
  rgb (PdfService.r parsed) (PdfService.g parsed) (PdfService.b parsed) = inr c ->
  c = parsed /\ paintable hex.
Proof.
  unfold rgb, paintable. cbv zeta.
  set (parsed := PdfService.hexToRgb (Some hex)). clearbody parsed.
  destruct (inUnit (PdfService.r parsed)) eqn:Er; [|discriminate].
  destruct (inUnit (PdfService.g parsed)) eqn:Eg; [|discriminate].
  destruct (inUnit (PdfService.b parsed)) eqn:Eb; [|discriminate].
  apply inUnit_true in Er, Eg, Eb. simpl.
  intros [= <-]. split; [now destruct parsed | tauto].
Qed.

Lemma rgb_paintable (hex : string) :
  paintable hex ->
  let parsed := PdfService.hexToRgb (Some hex) in
  rgb (PdfService.r parsed) (PdfService.g parsed) (PdfService.b parsed) = inr parsed.
Proof.
  unfold paintable. cbv zeta. intros (Hr & Hg & Hb).
  set (parsed := PdfService.hexToRgb (Some hex)) in *. clearbody parsed.
  apply inUnit_true in Hr, Hg, Hb. unfold rgb. rewrite Hr, Hg, Hb. simpl.
  now destruct parsed.
Qed.

Lemma rgb_not_paintable (hex : string) :
  ~ paintable hex ->
  let parsed := PdfService.hexToRgb (Some hex) in
  exists e,
    rgb (PdfService.r parsed) (PdfService.g parsed) (PdfService.b parsed) = inl e.
Proof.
  intros Hno parsed.
  destruct (rgb (PdfService.r parsed) (PdfService.g parsed) (PdfService.b parsed))
    as [e|c] eqn:E; [eauto|].
  exfalso. apply Hno. exact (proj2 (rgb_inr hex c E)).
Qed.

Lemma solidFill_inr (page : PageSize) (mask : Mask) (op : DrawOp) :
  solidFill mask page = inr op ->
  opRect op = maskRect mask page
  /\ exists c, op = drawRectangle (fst (fst (fst (maskRect mask page))))
                     (snd (fst (fst (maskRect mask page))))
                     (snd (fst (maskRect mask page))) (snd (maskRect mask page)) c
               /\ c = PdfService.hexToRgb (Some (color mask))
               /\ paintable (color mask).
Proof.
  unfold solidFill.
  destruct (maskRect mask page) as [[[rx ry] rw] rh] eqn:R.
  destruct (rgb _ _ _) as [e|c] eqn:E; simpl; [discriminate|].
  intros [= <-]. apply rgb_inr in E. split; [reflexivity|]. exists c. tauto.
Qed.

Lemma drawMask_renders (page : PageSize) (mask : Mask) (op : DrawOp) :
  drawMask embedPng page mask = inr op -> renders embedPng page mask op.
Proof.
  unfold renders, drawMask.
  destruct (MaskFillType_eqb (fillType mask) solid) eqn:F; simpl.
  - apply MaskFillType_eqb_eq in F. intros H.
    apply solidFill_inr in H as (Hrect & c & -> & Hc & Hp).
    split; [exact Hrect|]. split; [exact Hc|]. split; [exact Hp | congruence].
  - assert (Hfill : fillType mask <> solid).
    { intros H. apply MaskFillType_eqb_eq in H. congruence. }
    destruct (imageSnapshot mask) as [[|ch snap]|] eqn:S; simpl.
    + intros H. apply solidFill_inr in H as (Hrect & c & -> & Hc & Hp).
      split; [exact Hrect|]. split; [exact Hc|]. split; [exact Hp|].
      intros _ snap image [= <-] Hne. congruence.
    + destruct (embedPng (String ch snap)) as [e|image] eqn:E; simpl.
      * intros H. apply solidFill_inr in H as (Hrect & c & -> & Hc & Hp).
        split; [exact Hrect|]. split; [exact Hc|]. split; [exact Hp|].
        intros _ snap' image [= <-] _. congruence.
      * intros [= <-]. split; [reflexivity|]. split; [exact Hfill|]. eauto.
    + intros H. apply solidFill_inr in H as (Hrect & c & -> & Hc & Hp).
      split; [exact Hrect|]. split; [exact Hc|]. split; [exact Hp|]. discriminate.
Qed.

Lemma drawMask_paintable (page : PageSize) (mask : Mask) :
  paintable (color mask) -> exists op, drawMask embedPng page mask = inr op.
Proof.
  intros Hp.
  assert (Hsolid : exists op, solidFill mask page = inr op).
  { unfold solidFill. destruct (maskRect mask page) as [[[rx ry] rw] rh].
    rewrite (rgb_paintable _ Hp). simpl. eauto. }
  unfold drawMask.
  destruct (negb _ && _); [|exact Hsolid].
  destruct (embedPng _); [exact Hsolid|].
  destruct (maskRect mask page) as [[[rx ry] rw] rh]. eauto.
Qed.

Lemma drawMask_throws (page : PageSize) (mask : Mask) :
  paintedInColour embedPng mask -> ~ paintable (color mask) ->
  exists e, drawMask embedPng page mask = inl e.
Proof.
  intros Hcol Hno.
  assert (Hsolid : exists e, solidFill mask page = inl e).
  { unfold solidFill. destruct (maskRect mask page) as [[[rx ry] rw] rh].
    destruct (rgb_not_paintable _ Hno) as (e & He). rewrite He. simpl. eauto. }
  unfold drawMask.
  destruct Hcol as [H | [H | [H | (snap & e & H & He)]]].
  - rewrite H. exact Hsolid.
  - rewrite H. simpl. rewrite andb_false_r. exact Hsolid.
  - rewrite H. simpl. rewrite andb_false_r. exact Hsolid.
  - rewrite H. destruct (negb _ && _); [|exact Hsolid].
    rewrite He. exact Hsolid.
Qed.

Lemma drawMasks_renders (page : PageSize) (scoped : list Mask) (ops : list DrawOp) :
  drawMasks embedPng page scoped = inr ops ->
  Forall2 (renders embedPng page) scoped ops.
Proof.
  revert ops. induction scoped as [|m rest IH]; simpl; intros ops.
  - intros [= <-]. constructor.
  - destruct (drawMask embedPng page m) as [e|op] eqn:E; simpl; [discriminate|].
    destruct (drawMasks embedPng page rest) as [e|more]; simpl; [discriminate|].
    intros [= <-]. constructor; [now apply drawMask_renders | now apply IH].
Qed.

Lemma drawMasks_paintable (page : PageSize) (scoped : list Mask) :
  Forall (fun m => paintable (color m)) scoped ->
  exists ops, drawMasks embedPng page scoped = inr ops.
Proof.
  induction 1 as [|m rest Hm _ IH]; simpl; [eauto|].
  destruct (drawMask_paintable page m Hm) as (op & ->).
  destruct IH as (ops & ->). simpl. eauto.
Qed.

Lemma drawMasks_throws (page : PageSize) (scoped : list Mask) (m : Mask) (e : Exn) :
  In m scoped -> drawMask embedPng page m = inl e ->
  exists e', drawMasks embedPng page scoped = inl e'.
Proof.
  intros Hin He. induction scoped as [|m' rest IH]; [destruct Hin|].
  simpl. destruct Hin as [-> | Hin].
  - rewrite He. simpl. eauto.
  - destruct (drawMask embedPng page m'); simpl; [eauto|].
    destruct (IH Hin) as (e' & ->). simpl. eauto.
Qed.

Lemma drawPages_inr (masks : list Mask) (pages : list PageSize) (k : Z)
    (drawn : list (list DrawOp)) :
  drawPages embedPng masks k pages = inr drawn ->
  length drawn = length pages
  /\ forall (i : nat) (page : PageSize), pages !! i = Some page ->
       exists ops,
         drawn !! i = Some ops
         /\ drawMasks embedPng page (Store.pageMasks masks (k + Z.of_nat i)) = inr ops.
Proof.
  revert k drawn. induction pages as [|p rest IH]; simpl; intros k drawn.
  - intros [= <-]. split; [reflexivity | discriminate].
  - destruct (drawMasks embedPng p (Store.pageMasks masks k)) as [e|ops] eqn:E;
      simpl; [discriminate|].
    destruct (drawPages embedPng masks (k + 1) rest) as [e|more] eqn:R;
      simpl; [discriminate|].
    intros [= <-]. destruct (IH _ _ R) as (Hlen & Hat).
    split; [simpl; now rewrite Hlen|].
    intros [|i] page Hi; simpl in Hi.
    + injection Hi as <-. exists ops. rewrite Z.add_0_r. now split.
    + destruct (Hat i page Hi) as (ops' & Hl & Hd). exists ops'.
      split; [exact Hl|]. rewrite <- Hd. do 2 f_equal. lia.
Qed.

Lemma drawPages_paintable (masks : list Mask) (pages : list PageSize) (k : Z) :
  Forall (fun m => paintable (color m)) masks ->
  exists drawn, drawPages embedPng masks k pages = inr drawn.
Proof.
  intros Hall. revert k. induction pages as [|p rest IH]; simpl; intros k; [eauto|].
  destruct (drawMasks_paintable p (Store.pageMasks masks k)) as (ops & ->).
  { apply List.Forall_forall. intros m Hm. unfold Store.pageMasks in Hm.
    apply List.filter_In in Hm as [Hm _].
    exact (proj1 (List.Forall_forall _ _) Hall m Hm). }
  destruct (IH (k + 1)) as (more & ->). simpl. eauto.
Qed.

Lemma drawPages_throws (masks : list Mask) (pages : list PageSize) (k : Z)
    (i : nat) (page : PageSize) (e : Exn) :
  pages !! i = Some page ->
  drawMasks embedPng page (Store.pageMasks masks (k + Z.of_nat i)) = inl e ->
  exists e', drawPages embedPng masks k pages = inl e'.
Proof.
  revert k i. induction pages as [|p rest IH]; intros k i Hi He; [discriminate|].
  simpl. destruct i as [|i]; simpl in Hi.
  - injection Hi as ->. rewrite Z.add_0_r in He. rewrite He. simpl. eauto.
  - destruct (drawMasks embedPng p (Store.pageMasks masks k)); simpl; [eauto|].
    destruct (IH (k + 1) i Hi) as (e' & ->).
    + rewrite <- He. do 2 f_equal. lia.
    + simpl. eauto.
Qed.

End ExportMasks.

(** Whenever the export goes through, it has drawn on each page exactly
    the masks in scope on it, one operation per mask and in the store's
    order, each placed at the mask's rectangle: the embedded snapshot
    where the mask is not solid, has a snapshot and embedding succeeds,
    and a rectangle in the mask's colour in every other case, so that no
    mask in scope is skipped when embedding fails; the download is named
    [patched-] followed by the file name.  It goes through when the
    colour of every mask is paintable.  It throws, and nothing is
    downloaded, when a page has a mask in scope that is painted in its
    colour and whose colour is not paintable, for instance because the
    colour text has a sign where a digit pair should start. *)
Theorem export_draws_every_mask (embedPng : string -> Exc.exc string)
    (pages : list PdfExport.PageSize) (masks : list Mask) (fileName : string) :
  (forall drawn name,
      PdfExport.modifyPdfWithMasks embedPng pages masks fileName = inr (drawn, name) ->
      length drawn = length pages
      /\ (forall (i : nat) (page : PdfExport.PageSize), pages !! i = Some page ->
            exists ops,
              drawn !! i = Some ops
              /\ Forall2 (renders embedPng page)
                         (Store.pageMasks masks (Z.of_nat i)) ops)
      /\ name = String.append "patched-" fileName)
  /\ (Forall (fun m => paintable (color m)) masks ->
      exists drawn,
        PdfExport.modifyPdfWithMasks embedPng pages masks fileName
        = inr (drawn, String.append "patched-" fileName))
  /\ (forall (i : nat) (page : PdfExport.PageSize) (m : Mask),
        pages !! i = Some page ->
        In m (Store.pageMasks masks (Z.of_nat i)) ->
        paintedInColour embedPng m -> ~ paintable (color m) ->
        exists e, PdfExport.modifyPdfWithMasks embedPng pages masks fileName = inl e).
Proof.
  unfold PdfExport.modifyPdfWithMasks.
  repeat match goal with |- _ /\ _ => split end.
  - intros drawn name.
    destruct (PdfExport.drawPages embedPng masks 0 pages) as [e|d] eqn:E;
      simpl; [discriminate|].
    intros [= <- <-]. destruct (drawPages_inr embedPng _ _ _ _ E) as (Hlen & Hat).
    split; [exact Hlen|]. split; [|reflexivity].
    intros i page Hi. destruct (Hat i page Hi) as (ops & Hl & Hd).
    exists ops. split; [exact Hl|].
    rewrite Z.add_0_l in Hd. now apply drawMasks_renders.
  - intros Hall.
    destruct (drawPages_paintable embedPng masks pages 0 Hall) as (drawn & ->).
    simpl. eauto.
  - intros i page m Hi Hin Hcol Hno.
    destruct (drawMask_throws embedPng page m Hcol Hno) as (e & He).
    destruct (drawMasks_throws embedPng page _ m e Hin He) as (e' & He').
    destruct (drawPages_throws embedPng masks pages 0 i page e' Hi) as (e'' & ->).
    + now rewrite Z.add_0_l.
    + simpl. eauto.
Qed.

(** A three-page document, a global solid mask and a clone mask scoped
    to the second page whose snapshot embeds: the first and the third
    page get the solid rectangle, the second gets both. *)
Example export_three_pages :
  let a := mkMask "mask-1" 0 90 100 10 "#FFFFFF" solid None None in
  let b := mkMask "mask-2" 80 0 20 10 "#000000" clone_top (Some "data:image/png;base64,AA==") (Some 1) in
  let page := PdfExport.mkPageSize 960 540 in
  exists drawn,
    PdfExport.modifyPdfWithMasks (fun s => inr s) [page; page; page] [a; b] "deck.pdf"
    = inr (drawn, "patched-deck.pdf")
    /\ List.map (@length _) drawn = [1%nat; 2%nat; 1%nat].
Proof. eexists. split; reflexivity. Qed.

(** The same document when the colour of the solid mask has been typed
    as [#-1-1-1]: each pair reads as -1, the component -1/255 is refused
    and the export throws. *)
Example export_refuses_negative_colour :
  let a := mkMask "mask-1" 0 90 100 10 "#-1-1-1" solid None None in
  let page := PdfExport.mkPageSize 960 540 in
  (PdfService.r (PdfService.hexToRgb (Some "#-1-1-1")) == -1 # 255)%Q
  /\ exists e,
       PdfExport.modifyPdfWithMasks (fun s => inr s) [page; page; page] [a] "deck.pdf"
       = inl e.
Proof. split; [reflexivity | eexists; reflexivity]. Qed.

Section MaskRect.

Import PdfExport.

Variables (mask : Mask) (page : PageSize).

Lemma maskRect_x :
  (fst (fst (fst (maskRect mask page))) == pg_width page * x mask / 100)%Q.
Proof. unfold maskRect. simpl. field. Qed.

Lemma maskRect_y :
  (snd (fst (fst (maskRect mask page)))
   == pg_height page * (100 - y mask - height mask) / 100)%Q.
Proof. unfold maskRect. simpl. field. Qed.

Lemma maskRect_w :
  (snd (fst (maskRect mask page)) == pg_width page * width mask / 100)%Q.
Proof. unfold maskRect. simpl. field. Qed.

Lemma maskRect_h :
  (snd (maskRect mask page) == pg_height page * height mask / 100)%Q.
Proof. unfold maskRect. simpl. field. Qed.

End MaskRect.

(** A mask inside the page in percent (nonnegative origin and size,
    right and bottom edges at most 100) is placed inside the page in PDF
    units; its upper edge, measured from the bottom of the page, is the
    page height less the mask's [y] share of it. *)
Theorem maskRect_inside_page (mask : Mask) (page : PdfExport.PageSize) :
  (0 <= x mask /\ 0 <= y mask /\ 0 <= width mask /\ 0 <= height mask)%Q ->
  (x mask + width mask <= 100 /\ y mask + height mask <= 100)%Q ->
  (0 <= PdfExport.pg_width page /\ 0 <= PdfExport.pg_height page)%Q ->
  let rx := fst (fst (fst (PdfExport.maskRect mask page))) in
  let ry := snd (fst (fst (PdfExport.maskRect mask page))) in
  let rw := snd (fst (PdfExport.maskRect mask page)) in
  let rh := snd (PdfExport.maskRect mask page) in
  (0 <= rx /\ 0 <= rw /\ rx + rw <= PdfExport.pg_width page
   /\ 0 <= ry /\ 0 <= rh /\ ry + rh <= PdfExport.pg_height page
   /\ ry + rh == PdfExport.pg_height page
                 - y mask / 100 * PdfExport.pg_height page)%Q.
Proof.
  intros (Hx & Hy & Hw & Hh) (Hr & Hb) (HW & HH) rx ry rw rh.
  subst rx ry rw rh.
  rewrite maskRect_x, maskRect_y, maskRect_w, maskRect_h.
  pose proof (Qscaled_nonneg _ _ HW Hx) as A1.
  pose proof (Qscaled_nonneg _ _ HW Hw) as A2.
  pose proof (Qscaled_nonneg _ _ HH Hh) as A3.
  pose proof (Qscaled_nonneg _ _ HH Hy) as A4.
  assert (A5 : (0 <= PdfExport.pg_width page * (100 - x mask - width mask) / 100)%Q)
    by (apply Qscaled_nonneg; lra).
  assert (A6 : (0 <= PdfExport.pg_height page * (100 - y mask - height mask) / 100)%Q)
    by (apply Qscaled_nonneg; lra).
  assert (E1 : (PdfExport.pg_width page * x mask / 100
                + PdfExport.pg_width page * width mask / 100
                == PdfExport.pg_width page
                   - PdfExport.pg_width page * (100 - x mask - width mask) / 100)%Q)
    by field.
  assert (E2 : (PdfExport.pg_height page * (100 - y mask - height mask) / 100
                + PdfExport.pg_height page * height mask / 100
                == PdfExport.pg_height page
                   - PdfExport.pg_height page * y mask / 100)%Q)
    by field.
  repeat match goal with |- _ /\ _ => split end;
    try assumption; try (rewrite ?E1, ?E2; lra).
  rewrite E2. field.
Qed.

Lemma maskRect_inside_page_witness :
  let mask := mkMask "mask-1" 80 90 20 10 "#FFFFFF" solid None None in
  let page := PdfExport.mkPageSize 960 540 in
  (0 <= snd (fst (fst (PdfExport.maskRect mask page))))%Q.
Proof.
  intros mask page.
  destruct (maskRect_inside_page mask page) as (_ & _ & _ & Hy & _);
    [simpl; lra | simpl; lra | simpl; lra | exact Hy].
Defined.

(** A drawn rectangle is exported where it was drawn: on a page of any
    size its PDF rectangle is the drawn pixel rectangle scaled by the
    ratio of page to container, measured from the bottom edge. *)
Theorem drawn_mask_exports_in_place (refs : PdfPreview.Refs)
    (props : PdfPreview.Props) (now : Z) (rect : PdfPreview.DOMRect)
    (rawX rawY rawW rawH : Q) (page : PdfExport.PageSize) :
  ~ (PdfPreview.rect_width rect == 0)%Q ->
  ~ (PdfPreview.rect_height rect == 0)%Q ->
  let mask := PdfPreview.drawnMask refs props now rect rawX rawY rawW rawH in
  let sx := (PdfExport.pg_width page / PdfPreview.rect_width rect)%Q in
  let sy := (PdfExport.pg_height page / PdfPreview.rect_height rect)%Q in
  let rx := fst (fst (fst (PdfExport.maskRect mask page))) in
  let ry := snd (fst (fst (PdfExport.maskRect mask page))) in
  let rw := snd (fst (PdfExport.maskRect mask page)) in
  let rh := snd (PdfExport.maskRect mask page) in
  (rx == rawX * sx /\ rw == rawW * sx /\ rh == rawH * sy
   /\ ry == PdfExport.pg_height page - (rawY + rawH) * sy)%Q.
Proof.
  intros HW HH mask sx sy rx ry rw rh. subst rx ry rw rh sx sy mask.
  unfold PdfExport.maskRect, PdfPreview.drawnMask, PdfPreview.toPercent.
  simpl. repeat split; field; assumption.
Qed.

Lemma drawn_mask_exports_in_place_witness :
  let refs := PdfPreview.mkRefs None None in
  let rect := PdfPreview.mkDOMRect 0 0 1000 500 in
  let mask :=
    PdfPreview.drawnMask refs (PdfPreview.mkProps [] MASK 1) 1700000000000 rect
      100 50 200 100 in
  (fst (fst (fst (PdfExport.maskRect mask (PdfExport.mkPageSize 1000 500)))) == 100)%Q.
Proof.
  intros refs rect mask.
  destruct (drawn_mask_exports_in_place refs (PdfPreview.mkProps [] MASK 1)
              1700000000000 rect 100 50 200 100 (PdfExport.mkPageSize 1000 500))
    as (Hx & _); [simpl; lra | simpl; lra |].
  eapply Qeq_trans; [exact Hx|]. vm_compute. reflexivity.
Defined.

(** ** Text extraction *)

Section TextLoop.

Import PdfExport.

Variable pdf : TextDocument.

Lemma textLoop_asked_prefix (n : nat) (i : Z) (acc : string) :
  fst (textLoop pdf i n acc) `prefix_of` seqZ i (Z.of_nat n).
Proof.
  revert i acc. induction n as [|n IH]; intros i acc.
  - apply prefix_nil.
  - rewrite seqZ_cons by lia. cbn [textLoop].
    replace (Z.pred (Z.of_nat (S n))) with (Z.of_nat n) by lia.
    destruct (pageItems pdf i) as [e|items].
    + apply prefix_cons, prefix_nil.
    + specialize (IH (i + 1) (String.append acc
          (String.append "Page " (String.append (JS.toString10 i)
          (String.append ": " (String.append (join " " items)
          (String.append newline newline))))))).
      destruct (textLoop pdf (i + 1) n _) as [asked result]. simpl in *.
      apply prefix_cons. now replace (Z.succ i) with (i + 1) by lia.
Qed.

Lemma textLoop_failure (n : nat) (i : Z) (acc : string) (p : Z) (e : Exn) :
  In p (fst (textLoop pdf i n acc)) -> pageItems pdf p = inl e ->
  exists e', snd (textLoop pdf i n acc) = inl e'.
Proof.
  revert i acc. induction n as [|n IH]; intros i acc; [intros []|].
  cbn [textLoop]. destruct (pageItems pdf i) as [e0|items] eqn:E.
  - simpl. eauto.
  - specialize (IH (i + 1) (String.append acc
        (String.append "Page " (String.append (JS.toString10 i)
        (String.append ": " (String.append (join " " items)
        (String.append newline newline))))))).
    destruct (textLoop pdf (i + 1) n _) as [asked result]. simpl in *.
    intros [<-|Hin] Hp; [congruence|]. now apply IH.
Qed.

Lemma textLoop_complete (n : nat) (i : Z) (acc : string) :
  (forall p, i <= p < i + Z.of_nat n -> exists items, pageItems pdf p = inr items) ->
  fst (textLoop pdf i n acc) = seqZ i (Z.of_nat n)
  /\ exists text, snd (textLoop pdf i n acc) = inr text.
Proof.
  revert i acc. induction n as [|n IH]; intros i acc Hall.
  - split; [reflexivity | simpl; eauto].
  - rewrite seqZ_cons by lia. cbn [textLoop].
    replace (Z.pred (Z.of_nat (S n))) with (Z.of_nat n) by lia.
    destruct (Hall i ltac:(lia)) as [items ->].
    specialize (IH (i + 1) (String.append acc
        (String.append "Page " (String.append (JS.toString10 i)
        (String.append ": " (String.append (join " " items)
        (String.append newline newline))))))).
    destruct (textLoop pdf (i + 1) n _) as [asked result]. simpl in *.
    destruct IH as [-> Hok]; [intros p Hp; apply Hall; lia|].
    split; [|exact Hok]. now replace (Z.succ i) with (i + 1) by lia.
Qed.

Lemma textLoop_stops (n : nat) (i : Z) (acc : string) (p : Z) (e : Exn) :
  In p (fst (textLoop pdf i n acc)) -> pageItems pdf p = inl e ->
  fst (textLoop pdf i n acc) = seqZ i (p - i + 1)
  /\ snd (textLoop pdf i n acc) = inl e.
Proof.
  revert i acc. induction n as [|n IH]; intros i acc; [intros []|].
  pose proof (textLoop_asked_prefix n (i + 1)) as Hpre.
  cbn [textLoop]. destruct (pageItems pdf i) as [e0|items] eqn:E.
  - simpl. intros [<-|[]] Hp. split; [|congruence].
    replace (i - i + 1) with 1 by lia. reflexivity.
  - specialize (IH (i + 1) (String.append acc
        (String.append "Page " (String.append (JS.toString10 i)
        (String.append ": " (String.append (join " " items)
        (String.append newline newline))))))).
    specialize (Hpre (String.append acc
        (String.append "Page " (String.append (JS.toString10 i)
        (String.append ": " (String.append (join " " items)
        (String.append newline newline))))))).
    destruct (textLoop pdf (i + 1) n _) as [asked result]. simpl in *.
    intros [<-|Hin] Hp; [congruence|].
    destruct (IH Hin Hp) as [-> ->]. split; [|reflexivity].
    assert (Hrange : i + 1 <= p).
    { destruct Hpre as [k Hk]. apply list_elem_of_In in Hin.
      assert (Hel : p ∈ seqZ (i + 1) (Z.of_nat n))
        by (rewrite Hk; apply elem_of_app; now left).
      apply elem_of_seqZ in Hel. lia. }
    rewrite (seqZ_cons i (p - i + 1)) by lia.
    f_equal. f_equal; lia.
Qed.

Lemma textLoop_runs (n : nat) (i : Z) (acc : string) :
  (forall p, In p (fst (textLoop pdf i n acc)) ->
             exists items, pageItems pdf p = inr items) ->
  fst (textLoop pdf i n acc) = seqZ i (Z.of_nat n)
  /\ exists text, snd (textLoop pdf i n acc) = inr text.
Proof.
  revert i acc. induction n as [|n IH]; intros i acc.
  - intros _. split; [reflexivity | simpl; eauto].
  - rewrite seqZ_cons by lia. cbn [textLoop].
    replace (Z.pred (Z.of_nat (S n))) with (Z.of_nat n) by lia.
    destruct (pageItems pdf i) as [e0|items] eqn:E.
    + simpl. intros Hall. destruct (Hall i (or_introl eq_refl)) as [items Hi].
      congruence.
    + specialize (IH (i + 1) (String.append acc
          (String.append "Page " (String.append (JS.toString10 i)
          (String.append ": " (String.append (join " " items)
          (String.append newline newline))))))).
      destruct (textLoop pdf (i + 1) n _) as [asked result]. simpl in *.
      intros Hall. destruct IH as [-> Hok]; [intros p Hp; apply Hall; now right|].
      split; [|exact Hok]. now replace (Z.succ i) with (i + 1) by lia.
Qed.

End TextLoop.

(** [getPdfPageText] asks for pages 1, 2, ... in order and stops at the
    first failure: never more than five pages, never a page outside the
    document.  A page that fails is the last page asked for: the pages
    asked for are then exactly the pages from 1 up to it, and the result
    is the empty string.  When no page that is asked for fails, the
    pages asked for are exactly the first [min numPages 5]; in
    particular when these all answer.  A document that failed to load
    gives the empty string without asking for a page. *)
Theorem getPdfPageText_bounded (pdf : PdfExport.TextDocument) :
  let asked := fst (PdfExport.getPdfPageText (inr pdf)) in
  let text := snd (PdfExport.getPdfPageText (inr pdf)) in
  let maxPages := Z.min (PdfExport.text_numPages pdf) 5 in
  asked `prefix_of` seqZ 1 maxPages
  /\ (length asked <= 5)%nat
  /\ (forall p, In p asked -> 1 <= p <= PdfExport.text_numPages pdf)
  /\ (forall p e, In p asked -> PdfExport.pageItems pdf p = inl e ->
        text = EmptyString)
  /\ ((forall p, 1 <= p <= maxPages ->
         exists items, PdfExport.pageItems pdf p = inr items) ->
      asked = seqZ 1 maxPages)
  /\ (forall e, PdfExport.getPdfPageText (inl e) = ([], EmptyString))
  /\ (forall p e, In p asked -> PdfExport.pageItems pdf p = inl e ->
        asked = seqZ 1 p
        /\ forall q, In q asked -> q <= p)
  /\ ((forall p, In p asked -> exists items, PdfExport.pageItems pdf p = inr items) ->
      asked = seqZ 1 maxPages).
Proof.
  cbv zeta. unfold PdfExport.getPdfPageText.
  set (maxPages := Z.min (PdfExport.text_numPages pdf) 5).
  pose proof (textLoop_asked_prefix pdf (Z.to_nat maxPages) 1 EmptyString) as Hpre.
  pose proof (textLoop_failure pdf (Z.to_nat maxPages) 1 EmptyString) as Hfail.
  pose proof (textLoop_complete pdf (Z.to_nat maxPages) 1 EmptyString) as Hall.
  pose proof (textLoop_stops pdf (Z.to_nat maxPages) 1 EmptyString) as Hstop.
  pose proof (textLoop_runs pdf (Z.to_nat maxPages) 1 EmptyString) as Hruns.
  destruct (PdfExport.textLoop pdf 1 (Z.to_nat maxPages) EmptyString)
    as [asked result]. simpl in *.
  assert (Hseq : seqZ 1 (Z.of_nat (Z.to_nat maxPages)) = seqZ 1 maxPages).
  { destruct (Z.le_gt_cases 0 maxPages).
    - now rewrite Z2Nat.id.
    - rewrite !seqZ_nil by lia. reflexivity. }
  rewrite Hseq in *.
  assert (Hin : forall p, In p asked -> 1 <= p < 1 + maxPages).
  { intros p Hp. destruct Hpre as [k Hk].
    apply elem_of_seqZ. rewrite Hk. apply elem_of_app. left.
    now apply list_elem_of_In. }
  repeat match goal with |- _ /\ _ => split end.
  - exact Hpre.
  - apply prefix_length in Hpre. rewrite length_seqZ in Hpre. lia.
  - intros p Hp. apply Hin in Hp. lia.
  - intros p e Hp He. destruct (Hfail p e Hp He) as [e' ->]. reflexivity.
  - intros Hok. apply Hall. intros p Hp. apply Hok. lia.
  - reflexivity.
  - intros p e Hp He. destruct (Hstop p e Hp He) as [Hasked _].
    replace (p - 1 + 1) with p in Hasked by lia.
    split; [exact Hasked|].
    intros q Hq. rewrite Hasked in Hq. apply list_elem_of_In in Hq.
    apply elem_of_seqZ in Hq. lia.
  - intros Hok. now apply Hruns.
Qed.

(** A document of four pages whose third page fails: pages 1, 2 and 3
    are asked for, page 4 is not, and the text is empty. *)
Example getPdfPageText_stops_at_third_page :
  let pdf :=
    PdfExport.mkTextDocument 4
      (fun p => if p =? 3 then inl (Rejected "page") else inr ["slide"]) in
  PdfExport.getPdfPageText (inr pdf) = ([1; 2; 3], EmptyString).
Proof. reflexivity. Qed.

(** ** The pointer state machine *)

(** Pointer moves do not accumulate: after any earlier move of the same
    gesture a move gives the state and the update that it would give as
    the first move, so the geometry depends on the snapshot and on the
    pointer's present position alone. *)
Theorem pointer_moves_do_not_accumulate (refs : PdfPreview.Refs)
    (st : PdfPreview.State) (earlier ev : PdfPreview.MouseEvent) :
  PdfPreview.handleGlobalMouseMove refs
    (fst (PdfPreview.handleGlobalMouseMove refs st earlier)) ev
  = PdfPreview.handleGlobalMouseMove refs st ev.
Proof.
  unfold PdfPreview.handleGlobalMouseMove.
  destruct (PdfPreview.interactionState st) eqn:S,
           (PdfPreview.containerRef refs) eqn:C;
    try (cbn [fst]; rewrite S; reflexivity);
    destruct (PdfPreview.initialMaskState st) eqn:I,
             (PdfPreview.startPos st) eqn:P,
             (PdfPreview.activeHandle st) eqn:H;
    cbn [fst PdfPreview.interactionState PdfPreview.initialMaskState
         PdfPreview.startPos PdfPreview.activeHandle];
    reflexivity.
Qed.

(** A pointer move while DRAGGING makes one update that is the snapshot
    moved by the pointer's travel: id, size, colour, fill and scope are
    the snapshot's and the texture is dropped.  When the pointer is back
    where the gesture started the mask is back at the snapshot's
    position. *)
Theorem drag_translates (refs : PdfPreview.Refs) (st : PdfPreview.State)
    (ev : PdfPreview.MouseEvent) (init : Mask) (start : PdfPreview.Point)
    (c : PdfPreview.Container) :
  PdfPreview.interactionState st = PdfPreview.DRAGGING ->
  PdfPreview.initialMaskState st = Some init ->
  PdfPreview.startPos st = Some start ->
  PdfPreview.containerRef refs = Some c ->
  exists m,
    snd (PdfPreview.handleGlobalMouseMove refs st ev) = [PdfPreview.onUpdateMask m]
    /\ id m = id init /\ width m = width init /\ height m = height init
    /\ color m = color init /\ fillType m = fillType init
    /\ pageIndex m = pageIndex init /\ imageSnapshot m = None
    /\ x m = (x init + dxPct_of refs start ev)%Q
    /\ y m = (y init + dyPct_of refs start ev)%Q
    /\ ((PdfPreview.c_x (PdfPreview.getRelativeCoords refs ev)
         == PdfPreview.pt_x start)%Q ->
        ~ (PdfPreview.rect_width (PdfPreview.getBoundingClientRect c) == 0)%Q ->
        (x m == x init)%Q)
    /\ ((PdfPreview.c_y (PdfPreview.getRelativeCoords refs ev)
         == PdfPreview.pt_y start)%Q ->
        ~ (PdfPreview.rect_height (PdfPreview.getBoundingClientRect c) == 0)%Q ->
        (y m == y init)%Q).
Proof.
  intros Hs Hi Hp Hc. eexists. split.
  - now apply (mouse_move_dragging refs st ev init start c).
  - cbn [PdfPreview.dragged id x y width height color fillType imageSnapshot pageIndex].
    repeat match goal with |- _ /\ _ => split end; try reflexivity.
    + intros Hback _. unfold dxPct_of, PdfPreview.toPercent. cbv zeta.
      rewrite Hback. unfold Qminus. rewrite Qplus_opp_r.
      unfold Qdiv. rewrite !Qmult_0_l. apply Qplus_0_r.
    + intros Hback _. unfold dyPct_of, PdfPreview.toPercent. cbv zeta.
      rewrite Hback. unfold Qminus. rewrite Qplus_opp_r.
      unfold Qdiv. rewrite !Qmult_0_l. apply Qplus_0_r.
Qed.

Lemma drag_translates_witness :
  let init := mkMask "mask-1" 10 10 30 20 "#FFFFFF" clone_top (Some "data:,") (Some 0) in
  let refs :=
    PdfPreview.mkRefs None
      (Some (PdfPreview.mkContainer (PdfPreview.mkDOMRect 20 30 1000 500) 1000 500)) in
  let st :=
    fst (PdfPreview.handleMaskMouseDown refs PdfPreview.initial
           (PdfPreview.mkMouseEvent 120 80) init) in
  exists m,
    snd (PdfPreview.handleGlobalMouseMove refs st (PdfPreview.mkMouseEvent 170 80))
    = [PdfPreview.onUpdateMask m]
    /\ (x m == 15)%Q /\ width m = 30%Q /\ imageSnapshot m = None.
Proof.
  intros init refs st.
  destruct (drag_translates refs st (PdfPreview.mkMouseEvent 170 80) init _ _
              eq_refl eq_refl eq_refl eq_refl)
    as (m & Hm & _ & Hw & _ & _ & _ & _ & Hsnap & Hx & _).
  exists m. repeat split; try assumption.
  rewrite Hx. vm_compute. reflexivity.
Defined.

(** A resize changes only the axes named by the handle's letters: a
    handle without [e] and [w] leaves [x] and [width], one without [n]
    and [s] leaves [y] and [height]; id, colour, fill and scope are
    always the snapshot's and the texture is always dropped. *)
Theorem resize_frame (init : Mask) (h : PdfPreview.ResizeHandle) (dx dy : Q) :
  let m := PdfPreview.resized init h dx dy in
  id m = id init /\ color m = color init /\ fillType m = fillType init
  /\ pageIndex m = pageIndex init /\ imageSnapshot m = None
  /\ (PdfPreview.handle_includes h "e" = false ->
      PdfPreview.handle_includes h "w" = false ->
      x m = x init /\ width m = width init)
  /\ (PdfPreview.handle_includes h "n" = false ->
      PdfPreview.handle_includes h "s" = false ->
      y m = y init /\ height m = height init)
  /\ (PdfPreview.handle_includes h "e" = true -> x m = x init)
  /\ (PdfPreview.handle_includes h "s" = true -> y m = y init).
Proof.
  intros m. subst m.
  pose proof (resized_horizontal init h dx dy) as HX.
  pose proof (resized_vertical init h dx dy) as HY.
  destruct (resized_rest init h dx dy) as (Hid & Hcol & Hfill & Hsnap & Hpage).
  remember (PdfPreview.resized init h dx dy) as m eqn:Hm. clear Hm.
  repeat match goal with |- _ /\ _ => split end; try assumption.
  - intros He Hw. rewrite He, Hw in HX. now injection HX.
  - intros Hn Hso. rewrite Hn, Hso in HY. now injection HY.
  - intros He. destruct h; simpl in He; try discriminate He; simpl in HX;
      now injection HX.
  - intros Hso. destruct h; simpl in Hso; try discriminate Hso; simpl in HY;
      now injection HY.
Qed.

(** Pointer-up ends every gesture: the state is the idle state, where
    pointer moves do nothing; only a DRAWING gesture can make a call,
    and then only to add one solid mask scoped to the shown page.  A
    press on a mask followed by a release changes the selection to that
    mask and leaves the store as it was. *)
Theorem pointer_up_ends_gesture (refs : PdfPreview.Refs) (app : App.Session)
    (mode : EditMode) (now : Z) (st : PdfPreview.State) :
  let props := App.props_of app mode in
  let up := PdfPreview.handleGlobalMouseUp refs props now st in
  fst up = PdfPreview.initial
  /\ (forall ev, PdfPreview.handleGlobalMouseMove refs (fst up) ev = (fst up, []))
  /\ (PdfPreview.interactionState st <> PdfPreview.DRAWING -> snd up = [])
  /\ (length (snd up) <= 1)%nat
  /\ (forall c, In c (snd up) ->
        exists m, c = PdfPreview.onAddMask m /\ fillType m = solid
                  /\ imageSnapshot m = None
                  /\ pageIndex m = Some (App.s_currentPage app - 1))
  /\ (forall ev mask,
        let down := PdfPreview.handleMaskMouseDown refs st ev mask in
        let release := PdfPreview.handleGlobalMouseUp refs props now (fst down) in
        App.run (App.run app (snd down)) (snd release)
        = App.mkSession (App.s_masks app) (Some (id mask)) (App.s_currentPage app)).
Proof.
  cbv zeta. unfold PdfPreview.handleGlobalMouseUp. cbn [fst snd].
  repeat match goal with |- _ /\ _ => split end.
  - reflexivity.
  - reflexivity.
  - intros Hnot. destruct (PdfPreview.interactionState st); congruence.
  - destruct (PdfPreview.interactionState st), (PdfPreview.startPos st),
             (PdfPreview.currentPos st), (PdfPreview.containerRef refs);
      simpl; try lia.
    destruct (_ && _); simpl; lia.
  - intros c.
    destruct (PdfPreview.interactionState st), (PdfPreview.startPos st),
             (PdfPreview.currentPos st), (PdfPreview.containerRef refs);
      try (intros []).
    destruct (_ && _); [|intros []].
    intros [<-|[]]. eexists. split; [reflexivity|]. repeat split.
  - intros ev mask. reflexivity.
Qed.

(** ** Colours: from the sampled pixel to the exported rectangle *)

Ltac nibble_cases d H :=
  assert (d = 0 \/ d = 1 \/ d = 2 \/ d = 3 \/ d = 4 \/ d = 5 \/ d = 6 \/ d = 7
          \/ d = 8 \/ d = 9 \/ d = 10 \/ d = 11 \/ d = 12 \/ d = 13 \/ d = 14
          \/ d = 15) as H by lia;
  repeat (destruct H as [H|H]); subst d.

Lemma of_hex_uint_acc_nibble (d : Z) (u : Hexadecimal.uint) (acc : positive) :
  0 <= d < 16 ->
  Pos.of_hex_uint_acc (nibble d u) acc
  = Pos.of_hex_uint_acc u (Z.to_pos (16 * Z.pos acc + d)).
Proof.
  intros Hd. nibble_cases d H; cbn [nibble Pos.of_hex_uint_acc]; f_equal; lia.
Qed.

Lemma string_of_nibble (d : Z) (u : Hexadecimal.uint) :
  0 <= d < 16 ->
  JS.toUpperCase (HexadecimalString.NilEmpty.string_of_uint (nibble d u))
  = String (hexUpper d)
      (JS.toUpperCase (HexadecimalString.NilEmpty.string_of_uint u)).
Proof. intros Hd. nibble_cases d H; reflexivity. Qed.

(** The hexadecimal digits of a seven-digit number that starts with 1. *)
Lemma to_hex_int_digits (d5 d4 d3 d2 d1 d0 : Z) :
  0 <= d5 < 16 -> 0 <= d4 < 16 -> 0 <= d3 < 16 ->
  0 <= d2 < 16 -> 0 <= d1 < 16 -> 0 <= d0 < 16 ->
  Z.to_hex_int
    (16 * (16 * (16 * (16 * (16 * (16 * 1 + d5) + d4) + d3) + d2) + d1) + d0)
  = Hexadecimal.Pos
      (Hexadecimal.D1 (nibble d5 (nibble d4 (nibble d3 (nibble d2 (nibble d1
         (nibble d0 Hexadecimal.Nil))))))).
Proof.
  intros H5 H4 H3 H2 H1 H0.
  set (u := Hexadecimal.D1 _).
  assert (Hof : Pos.of_hex_uint u
                = N.pos (Z.to_pos
                    (16 * (16 * (16 * (16 * (16 * (16 * 1 + d5) + d4) + d3) + d2)
                           + d1) + d0))).
  { subst u. cbn [Pos.of_hex_uint].
    rewrite !of_hex_uint_acc_nibble by assumption.
    cbn [Pos.of_hex_uint_acc]. do 2 f_equal. lia. }
  pose proof (HexadecimalPos.Unsigned.to_of u) as Hto.
  rewrite Hof in Hto. cbn [N.to_hex_uint] in Hto.
  remember (16 * (16 * (16 * (16 * (16 * (16 * 1 + d5) + d4) + d3) + d2) + d1) + d0)
    as n eqn:Hn.
  assert (0 < n) by lia.
  destruct n as [|p|p]; try lia.
  cbn [Z.to_hex_int Z.to_pos] in *. f_equal. rewrite Hto.
  subst u. reflexivity.
Qed.

Lemma toInt32_small (n : Z) : 0 <= n < 2147483648 -> JS.toInt32 n = n.
Proof.
  intros Hn. unfold JS.toInt32. rewrite Z.mod_small by lia.
  destruct (Z.ltb_spec n 2147483648); [reflexivity | lia].
Qed.

Lemma shl_small (a k : Z) :
  0 <= k < 32 -> 0 <= a -> a * 2 ^ k < 2147483648 -> JS.shl a k = a * 2 ^ k.
Proof.
  intros Hk Ha Hlt. unfold JS.shl.
  assert (0 < 2 ^ k) by (apply Z.pow_pos_nonneg; lia).
  rewrite (toInt32_small a) by nia.
  rewrite Z.mod_small by lia. rewrite Z.shiftl_mul_pow2 by lia.
  apply toInt32_small. nia.
Qed.

Lemma nibbles_of_channel (c : Z) :
  channel8 c -> 0 <= c / 16 < 16 /\ 0 <= c mod 16 < 16 /\ 16 * (c / 16) + c mod 16 = c.
Proof.
  unfold channel8. intros Hc.
  pose proof (Z.div_mod c 16 ltac:(lia)).
  pose proof (Z.mod_pos_bound c 16 ltac:(lia)).
  repeat split;
    first [lia | apply Z.div_pos; lia | apply Z.div_lt_upper_bound; lia].
Qed.

(** What [rgbToHex] prints for 8-bit channels. *)
Lemma rgbToHex_digits (r g b : Z) :
  channel8 r -> channel8 g -> channel8 b ->
  PdfPreview.rgbToHex r g b
  = String "#" (String.append (hex2 r) (String.append (hex2 g) (hex2 b))).
Proof.
  intros Hr Hg Hb.
  destruct (nibbles_of_channel r Hr) as (? & ? & ?).
  destruct (nibbles_of_channel g Hg) as (? & ? & ?).
  destruct (nibbles_of_channel b Hb) as (? & ? & ?).
  unfold channel8 in *. unfold PdfPreview.rgbToHex. f_equal.
  rewrite (shl_small 1 24), (shl_small r 16), (shl_small g 8) by lia.
  replace (1 * 2 ^ 24 + r * 2 ^ 16 + g * 2 ^ 8 + b)
    with (16 * (16 * (16 * (16 * (16 * (16 * 1 + r / 16) + r mod 16) + g / 16)
                        + g mod 16) + b / 16) + b mod 16)
    by (change (2 ^ 24) with 16777216; change (2 ^ 16) with 65536;
        change (2 ^ 8) with 256; lia).
  unfold JS.toString16. rewrite to_hex_int_digits by assumption.
  cbn [HexadecimalString.NilZero.string_of_int
       HexadecimalString.NilZero.string_of_uint
       HexadecimalString.NilEmpty.string_of_uint JS.slice1].
  rewrite !string_of_nibble by assumption. reflexivity.
Qed.

Lemma parse_two_digits (d1 d0 : Z) :
  0 <= d1 < 16 -> 0 <= d0 < 16 ->
  PdfService.parseInt16 (String (hexUpper d1) (String (hexUpper d0) EmptyString))
  = Some (16 * d1 + d0).
Proof.
  intros Hd1 Hd0. nibble_cases d1 H; nibble_cases d0 H; reflexivity.
Qed.

Lemma parse_hex2 (c : Z) : channel8 c -> PdfService.parseInt16 (hex2 c) = Some c.
Proof.
  intros Hc. destruct (nibbles_of_channel c Hc) as (? & ? & ?).
  unfold hex2. rewrite parse_two_digits by assumption. f_equal. lia.
Qed.

Lemma hexToRgb_six_digits (a1 a2 a3 a4 a5 a6 : ascii) :
  PdfService.hexToRgb
    (Some (String "#" (String a1 (String a2 (String a3 (String a4
             (String a5 (String a6 EmptyString))))))))
  = PdfService.mkRGB
      (PdfService.channel
         (PdfService.parseInt16 (String a1 (String a2 EmptyString))))
      (PdfService.channel
         (PdfService.parseInt16 (String a3 (String a4 EmptyString))))
      (PdfService.channel
         (PdfService.parseInt16 (String a5 (String a6 EmptyString)))).
Proof. reflexivity. Qed.

Lemma rgbToHex_read_back (r g b : Z) :
  channel8 r -> channel8 g -> channel8 b ->
  PdfService.hexToRgb (Some (PdfPreview.rgbToHex r g b)) = rgb_of r g b.
Proof.
  intros Hr Hg Hb. rewrite rgbToHex_digits by assumption.
  unfold hex2 at 1 2 3. cbn [String.append].
  rewrite hexToRgb_six_digits.
  fold (hex2 r). fold (hex2 g). fold (hex2 b).
  rewrite !parse_hex2 by assumption. reflexivity.
Qed.

(** The colour the preview prints for a sampled pixel is read back by
    the exporter as that pixel: for 8-bit channels [rgbToHex] gives [#]
    and six characters, and [hexToRgb] of it gives each channel divided
    by 255. *)
Theorem sampled_colour_round_trip (r g b : Z) :
  channel8 r -> channel8 g -> channel8 b ->
  PdfService.hexToRgb (Some (PdfPreview.rgbToHex r g b)) = rgb_of r g b
  /\ String.length (PdfPreview.rgbToHex r g b) = 7%nat
  /\ JS.startsWith (PdfPreview.rgbToHex r g b) "#" = true.
Proof.
  intros Hr Hg Hb. split; [now apply rgbToHex_read_back|].
  rewrite rgbToHex_digits by assumption.
  unfold hex2. cbn [String.append]. split; reflexivity.
Qed.

Lemma sampled_colour_round_trip_witness :
  PdfService.hexToRgb (Some (PdfPreview.rgbToHex 255 0 171))
  = PdfService.mkRGB (255 / 255) (0 / 255) (171 / 255).
Proof.
  apply (sampled_colour_round_trip 255 0 171); unfold channel8; lia.
Defined.

Lemma Qfloor_nonneg (q : Q) : (0 <= q)%Q -> 0 <= Qfloor q.
Proof.
  intros Hq. change 0 with (Qfloor 0). now apply Qfloor_resp_le.
Qed.

(** [getDominantColor] gives white when the canvas, the container or
    the 2D context is missing.  Otherwise it reads the one pixel under
    the rectangle's corner, scaled from display to raster and rounded
    down, at coordinates that are never negative: when that read throws
    it gives white, and else the printed colour of the pixel, which for
    8-bit channels the exporter reads back as that pixel.  The white it
    falls back to is white for the exporter. *)
Theorem dominant_colour_exports (refs : PdfPreview.Refs) (rect : PdfPreview.PixelRect) :
  (forall cv ctx px py r g b,
      PdfPreview.canvasRef refs = Some cv -> PdfPreview.getContext cv = Some ctx ->
      PdfPreview.pixel ctx px py = Some (r, g, b) ->
      channel8 r /\ channel8 g /\ channel8 b) ->
  let colour := PdfPreview.getDominantColor refs rect in
  (PdfPreview.canvasRef refs = None \/ PdfPreview.containerRef refs = None
   \/ (exists cv, PdfPreview.canvasRef refs = Some cv
                  /\ PdfPreview.getContext cv = None) ->
   colour = "#FFFFFF")
  /\ (forall cv ct ctx,
        PdfPreview.canvasRef refs = Some cv ->
        PdfPreview.containerRef refs = Some ct ->
        PdfPreview.getContext cv = Some ctx ->
        let px :=
          Qfloor (Math_max 0 (PdfPreview.r_x rect
                              * (PdfPreview.canvas_width cv / PdfPreview.clientWidth ct))) in
        let py :=
          Qfloor (Math_max 0 (PdfPreview.r_y rect
                              * (PdfPreview.canvas_height cv / PdfPreview.clientHeight ct))) in
        0 <= px /\ 0 <= py
        /\ match PdfPreview.pixel ctx px py with
           | None => colour = "#FFFFFF"
           | Some (r, g, b) =>
               colour = PdfPreview.rgbToHex r g b
               /\ PdfService.hexToRgb (Some colour) = rgb_of r g b
           end)
  /\ is_white (PdfService.hexToRgb (Some "#FFFFFF")).
Proof.
  intros H8 colour. subst colour. unfold PdfPreview.getDominantColor.
  repeat match goal with |- _ /\ _ => split end.
  - intros [-> | [-> | (cv & -> & ->)]]; try reflexivity.
    + now destruct (PdfPreview.canvasRef refs).
    + now destruct (PdfPreview.containerRef refs).
  - intros cv ct ctx Ecv Ect Ectx. rewrite Ecv, Ect, Ectx. cbv zeta.
    match goal with
    | |- context [PdfPreview.pixel ctx ?a ?b] => set (px := a); set (py := b)
    end.
    split; [apply Qfloor_nonneg, Math_max_lower|].
    split; [apply Qfloor_nonneg, Math_max_lower|].
    destruct (PdfPreview.pixel ctx px py) as [[[r g] b]|] eqn:Epx; [|reflexivity].
    split; [reflexivity|].
    destruct (H8 cv ctx px py r g b Ecv Ectx Epx) as (Hr & Hg & Hb).
    now apply rgbToHex_read_back.
  - unfold is_white. simpl. repeat split; reflexivity.
Qed.

Lemma dominant_colour_exports_witness :
  let ctx :=
    PdfPreview.mkContext2D
      (fun px py => if (px =? 150) && (py =? 150) then Some (255, 0, 171) else None)
      (fun _ _ _ _ => None) in
  let cv := PdfPreview.mkCanvas 1500 750 (Some ctx) in
  let ct := PdfPreview.mkContainer (PdfPreview.mkDOMRect 20 30 1000 500) 1000 500 in
  let refs := PdfPreview.mkRefs (Some cv) (Some ct) in
  let colour := PdfPreview.getDominantColor refs (PdfPreview.mkPixelRect 100 100 10 10) in
  colour = PdfPreview.rgbToHex 255 0 171
  /\ PdfService.hexToRgb (Some colour) = rgb_of 255 0 171.
Proof.
  intros ctx cv ct refs.
  assert (H8 : forall cv' ctx' px py r g b,
             PdfPreview.canvasRef refs = Some cv' ->
             PdfPreview.getContext cv' = Some ctx' ->
             PdfPreview.pixel ctx' px py = Some (r, g, b) ->
             channel8 r /\ channel8 g /\ channel8 b).
  { intros cv' ctx' px py r g b [= <-] [= <-]. simpl.
    destruct ((px =? 150) && (py =? 150)); [|discriminate].
    intros [= <- <- <-]. unfold channel8. lia. }
  destruct (dominant_colour_exports refs (PdfPreview.mkPixelRect 100 100 10 10) H8)
    as (_ & Hsample & _).
  destruct (Hsample cv ct ctx eq_refl eq_refl eq_refl) as (_ & _ & Hcolour).
  exact Hcolour.
Defined.

(** ** Snapshots *)

Lemma Math_max_upper (a b : Q) : (b <= Math_max a b)%Q.
Proof.
  unfold Math_max. destruct (Qle_bool a b) eqn:E; [apply Qle_refl|].
  apply Qlt_le_weak, Qgtb_true. unfold Qgtb. now rewrite E.
Qed.

Lemma Math_min_lower (a b : Q) : (Math_min a b <= a)%Q.
Proof.
  unfold Math_min. destruct (Qle_bool a b) eqn:E; [apply Qle_refl|].
  apply Qlt_le_weak, Qgtb_true. unfold Qgtb. now rewrite E.
Qed.

(** [captureMaskSnapshot] gives nothing for a solid mask and nothing
    without a canvas or a 2D context.  For a clone mask it reads one
    strip of thickness 1 and length at least 1 along the named edge,
    from a row or column that is clamped into the raster on the side it
    could leave: not above row 0 for [clone-top], not left of column 0
    for [clone-left], not beyond the last row or column for
    [clone-bottom] and [clone-right]. *)
Theorem snapshot_strip_clamped (refs : PdfPreview.Refs) (mask : Mask) :
  (fillType mask = solid -> PdfPreview.captureMaskSnapshot refs mask = None)
  /\ (PdfPreview.canvasRef refs = None ->
      PdfPreview.captureMaskSnapshot refs mask = None)
  /\ (forall cv, PdfPreview.canvasRef refs = Some cv ->
        PdfPreview.getContext cv = None ->
        PdfPreview.captureMaskSnapshot refs mask = None)
  /\ (forall cv ctx,
        PdfPreview.canvasRef refs = Some cv ->
        PdfPreview.getContext cv = Some ctx ->
        fillType mask <> solid ->
        exists sx sy sw sh,
          PdfPreview.captureMaskSnapshot refs mask = PdfPreview.strip ctx sx sy sw sh
          /\ (1 <= sw /\ 1 <= sh)%Q
          /\ match fillType mask with
             | clone_top =>
                 (sh == 1 /\ 0 <= sy
                  /\ sx == x mask / 100 * PdfPreview.canvas_width cv)%Q
             | clone_bottom =>
                 (sh == 1 /\ sy <= PdfPreview.canvas_height cv - 1
                  /\ sx == x mask / 100 * PdfPreview.canvas_width cv)%Q
             | clone_left =>
                 (sw == 1 /\ 0 <= sx
                  /\ sy == y mask / 100 * PdfPreview.canvas_height cv)%Q
             | clone_right =>
                 (sw == 1 /\ sx <= PdfPreview.canvas_width cv - 1
                  /\ sy == y mask / 100 * PdfPreview.canvas_height cv)%Q
             | solid => False
             end).
Proof.
  unfold PdfPreview.captureMaskSnapshot.
  repeat match goal with |- _ /\ _ => split end.
  - intros ->. destruct (PdfPreview.canvasRef refs); reflexivity.
  - now intros ->.
  - intros cv -> ->. now destruct (MaskFillType_eqb (fillType mask) solid).
  - intros cv ctx -> -> Hfill.
    destruct (fillType mask) eqn:F; [congruence| | | |]; cbn [MaskFillType_eqb];
      cbv zeta; do 4 eexists; (split; [reflexivity|]);
      repeat match goal with |- _ /\ _ => split end;
      try apply Qle_refl; try apply Qeq_refl;
      first [apply Math_max_lower | apply Math_min_lower | idtac].
Qed.

Lemma waiting_after_update (masks : list Mask) (old written : Mask) :
  In old masks -> id written = id old ->
  PdfPreview.needsSnapshot old = true ->
  PdfPreview.needsSnapshot written = false ->
  (waiting (Store.handleUpdateMask masks written) < waiting masks)%nat.
Proof.
  unfold waiting, Store.handleUpdateMask. intros Hin Hid Hold Hnew.
  assert (Hle : forall l : list Mask,
             (length (List.filter PdfPreview.needsSnapshot
                        (List.map (fun m => if String.eqb (id m) (id written)
                                            then written else m) l))
              <= length (List.filter PdfPreview.needsSnapshot l))%nat).
  { induction l as [|m rest IH]; simpl; [lia|].
    destruct (String.eqb (id m) (id written)).
    - rewrite Hnew. destruct (PdfPreview.needsSnapshot m); simpl; lia.
    - destruct (PdfPreview.needsSnapshot m); simpl; lia. }
  induction masks as [|m rest IH]; [destruct Hin|]. simpl.
  destruct Hin as [->|Hin].
  - rewrite <- Hid, String.eqb_refl, Hnew, Hold. simpl.
    specialize (Hle rest). lia.
  - specialize (IH Hin).
    destruct (String.eqb (id m) (id written)).
    + rewrite Hnew. destruct (PdfPreview.needsSnapshot m); simpl; lia.
    + destruct (PdfPreview.needsSnapshot m); simpl; lia.
Qed.

Lemma backfillOne_written (refs : PdfPreview.Refs) (m : Mask) (c : PdfPreview.Call) :
  In c (PdfPreview.backfillOne refs m) ->
  exists written,
    c = PdfPreview.onUpdateMask written /\ id written = id m
    /\ PdfPreview.needsSnapshot m = true
    /\ PdfPreview.needsSnapshot written = false.
Proof.
  unfold PdfPreview.backfillOne.
  destruct (PdfPreview.needsSnapshot m) eqn:N; [|intros []].
  destruct (truthy (PdfPreview.captureMaskSnapshot refs m)) eqn:T; [|intros []].
  intros [<-|[]]. eexists. split; [reflexivity|]. split; [reflexivity|].
  split; [reflexivity|].
  unfold PdfPreview.needsSnapshot. cbn [imageSnapshot with_imageSnapshot].
  rewrite T. apply andb_false_r.
Qed.

(** The calls of one handler run against one closure: after a run of
    updates the stored array is the closure's array with the last update
    applied, and only that one. *)
Lemma run_updates_last (app : App.Session) (calls : list PdfPreview.Call)
    (written : Mask) :
  App.s_masks (App.run app (calls ++ [PdfPreview.onUpdateMask written]))
  = Store.handleUpdateMask (App.s_masks app) written.
Proof.
  unfold App.run. rewrite fold_left_app. reflexivity.
Qed.

(** One run of the snapshot effect that makes any call stores the
    snapshot of the last mask it wrote, and of that mask only, because
    every call replaces the array of the same render; the number of
    stored masks that wait for a snapshot goes down, so repeated runs
    come to a state without calls. *)
Theorem backfill_makes_progress (refs : PdfPreview.Refs) (app : App.Session)
    (mode : EditMode) :
  let calls := PdfPreview.snapshotEffect refs (App.props_of app mode) false in
  calls <> [] ->
  (exists earlier written,
      calls = earlier ++ [PdfPreview.onUpdateMask written]
      /\ App.s_masks (App.run app calls)
         = Store.handleUpdateMask (App.s_masks app) written)
  /\ (waiting (App.s_masks (App.run app calls)) < waiting (App.s_masks app))%nat.
Proof.
  intros calls Hne.
  destruct (exists_last Hne) as (earlier & c & Hcalls).
  assert (Hin : In c calls) by (rewrite Hcalls; apply in_or_app; right; now left).
  unfold calls, PdfPreview.snapshotEffect in Hin. cbv zeta in Hin.
  apply in_flat_map in Hin. destruct Hin as (m & Hvis & Hc).
  destruct (backfillOne_written refs m c Hc) as (written & -> & Hid & Hold & Hnew).
  assert (Hstored : In m (App.s_masks app)).
  { unfold Store.visibleMasks in Hvis. apply filter_In in Hvis. apply Hvis. }
  rewrite Hcalls. split.
  - exists earlier, written. split; [reflexivity | apply run_updates_last].
  - rewrite run_updates_last.
    now apply (waiting_after_update (App.s_masks app) m written).
Qed.

Lemma backfill_makes_progress_witness :
  let ctx := PdfPreview.mkContext2D (fun _ _ => None)
               (fun _ _ _ _ => Some "data:image/png;base64,AA==") in
  let refs :=
    PdfPreview.mkRefs (Some (PdfPreview.mkCanvas 1500 750 (Some ctx)))
      (Some (PdfPreview.mkContainer (PdfPreview.mkDOMRect 0 0 1000 500) 1000 500)) in
  let a := mkMask "mask-1" 10 80 30 5 "#FFFFFF" clone_top None (Some 0) in
  let b := mkMask "mask-2" 50 80 30 5 "#FFFFFF" clone_left None None in
  let app := App.mkSession [a; b] None 1 in
  let calls := PdfPreview.snapshotEffect refs (App.props_of app MASK) false in
  (waiting (App.s_masks (App.run app calls)) < 2)%nat.
Proof.
  intros ctx refs a b app calls.
  apply (backfill_makes_progress refs app MASK). discriminate.
Defined.

(** Two clone masks wait for a snapshot: the first run writes both and
    only the second write is stored; the next run stores the first. *)
Example backfill_takes_two_runs :
  let ctx := PdfPreview.mkContext2D (fun _ _ => None)
               (fun _ _ _ _ => Some "data:image/png;base64,AA==") in
  let refs :=
    PdfPreview.mkRefs (Some (PdfPreview.mkCanvas 1500 750 (Some ctx)))
      (Some (PdfPreview.mkContainer (PdfPreview.mkDOMRect 0 0 1000 500) 1000 500)) in
  let a := mkMask "mask-1" 10 80 30 5 "#FFFFFF" clone_top None (Some 0) in
  let b := mkMask "mask-2" 50 80 30 5 "#FFFFFF" clone_left None None in
  let app := App.mkSession [a; b] None 1 in
  let run s := App.run s (PdfPreview.snapshotEffect refs (App.props_of s MASK) false) in
  List.map imageSnapshot (App.s_masks (run app))
  = [None; Some "data:image/png;base64,AA=="]
  /\ List.map imageSnapshot (App.s_masks (run (run app)))
     = [Some "data:image/png;base64,AA=="; Some "data:image/png;base64,AA=="]
  /\ run (run (run app)) = run (run app).
Proof. repeat split. Qed.

(** ** Mask detection *)

Lemma hasDash_append_dash (a d : string) :
  hasDash (String.append a (String "-" d)) = true.
Proof.
  induction a as [|c a IH]; simpl; [reflexivity|].
  rewrite IH. apply orb_true_r.
Qed.

Lemma lastSegment_append (a d : string) :
  hasDash d = false -> lastSegment (String.append a (String "-" d)) = d.
Proof.
  intros Hd. induction a as [|c a IH]; simpl.
  - now rewrite Hd.
  - now rewrite hasDash_append_dash.
Qed.

Lemma decimal_digits_no_dash (u : Decimal.uint) :
  hasDash (DecimalString.NilEmpty.string_of_uint u) = false.
Proof. induction u; simpl; try assumption; reflexivity. Qed.

Lemma toString10_no_dash (n : Z) : 0 <= n -> hasDash (JS.toString10 n) = false.
Proof.
  intros Hn. unfold JS.toString10. destruct n as [|p|p]; [reflexivity| |lia].
  cbn [Z.to_int DecimalString.NilZero.string_of_int].
  unfold DecimalString.NilZero.string_of_uint.
  destruct (Pos.to_uint p) eqn:E; try (rewrite <- E; apply decimal_digits_no_dash).
  reflexivity.
Qed.

Lemma toString10_inj (n m : Z) : JS.toString10 n = JS.toString10 m -> n = m.
Proof.
  unfold JS.toString10. intros H. apply DecimalZ.to_int_inj.
  assert (Hok : forall z, Z.to_int z <> Decimal.Pos Decimal.Nil
                          /\ Z.to_int z <> Decimal.Neg Decimal.Nil).
  { intros [|p|p]; split; try discriminate; simpl; intros [= E];
      now apply (DecimalPos.Unsigned.to_uint_nonnil p). }
  pose proof (DecimalString.NilZero.isi (Z.to_int n)
                (proj1 (Hok n)) (proj2 (Hok n))) as Hn.
  pose proof (DecimalString.NilZero.isi (Z.to_int m)
                (proj1 (Hok m)) (proj2 (Hok m))) as Hm.
  rewrite H in Hn. congruence.
Qed.

Lemma string_append_assoc (a b c : string) :
  String.append (String.append a b) c = String.append a (String.append b c).
Proof. induction a as [|ch a IH]; simpl; [reflexivity | now rewrite IH]. Qed.

(** The index can be read back from a detected id, whatever the clock
    said. *)
Lemma detectedId_index (now idx : Z) :
  0 <= idx ->
  lastSegment (GeminiDetect.detectedId now idx) = JS.toString10 idx.
Proof.
  intros Hidx. unfold GeminiDetect.detectedId.
  rewrite <- string_append_assoc.
  change (String.append "-" (JS.toString10 idx))
    with (String "-" (JS.toString10 idx)).
  apply lastSegment_append. now apply toString10_no_dash.
Qed.

Section MapMasks.

Import GeminiService GeminiDetect.

Variable now : Z -> Z.

Lemma mapMasks_spec (items : list jsval) (k : Z) (l : list DetectedMask) :
  mapMasks now k items = inr l ->
  Forall2 made_from items l
  /\ Forall (fun d => d_fillType d = solid /\ falsy (d_color d) = false) l
  /\ List.map d_id l
     = List.map (fun j => detectedId (now j) j) (seqZ k (Z.of_nat (length items))).
Proof.
  revert k l. induction items as [|item rest IH]; intros k l.
  - intros [= <-]. repeat split; constructor.
  - cbn [mapMasks]. unfold Exc.bind.
    destruct (get_prop item "x") as [?|mx] eqn:Ex; [discriminate|].
    destruct (get_prop item "y") as [?|my] eqn:Ey; [discriminate|].
    destruct (get_prop item "width") as [?|mw] eqn:Ew; [discriminate|].
    destruct (get_prop item "height") as [?|mh] eqn:Eh; [discriminate|].
    destruct (get_prop item "color") as [?|mc] eqn:Ec; [discriminate|].
    destruct (mapMasks now (k + 1) rest) as [?|others] eqn:Er; [discriminate|].
    intros [= <-]. destruct (IH (k + 1) others Er) as (H2 & Hall & Hids).
    repeat match goal with |- _ /\ _ => split end.
    + constructor; [|exact H2]. repeat split; assumption.
    + constructor; [|exact Hall]. split; [reflexivity|].
      cbn [d_color]. unfold or_else. destruct (falsy mc) eqn:F; [reflexivity|exact F].
    + cbn [length]. rewrite seqZ_cons by lia.
      replace (Z.pred (Z.of_nat (S (length rest)))) with (Z.of_nat (length rest))
        by lia.
      replace (Z.succ k) with (k + 1) by lia.
      cbn [List.map d_id]. now rewrite Hids.
Qed.

Lemma mapMasks_total (items : list jsval) (k : Z) :
  Forall (fun item => item <> JNull /\ item <> JUndefined) items ->
  exists l, mapMasks now k items = inr l.
Proof.
  intros Hall. revert k. induction Hall as [|item rest [Hn Hu] _ IH]; intros k.
  - simpl. eauto.
  - cbn [mapMasks]. destruct (IH (k + 1)) as [others ->].
    destruct item; try congruence; simpl; eauto.
Qed.

Lemma detected_ids_distinct (k : Z) (n : nat) :
  0 <= k ->
  NoDup (List.map (fun j => detectedId (now j) j) (seqZ k (Z.of_nat n))).
Proof.
  intros Hk. apply (NoDup_fmap_2_strong (fun j => detectedId (now j) j)).
  - intros i j Hi Hj Heq. apply elem_of_seqZ in Hi. apply elem_of_seqZ in Hj.
    apply toString10_inj.
    rewrite <- (detectedId_index (now i) i), <- (detectedId_index (now j) j) by lia.
    now rewrite Heq.
  - apply NoDup_seqZ.
Qed.

End MapMasks.

(** [detectWatermarkMasks] throws only for a missing key.  With a key,
    every failure of the request, of the text or of its parsing gives
    the empty list, and so does a response without a [masks] field.
    Every mask it returns is solid with a colour that is not empty, the
    ids of one answer are pairwise different whatever the clock reads,
    and when the response lists descriptors that are not [null] there
    is one mask for each, in order, with the descriptor's geometry. *)
Theorem detectWatermarkMasks_safe (ai : GeminiDetect.Service) (now : Z -> Z)
    (image : string) :
  let answer := GeminiDetect.detectWatermarkMasks ai now image in
  (GeminiDetect.API_KEY ai = "" -> answer = inl (Error "API Key is missing"))
  /\ (GeminiDetect.API_KEY ai <> "" -> exists l, answer = inr l)
  /\ (GeminiDetect.API_KEY ai <> "" ->
      (exists e, GeminiDetect.generate ai image = inl e)
      \/ (exists t, GeminiDetect.generate ai image = inr t /\ truthy t = false)
      \/ (exists t e, GeminiDetect.generate ai image = inr (Some t)
                      /\ GeminiDetect.parse ai t = inl e)
      \/ (exists t entries, GeminiDetect.generate ai image = inr (Some t)
                            /\ GeminiDetect.parse ai t = inr (GeminiService.JObj entries)
                            /\ GeminiService.lookup_key entries "masks"
                               = GeminiService.JUndefined) ->
      answer = inr [])
  /\ (forall l, answer = inr l ->
        Forall (fun d => GeminiDetect.d_fillType d = solid
                         /\ GeminiService.falsy (GeminiDetect.d_color d) = false) l
        /\ NoDup (List.map GeminiDetect.d_id l))
  /\ (forall t result items,
        GeminiDetect.API_KEY ai <> "" ->
        GeminiDetect.generate ai image = inr (Some t) -> t <> "" ->
        GeminiDetect.parse ai t = inr result ->
        GeminiService.get_prop result "masks" = inr (GeminiService.JArr items) ->
        Forall (fun item => item <> GeminiService.JNull
                            /\ item <> GeminiService.JUndefined) items ->
        exists l, answer = inr l /\ Forall2 made_from items l).
Proof.
  cbv zeta. unfold GeminiDetect.detectWatermarkMasks.
  destruct (GeminiDetect.API_KEY ai) as [|c key] eqn:K.
  { repeat match goal with |- _ /\ _ => split end.
    - reflexivity.
    - congruence.
    - congruence.
    - intros l. unfold Exc.throw. discriminate.
    - congruence. }
  repeat match goal with |- _ /\ _ => split end.
  - discriminate.
  - intros _. match goal with |- context [Exc.try_catch ?b _] => destruct b end;
      simpl; eauto.
  - intros _ [(e & ->) | [(t & -> & Hf) | [(t & e & -> & He) | (t & entries & -> & Hp & Hl)]]];
      simpl.
    + reflexivity.
    + now rewrite Hf.
    + destruct t; simpl; [reflexivity|]. now rewrite He.
    + destruct t; simpl; [reflexivity|]. rewrite Hp. simpl. now rewrite Hl.
  - intros l. unfold Exc.try_catch, Exc.bind.
    destruct (GeminiDetect.generate ai image) as [e|text];
      [intros [= <-]; split; constructor|].
    destruct (truthy text); [|intros [= <-]; split; constructor].
    destruct (GeminiDetect.parse ai _) as [e|result];
      [intros [= <-]; split; constructor|].
    destruct (GeminiService.get_prop result "masks") as [e|found];
      [intros [= <-]; split; constructor|].
    destruct (GeminiService.or_else found (GeminiService.JArr [])) as [| | | | |items|];
      try (intros [= <-]; split; constructor).
    destruct (GeminiDetect.mapMasks now 0 items) as [e|found'] eqn:M;
      [intros [= <-]; split; constructor|].
    intros [= <-]. destruct (mapMasks_spec now items 0 found' M) as (_ & Hall & Hids).
    split; [exact Hall|]. rewrite Hids. apply detected_ids_distinct. lia.
  - intros t result items _ Hg Ht Hp Hm Hitems. rewrite Hg.
    destruct t as [|c0 t0]; [congruence|]. simpl. rewrite Hp. simpl. rewrite Hm.
    simpl. destruct (mapMasks_total now items 0 Hitems) as [l Hl].
    rewrite Hl. simpl. exists l. split; [reflexivity|].
    apply (mapMasks_spec now items 0 l Hl).
Qed.

(** A response with two descriptors for a clock that does not advance:
    two solid masks with different ids, the missing colour replaced by
    white. *)
Example detect_two_masks :
  let first :=
    GeminiService.JObj
      [("x", GeminiService.JNum 80); ("y", GeminiService.JNum 90);
       ("width", GeminiService.JNum 15); ("height", GeminiService.JNum 5);
       ("color", GeminiService.JStr "#0A0B0C")] in
  let second :=
    GeminiService.JObj
      [("x", GeminiService.JNum 2); ("y", GeminiService.JNum 3);
       ("width", GeminiService.JNum 4); ("height", GeminiService.JNum 5)] in
  let ai :=
    GeminiDetect.mkService "key" (fun _ => inr (Some "{}"))
      (fun _ => inr (GeminiService.JObj
                       [("masks", GeminiService.JArr [first; second])])) in
  option_map (List.map (fun d => (GeminiDetect.d_id d, GeminiDetect.d_color d)))
    (match GeminiDetect.detectWatermarkMasks ai (fun _ => 1700000000000) "aGVsbG8="
     with inr l => Some l | inl _ => None end)
  = Some [("mask-1700000000000-0", GeminiService.JStr "#0A0B0C");
          ("mask-1700000000000-1", GeminiService.JStr "#FFFFFF")].
Proof. reflexivity. Qed.

(** ** Text analysis *)


#[local] Set Warnings "-abstract-large-number".


(** ** Colours typed or picked in the control panel *)

Lemma parse_two_digits_any (u1 u0 : bool) (d1 d0 : Z) :
  0 <= d1 < 16 -> 0 <= d0 < 16 ->
  PdfService.parseInt16
    (String (hexDigit u1 d1) (String (hexDigit u0 d0) EmptyString))
  = Some (16 * d1 + d0).
Proof.
  intros Hd1 Hd0. destruct u1, u0; nibble_cases d1 H; nibble_cases d0 H;
    reflexivity.
Qed.

Lemma parse_hexPair (u1 u0 : bool) (c : Z) :
  channel8 c -> PdfService.parseInt16 (hexPair u1 u0 c) = Some c.
Proof.
  intros Hc. destruct (nibbles_of_channel c Hc) as (? & ? & ?).
  unfold hexPair. rewrite parse_two_digits_any by assumption. f_equal. lia.
Qed.

(** A six-digit colour is read in either case of its letters: the
    exporter gives each channel divided by 255 for [#rrggbb] as a colour
    picker writes it, in upper case, or mixed. *)
Theorem hexToRgb_reads_six_digits (r g b : Z) (u1 u2 u3 u4 u5 u6 : bool) :
  channel8 r -> channel8 g -> channel8 b ->
  PdfService.hexToRgb
    (Some (String "#" (String.append (hexPair u1 u2 r)
                        (String.append (hexPair u3 u4 g) (hexPair u5 u6 b)))))
  = rgb_of r g b.
Proof.
  intros Hr Hg Hb. unfold hexPair at 1 2 3. cbn [String.append].
  rewrite hexToRgb_six_digits.
  fold (hexPair u1 u2 r). fold (hexPair u3 u4 g). fold (hexPair u5 u6 b).
  rewrite !parse_hexPair by assumption. reflexivity.
Qed.

Lemma hexToRgb_reads_six_digits_witness :
  PdfService.hexToRgb (Some "#1a2B3c") = rgb_of 26 43 60.
Proof.
  apply (hexToRgb_reads_six_digits 26 43 60 true false true true true false);
    unfold channel8; lia.
Defined.

(** ** Updates compose *)

(** Updates by id compose as replacements: a second update of the same
    id overrides the first, an update repeated changes nothing more,
    updates of different ids commute, and an update that arrives after
    its mask was deleted changes nothing. *)
Theorem handleUpdateMask_compose (masks : list Mask) (m1 m2 : Mask) :
  (id m1 = id m2 ->
     Store.handleUpdateMask (Store.handleUpdateMask masks m1) m2
     = Store.handleUpdateMask masks m2)
  /\ Store.handleUpdateMask (Store.handleUpdateMask masks m1) m1
     = Store.handleUpdateMask masks m1
  /\ (id m1 <> id m2 ->
        Store.handleUpdateMask (Store.handleUpdateMask masks m1) m2
        = Store.handleUpdateMask (Store.handleUpdateMask masks m2) m1)
  /\ (forall selected,
        Store.handleUpdateMask
          (fst (Store.handleDeleteMask masks selected (id m1))) m1
        = fst (Store.handleDeleteMask masks selected (id m1))).
Proof.
  unfold Store.handleUpdateMask.
  assert (Hsame : forall a b : Mask, id a = id b ->
            List.map (fun m => if String.eqb (id m) (id b) then b else m)
              (List.map (fun m => if String.eqb (id m) (id a) then a else m) masks)
            = List.map (fun m => if String.eqb (id m) (id b) then b else m) masks).
  { intros a b Hid. rewrite List.map_map. apply List.map_ext. intros m.
    rewrite Hid. destruct (String.eqb (id m) (id b)) eqn:E; [|now rewrite E].
    now rewrite Hid, String.eqb_refl. }
  repeat match goal with |- _ /\ _ => split end.
  - apply Hsame.
  - now apply Hsame.
  - intros Hne. rewrite !List.map_map. apply List.map_ext. intros m.
    destruct (String.eqb (id m) (id m1)) eqn:E1;
      destruct (String.eqb (id m) (id m2)) eqn:E2.
    + apply String.eqb_eq in E1, E2. congruence.
    + rewrite ?E1, ?E2.
      destruct (String.eqb (id m1) (id m2)) eqn:E; [|reflexivity].
      apply String.eqb_eq in E. congruence.
    + rewrite ?E1, ?E2.
      destruct (String.eqb (id m2) (id m1)) eqn:E; [|reflexivity].
      apply String.eqb_eq in E. congruence.
    + rewrite ?E1, ?E2. reflexivity.
  - intros selected. unfold Store.handleDeleteMask. cbn [fst]. clear Hsame.
    induction masks as [|m rest IH]; simpl; [reflexivity|].
    destruct (String.eqb (id m) (id m1)) eqn:E; simpl.
    + apply IH.
    + rewrite E. f_equal. apply IH.
Qed.

(** ** The image sent to the detector *)

Lemma Math_min_upper (a b : Q) : (Math_min a b <= b)%Q.
Proof.
  unfold Math_min. destruct (Qle_bool a b) eqn:E; [|apply Qle_refl].
  now apply Qle_bool_iff.
Qed.

Lemma Math_min_cases (a b : Q) : Math_min a b = a \/ Math_min a b = b.
Proof. unfold Math_min. destruct (Qle_bool a b); auto. Qed.

Lemma Qltb_true (a b : Q) : Qltb a b = true <-> (a < b)%Q.
Proof. unfold Qltb. apply (Qgtb_true b a). Qed.

Lemma Qltb_false (a b : Q) : Qltb a b = false <-> (b <= a)%Q.
Proof. unfold Qltb. apply (Qgtb_false b a). Qed.

(** The scale at which [getPageAsImage] renders the page for the
    detector: a page at least 600 wide is never enlarged and neither of
    its sides exceeds 1280 after scaling, and it is rendered at scale 1
    when it already fits; a page narrower than 600 is scaled to a width
    of exactly 600, whatever that makes of its height. *)
Theorem getPageAsImage_scale (pdf : PdfService.PdfDocument) (n : Z)
    (page : PdfService.PdfPage) :
  PdfService.getPage pdf (Z.max 1 (Z.min n (PdfService.numPages pdf))) = inr page ->
  (0 < PdfService.page_width page)%Q -> (0 < PdfService.page_height page)%Q ->
  exists finalScale,
    snd (PdfService.getPageAsImage (inr pdf) n)
    = PdfService.renderJpeg page finalScale
    /\ (0 < finalScale)%Q
    /\ ((600 <= PdfService.page_width page)%Q ->
        (finalScale <= 1
         /\ finalScale * PdfService.page_width page <= 1280
         /\ finalScale * PdfService.page_height page <= 1280)%Q)
    /\ ((600 <= PdfService.page_width page)%Q ->
        (PdfService.page_width page <= 1280)%Q ->
        (PdfService.page_height page <= 1280)%Q ->
        finalScale = 1%Q)
    /\ ((PdfService.page_width page < 600)%Q ->
        (finalScale * PdfService.page_width page == 600)%Q).
Proof.
  intros Hpage Hw Hh.
  unfold PdfService.getPageAsImage, PdfService.andThen, PdfService.askPage,
    PdfService.noAsk.
  rewrite Hpage. cbn [snd]. cbv zeta.
  set (w := PdfService.page_width page) in *.
  set (h := PdfService.page_height page) in *.
  set (M := Math_max w h).
  assert (HwM : (w <= M)%Q) by apply Math_max_lower.
  assert (HhM : (h <= M)%Q) by apply Math_max_upper.
  assert (HM : (0 < M)%Q) by lra.
  assert (HMne : ~ (M == 0)%Q) by lra.
  set (q := (1280 / M)%Q).
  assert (HqM : (q * M == 1280)%Q) by (unfold q; field; exact HMne).
  assert (Hq : (0 < q)%Q) by (unfold q; apply Qlt_shift_div_l; lra).
  set (scale := Math_min 1 q).
  assert (Hs1 : (scale <= 1)%Q) by apply Math_min_lower.
  assert (Hsq : (scale <= q)%Q) by apply Math_min_upper.
  assert (Hs0 : (0 < scale)%Q)
    by (destruct (Math_min_cases 1 q) as [E|E]; unfold scale; rewrite E; lra).
  assert (HsM : (scale * M <= 1280)%Q).
  { rewrite <- HqM. apply Qmult_le_compat_r; lra. }
  destruct (Qltb w 600) eqn:E.
  - apply Qltb_true in E. eexists. split; [reflexivity|].
    repeat match goal with |- _ /\ _ => split end.
    + apply Qlt_shift_div_l; lra.
    + intros. lra.
    + intros. lra.
    + intros _. field. lra.
  - apply Qltb_false in E. exists scale. split; [reflexivity|].
    repeat match goal with |- _ /\ _ => split end.
    + exact Hs0.
    + intros _. repeat split.
      * exact Hs1.
      * apply Qle_trans with (scale * M)%Q; [|exact HsM].
        rewrite !(Qmult_comm scale). apply Qmult_le_compat_r; lra.
      * apply Qle_trans with (scale * M)%Q; [|exact HsM].
        rewrite !(Qmult_comm scale). apply Qmult_le_compat_r; lra.
    + intros _ Hw' Hh'.
      assert (HM' : (M <= 1280)%Q)
        by (unfold M, Math_max; destruct (Qle_bool w h); assumption).
      unfold scale, Math_min.
      assert (Hle : Qle_bool 1 q = true).
      { apply Qle_bool_iff. unfold q. apply Qle_shift_div_l; lra. }
      now rewrite Hle.
    + intros. lra.
Qed.

Lemma getPageAsImage_scale_witness :
  let page := PdfService.mkPdfPage 1920 1080 (fun s => inr "base64") in
  let pdf := PdfService.mkPdfDocument 3 (fun _ => inr page) in
  exists finalScale,
    snd (PdfService.getPageAsImage (inr pdf) 2) = PdfService.renderJpeg page finalScale
    /\ (finalScale * 1920 <= 1280)%Q.
Proof.
  intros page pdf.
  destruct (getPageAsImage_scale pdf 2 page eq_refl)
    as (s & Hs & _ & Hbig & _); [reflexivity | reflexivity |].
  exists s. split; [exact Hs|]. apply Hbig. simpl. lra.
Defined.

(** ** Drawing in either direction *)

Lemma Math_min_sym (a b : Q) : (Math_min a b == Math_min b a)%Q.
Proof.
  unfold Math_min. destruct (Qle_bool a b) eqn:E1, (Qle_bool b a) eqn:E2;
    try reflexivity.
  - apply Qle_bool_iff in E1, E2. now apply Qle_antisym.
  - assert (b < a)%Q by (apply Qgtb_true; unfold Qgtb; now rewrite E1).
    assert (a < b)%Q by (apply Qgtb_true; unfold Qgtb; now rewrite E2).
    lra.
Qed.

Lemma Math_abs_sym (a b : Q) : (Math_abs (a - b) == Math_abs (b - a))%Q.
Proof.
  unfold Math_abs.
  destruct (Qle_bool 0 (a - b)) eqn:E1, (Qle_bool 0 (b - a)) eqn:E2.
  - apply Qle_bool_iff in E1, E2. lra.
  - ring.
  - ring.
  - assert (a - b < 0)%Q by (apply Qgtb_true; unfold Qgtb; now rewrite E1).
    assert (b - a < 0)%Q by (apply Qgtb_true; unfold Qgtb; now rewrite E2).
    lra.
Qed.

Lemma Math_max_compat (a b b' : Q) : (b == b')%Q -> (Math_max a b == Math_max a b')%Q.
Proof.
  intros Hb. unfold Math_max. rewrite <- Hb.
  destruct (Qle_bool a b); [exact Hb | reflexivity].
Qed.

Lemma Qgtb_compat (a a' b : Q) : (a == a')%Q -> Qgtb a b = Qgtb a' b.
Proof. intros Ha. unfold Qgtb. now rewrite Ha. Qed.

(** The sampled colour depends on the corner of the rectangle only up
    to the value of its coordinates. *)
Lemma getDominantColor_compat (refs : PdfPreview.Refs) (r1 r2 : PdfPreview.PixelRect) :
  (PdfPreview.r_x r1 == PdfPreview.r_x r2)%Q ->
  (PdfPreview.r_y r1 == PdfPreview.r_y r2)%Q ->
  PdfPreview.getDominantColor refs r1 = PdfPreview.getDominantColor refs r2.
Proof.
  intros Hx Hy. unfold PdfPreview.getDominantColor.
  destruct (PdfPreview.canvasRef refs) as [cv|]; [|reflexivity].
  destruct (PdfPreview.containerRef refs) as [ct|]; [|reflexivity].
  destruct (PdfPreview.getContext cv) as [ctx|]; [|reflexivity].
  cbv zeta.
  rewrite (Qfloor_comp _ _ (Math_max_compat 0 _ _
             (Qmult_comp _ _ Hx _ _ (Qeq_refl _)))).
  rewrite (Qfloor_comp _ _ (Math_max_compat 0 _ _
             (Qmult_comp _ _ Hy _ _ (Qeq_refl _)))).
  reflexivity.
Qed.

(** Drawing a rectangle from one corner to the opposite one or the
    other way round commits the same thing: in both directions nothing,
    or in both one mask with the same rectangle, colour, id, fill and
    scope. *)
Theorem drawing_direction_independent (refs : PdfPreview.Refs)
    (props : PdfPreview.Props) (now : Z) (a b : PdfPreview.Point)
    (h : option PdfPreview.ResizeHandle) (init : option Mask) :
  let forth := PdfPreview.mkState PdfPreview.DRAWING h (Some a) (Some b) init in
  let back := PdfPreview.mkState PdfPreview.DRAWING h (Some b) (Some a) init in
  match snd (PdfPreview.handleGlobalMouseUp refs props now forth),
        snd (PdfPreview.handleGlobalMouseUp refs props now back) with
  | [], [] => True
  | [PdfPreview.onAddMask m1], [PdfPreview.onAddMask m2] =>
      same_box m1 m2 /\ color m1 = color m2 /\ id m1 = id m2
      /\ fillType m1 = fillType m2 /\ pageIndex m1 = pageIndex m2
      /\ imageSnapshot m1 = imageSnapshot m2
  | _, _ => False
  end.
Proof.
  cbv zeta. unfold PdfPreview.handleGlobalMouseUp. cbn [fst snd
    PdfPreview.interactionState PdfPreview.startPos PdfPreview.currentPos].
  destruct (PdfPreview.containerRef refs) as [container|] eqn:C; [|exact I].
  pose proof (Math_min_sym (PdfPreview.pt_x a) (PdfPreview.pt_x b)) as HX.
  pose proof (Math_min_sym (PdfPreview.pt_y a) (PdfPreview.pt_y b)) as HY.
  pose proof (Math_abs_sym (PdfPreview.pt_x b) (PdfPreview.pt_x a)) as HW.
  pose proof (Math_abs_sym (PdfPreview.pt_y b) (PdfPreview.pt_y a)) as HH.
  rewrite (Qgtb_compat _ _ 5 HW), (Qgtb_compat _ _ 5 HH).
  destruct (Qgtb _ 5 && Qgtb _ 5); [|exact I].
  unfold PdfPreview.drawnMask, same_box, PdfPreview.toPercent.
  cbn [x y width height color id fillType pageIndex imageSnapshot].
  repeat match goal with |- _ /\ _ => split end; try reflexivity.
  - now rewrite HX.
  - now rewrite HY.
  - now rewrite HW.
  - now rewrite HH.
  - apply getDominantColor_compat; assumption.
Qed.
